(** * Genomic-Data-Bias: the AoU metadata analysis scripts

    A shallow embedding of [scripts/AoU/level1_metadata_analysis.py] and
    [scripts/AoU/level2_metadata_analysis.py].

    - Part I gives the relational meaning of the three SQL queries the
      scripts send (tables as lists of records, SQL [NULL] as [None]).
    - Part II models the pandas frames the scripts compute with.
    - Part III models the scripts themselves: one definition per
      top-level block, in an exception-and-trace monad.
    - Part IV states and proves the properties.

    What is outside the repository is a parameter ([World]): the
    environment, the query engine, the statistics routines
    (Kruskal-Wallis, Dunn, chi-square) and the renderer.  [main] is a
    run in which the BigQuery client is constructed; [main_with] takes
    the outcome of the construction as a parameter.  Floating-point
    values are modelled by the exact rationals they round, [NaN] apart. *)

From Stdlib Require Import List ZArith QArith Qabs Bool Ascii String DecimalString DecimalN Lia
  Permutation Sorted.
Import ListNotations.

Local Open Scope string_scope.
Local Open Scope Z_scope.

(* ===================================================================== *)
(** * Part I: the warehouse tables and the SQL queries                   *)
(* ===================================================================== *)

Module Warehouse.

(** Rows of the four tables the queries read.  Only the columns the
    queries mention are kept.  Nullable columns are options. *)

Record person := mk_person {
  person_id : Z;
  year_of_birth : option Z;
  sex_at_birth_concept_id : option Z;
  race_concept_id : option Z;
  ethnicity_concept_id : option Z
}.

Record concept := mk_concept {
  concept_id : Z;
  concept_name : option string
}.

Record observation := mk_observation {
  obs_person_id : Z;
  observation_source_concept_id : option Z;
  value_as_string : option string
}.

Record zip3_ses := mk_zip3_ses {
  zip3_as_string : string;
  median_income : option Q;
  fraction_poverty : option Q;
  fraction_no_health_ins : option Q
}.

Record dataset := mk_dataset {
  person_tbl : list person;
  concept_tbl : list concept;
  observation_tbl : list observation;
  zip3_ses_map_tbl : list zip3_ses
}.

(** SQL equality is three-valued; an [ON] or [WHERE] clause keeps a pair
    only when the comparison is true, so a [NULL] operand never matches. *)

Definition sql_eqZ (a b : option Z) : bool :=
  match a, b with
  | Some x, Some y => Z.eqb x y
  | _, _ => false
  end.

Definition sql_eqS (a b : option string) : bool :=
  match a, b with
  | Some x, Some y => String.eqb x y
  | _, _ => false
  end.

(** [l LEFT JOIN r ON on]: every left row is paired with each matching
    right row, or once with the all-[NULL] right row when none matches. *)

Definition left_join {A B : Type} (on : A -> B -> bool)
    (l : list A) (r : list B) : list (A * option B) :=
  flat_map (fun a =>
    match filter (on a) r with
    | [] => [(a, None)]
    | ms => map (fun b => (a, Some b)) ms
    end) l.

(** [l JOIN r ON on]: the matching pairs only. *)

Definition inner_join {A B : Type} (on : A -> B -> bool)
    (l : list A) (r : list B) : list (A * B) :=
  flat_map (fun a => map (fun b => (a, b)) (filter (on a) r)) l.

(** 1585250 is the concept ID for 3-digit ZIP. *)
Definition zip3_concept : Z := 1585250.

(** [FROM person p LEFT JOIN concept c_sex ... c_race ... c_eth]: the
    part the demographics query and the combined query share. *)

Definition on_sex (p : person) (c : concept) : bool :=
  sql_eqZ (sex_at_birth_concept_id p) (Some (concept_id c)).

Definition on_race (pc : person * option concept) (c : concept) : bool :=
  sql_eqZ (race_concept_id (fst pc)) (Some (concept_id c)).

Definition on_eth (pcc : person * option concept * option concept)
    (c : concept) : bool :=
  sql_eqZ (ethnicity_concept_id (fst (fst pcc))) (Some (concept_id c)).

Definition labelled := (person * option concept * option concept * option concept)%type.

Definition from_person_concepts (ds : dataset) : list labelled :=
  left_join on_eth
    (left_join on_race
       (left_join on_sex (person_tbl ds) (concept_tbl ds))
       (concept_tbl ds))
    (concept_tbl ds).

Definition lab_person (x : labelled) : person := fst (fst (fst x)).
Definition lab_sex (x : labelled) : option concept := snd (fst (fst x)).
Definition lab_race (x : labelled) : option concept := snd (fst x).
Definition lab_eth (x : labelled) : option concept := snd x.

(** A column of the [NULL]-extended side of a left join. *)
Definition col_of {B C : Type} (f : B -> option C) (ob : option B) : option C :=
  match ob with
  | Some b => f b
  | None => None
  end.

(** [(2025 - p.year_of_birth) AS age].  The column is a 64-bit integer;
    a year of birth is far from its bounds, and the overflow that the
    engine would report as a failed query is not modelled. *)
Definition age_of (p : person) : option Z :=
  option_map (fun y => 2025 - y) (year_of_birth p).

End Warehouse.

(** ** The demographics query of level 1 *)

Module Level1Sql.
Import Warehouse.

Record row := mk_row {
  age : option Z;
  sex_at_birth : option string;
  race : option string;
  ethnicity : option string
}.

Definition select (x : labelled) : row :=
  {| age := age_of (lab_person x);
     sex_at_birth := col_of concept_name (lab_sex x);
     race := col_of concept_name (lab_race x);
     ethnicity := col_of concept_name (lab_eth x) |}.

Definition sql_query (ds : dataset) : list row :=
  map select (from_person_concepts ds).

(** The SES query of level 1:
    [FROM observation obs JOIN zip3_ses_map ses ON obs.value_as_string =
    ses.zip3_as_string WHERE obs.observation_source_concept_id = 1585250]. *)

Record ses_row := mk_ses_row {
  s_median_income : option Q;
  s_fraction_poverty : option Q;
  s_fraction_no_health_ins : option Q
}.

Definition on_zip (o : observation) (s : zip3_ses) : bool :=
  sql_eqS (value_as_string o) (Some (zip3_as_string s)).

Definition where_zip3 (os : observation * zip3_ses) : bool :=
  sql_eqZ (observation_source_concept_id (fst os)) (Some zip3_concept).

Definition select_ses (os : observation * zip3_ses) : ses_row :=
  {| s_median_income := median_income (snd os);
     s_fraction_poverty := fraction_poverty (snd os);
     s_fraction_no_health_ins := fraction_no_health_ins (snd os) |}.

Definition sql_query_ses (ds : dataset) : list ses_row :=
  map select_ses
    (filter where_zip3
       (inner_join on_zip (observation_tbl ds) (zip3_ses_map_tbl ds))).

End Level1Sql.

(** ** The combined query of level 2 *)

Module Level2Sql.
Import Warehouse.

Record row := mk_row {
  person_id : Z;
  age : option Z;
  sex_at_birth : option string;
  race : option string;
  ethnicity : option string;
  median_income : option Q;
  fraction_poverty : option Q;
  fraction_no_health_ins : option Q
}.

(** [ON p.person_id = obs.person_id AND
       obs.observation_source_concept_id = 1585250] *)
Definition on_obs (x : labelled) (o : observation) : bool :=
  Z.eqb (Warehouse.person_id (lab_person x)) (obs_person_id o)
  && sql_eqZ (observation_source_concept_id o) (Some zip3_concept).

(** [ON obs.value_as_string = ses.zip3_as_string]; [obs] is the
    [NULL]-extended side of the previous join. *)
Definition on_ses (xo : labelled * option observation) (s : zip3_ses) : bool :=
  sql_eqS (col_of value_as_string (snd xo)) (Some (zip3_as_string s)).

Definition joined := (labelled * option observation * option zip3_ses)%type.

Definition from_all (ds : dataset) : list joined :=
  left_join on_ses
    (left_join on_obs (from_person_concepts ds) (observation_tbl ds))
    (zip3_ses_map_tbl ds).

Definition select (j : joined) : row :=
  let x := fst (fst j) in
  let ses := snd j in
  {| person_id := Warehouse.person_id (lab_person x);
     age := age_of (lab_person x);
     sex_at_birth := col_of concept_name (lab_sex x);
     race := col_of concept_name (lab_race x);
     ethnicity := col_of concept_name (lab_eth x);
     median_income := col_of Warehouse.median_income ses;
     fraction_poverty := col_of Warehouse.fraction_poverty ses;
     fraction_no_health_ins := col_of Warehouse.fraction_no_health_ins ses |}.

Definition sql_query (ds : dataset) : list row :=
  map select (from_all ds).

End Level2Sql.

(* ===================================================================== *)
(** * Part II: pandas frames                                              *)
(* ===================================================================== *)

(** A cell of a frame.  [NA] stands for every pandas null ([None], [NaN]).
    Values of different kinds compare unequal; the scripts only compare
    label columns, which hold strings and nulls. *)

Inductive cell :=
| NA
| Int (z : Z)
| Num (q : Q)
| Str (s : string)
| Bool (b : bool).

(** A scalar float result: [NaN] or a finite value, kept as the exact
    rational the double of the script is the rounding of. *)
Inductive float :=
| NaN
| Fin (q : Q).

Inductive exn_kind := KeyError | ValueError | IndexError | EngineError.

(** A raised exception: its class and [str(e)]. *)
Record exn := mk_exn { exn_class : exn_kind; exn_str : string }.

Inductive result (A : Type) :=
| Ok (a : A)
| Raise (e : exn).
Arguments Ok {A} a.
Arguments Raise {A} e.

Definition rbind {A B : Type} (r : result A) (k : A -> result B) : result B :=
  match r with
  | Ok a => k a
  | Raise e => Raise e
  end.

Declare Scope result_scope.
Delimit Scope result_scope with result.
Notation "x <- r ;; k" := (rbind r (fun x => k))
  (at level 61, r at next level, right associativity) : result_scope.

Definition Series := list cell.

(** A frame is its columns, in order; all columns of a frame the scripts
    build have the same length.  [pd.DataFrame()] has no column. *)
Definition DataFrame := list (string * Series).

Definition pd_DataFrame : DataFrame := [].

Definition len (df : DataFrame) : nat :=
  match df with
  | [] => O
  | (_, s) :: _ => List.length s
  end.

Definition quote (s : string) : string := "'" ++ s ++ "'".

Fixpoint lookup (name : string) (df : DataFrame) : option Series :=
  match df with
  | [] => None
  | (n, s) :: rest => if String.eqb n name then Some s else lookup name rest
  end.

(** [df[name]] *)
Definition getitem (df : DataFrame) (name : string) : result Series :=
  match lookup name df with
  | Some s => Ok s
  | None => Raise (mk_exn KeyError (quote name))
  end.

(** [df[name] = s]: overwrite the column in place, or add it last. *)
Fixpoint setitem (df : DataFrame) (name : string) (s : Series) : DataFrame :=
  match df with
  | [] => [(name, s)]
  | (n, c) :: rest =>
      if String.eqb n name then (n, s) :: rest
      else (n, c) :: setitem rest name s
  end.

(** Positional selection by a boolean mask. *)
Fixpoint select {A : Type} (mask : list bool) (l : list A) : list A :=
  match mask, l with
  | b :: m, x :: t => if b then x :: select m t else select m t
  | _, _ => []
  end.

(** [df[mask]] *)
Definition getmask (df : DataFrame) (mask : list bool) : DataFrame :=
  map (fun c => (fst c, select mask (snd c))) df.

Definition isnull_cell (c : cell) : bool :=
  match c with
  | NA => true
  | _ => false
  end.

(** [s.isnull()] *)
Definition isnull (s : Series) : list bool := map isnull_cell s.

Definition notnull (s : Series) : list bool := map (fun c => negb (isnull_cell c)) s.

Definition same_cell (a b : cell) : bool :=
  match a, b with
  | NA, NA => true
  | Int x, Int y => Z.eqb x y
  | Num x, Num y => Qeq_bool x y
  | Str x, Str y => String.eqb x y
  | Bool x, Bool y => Bool.eqb x y
  | _, _ => false
  end.

(** Elementwise [==]: a null is equal to nothing, not even a null. *)
Definition eq_cell (a b : cell) : bool :=
  negb (isnull_cell a) && same_cell a b.

(** [s == v] and [s != v] *)
Definition eq_mask (s : Series) (v : cell) : list bool :=
  map (fun c => eq_cell c v) s.

Definition ne_mask (s : Series) (v : cell) : list bool :=
  map (fun c => negb (eq_cell c v)) s.

Fixpoint and_mask (a b : list bool) : list bool :=
  match a, b with
  | x :: a', y :: b' => (x && y) :: and_mask a' b'
  | _, _ => []
  end.

Fixpoint missing_labels (df : DataFrame) (subset : list string) : list string :=
  match subset with
  | [] => []
  | n :: rest =>
      match lookup n df with
      | Some _ => missing_labels df rest
      | None => n :: missing_labels df rest
      end
  end.

Fixpoint join_with (sep : string) (l : list string) : string :=
  match l with
  | [] => ""
  | [x] => x
  | x :: rest => x ++ sep ++ join_with sep rest
  end.

Definition repr_list (l : list string) : string :=
  "[" ++ join_with ", " (map quote l) ++ "]".

(** The rows with no null in any column of [subset]. *)
Fixpoint notnull_rows (df : DataFrame) (subset : list string) (n : nat) : list bool :=
  match subset with
  | [] => repeat true n
  | name :: rest =>
      match lookup name df with
      | Some s => and_mask (notnull s) (notnull_rows df rest n)
      | None => notnull_rows df rest n
      end
  end.

(** [df.dropna(subset=...)]: [KeyError] on a label that is no column. *)
Definition dropna (df : DataFrame) (subset : list string) : result DataFrame :=
  match missing_labels df subset with
  | [] => Ok (getmask df (notnull_rows df subset (len df)))
  | miss => Raise (mk_exn KeyError (repr_list miss))
  end.

Definition mem_cell (c : cell) (l : list cell) : bool := existsb (same_cell c) l.

(** [s.unique()]: the distinct values in order of first appearance. *)
Fixpoint unique_acc (seen : list cell) (s : Series) : list cell :=
  match s with
  | [] => []
  | c :: rest =>
      if mem_cell c seen then unique_acc seen rest
      else c :: unique_acc (c :: seen) rest
  end.

Definition unique (s : Series) : list cell := unique_acc [] s.

(** [s.replace(a, b)] *)
Definition replace (s : Series) (a b : cell) : Series :=
  map (fun c => if eq_cell c a then b else c) s.

(** The order in which pandas sorts group keys: strings by code point.
    Keys of other kinds do not occur in a label column; they are ranked
    by kind and value to keep the order total. *)
Definition kind_rank (c : cell) : Z :=
  match c with
  | NA => 0
  | Bool _ => 1
  | Int _ => 2
  | Num _ => 3
  | Str _ => 4
  end.

Definition cell_leb (a b : cell) : bool :=
  match a, b with
  | Str x, Str y => String.leb x y
  | Int x, Int y => Z.leb x y
  | Num x, Num y => Qle_bool x y
  | Bool x, Bool y => implb x y
  | _, _ => Z.leb (kind_rank a) (kind_rank b)
  end.

Fixpoint insert_sorted {A : Type} (leb : A -> A -> bool) (x : A) (l : list A) : list A :=
  match l with
  | [] => [x]
  | y :: rest => if leb x y then x :: l else y :: insert_sorted leb x rest
  end.

Fixpoint sort_by {A : Type} (leb : A -> A -> bool) (l : list A) : list A :=
  match l with
  | [] => []
  | x :: rest => insert_sorted leb x (sort_by leb rest)
  end.

(** The keys of [df.groupby(col)] and of [pd.crosstab]: the distinct
    non-null values, sorted.  Rows with a null key are in no group. *)
Definition group_keys (s : Series) : list cell :=
  sort_by cell_leb (unique (select (notnull s) s)).

Definition b2n (b : bool) : nat := if b then 1%nat else 0%nat.

Definition count_true (l : list bool) : nat := List.length (filter (fun b => b) l).

Definition Qnat (n : nat) : Q := inject_Z (Z.of_nat n).

(** [m.mean()] of a boolean series. *)
Definition mean_bool (l : list bool) : float :=
  match l with
  | [] => NaN
  | _ => Fin (Qnat (count_true l) / Qnat (List.length l))
  end.

Definition fmul (x : float) (k : Q) : float :=
  match x with
  | NaN => NaN
  | Fin q => Fin (q * k)
  end.

(** [df.groupby(by)[col].apply(f)] *)
Definition groupby_apply {R : Type} (df : DataFrame) (by_ col : string)
    (f : Series -> R) : result (list (cell * R)) :=
  (keys <- getitem df by_ ;;
   vals <- match lookup col df with
           | Some s => Ok s
           | None => Raise (mk_exn KeyError ("'Column not found: " ++ col ++ "'"))
           end ;;
   Ok (map (fun k => (k, f (select (eq_mask keys k) vals))) (group_keys keys)))%result.

(** A general [pd.crosstab(a, b)]: the column keys, and per row key the
    counts; a row with a null on either side is not counted. *)
Definition crosstab (a b : Series) : list cell * list (cell * list nat) :=
  let both := and_mask (notnull a) (notnull b) in
  let a' := select both a in
  let b' := select both b in
  let col_keys := group_keys b' in
  (col_keys,
   map (fun r =>
          (r, map (fun c => count_true (and_mask (eq_mask a' r) (eq_mask b' c)))
                  col_keys))
       (group_keys a')).

(** [df.head()] *)
Definition head (df : DataFrame) : DataFrame :=
  map (fun c => (fst c, firstn 5 (snd c))) df.

(** ** Text *)

Definition nl : string := String "010"%char EmptyString.

Definition dec (n : N) : string :=
  NilEmpty.string_of_uint (N.to_uint n).

(** Python's [str] of the environment value inside an f-string. *)
Definition fmt_opt (s : option string) : string :=
  match s with
  | Some x => x
  | None => "None"
  end.

(** Truthiness of [os.environ.get(...)]: [None] and the empty string
    are false. *)
Definition truthy (s : option string) : bool :=
  match s with
  | Some x => negb (String.eqb x "")
  | None => false
  end.

(** Round a non-negative rational to the nearest integer, ties to even. *)
Definition round_half_even (q : Q) : Z :=
  let n := Qnum q in
  let d := Zpos (Qden q) in
  let fl := n / d in
  match Z.compare (2 * (n mod d)) d with
  | Lt => fl
  | Gt => fl + 1
  | Eq => if Z.even fl then fl else fl + 1
  end.

Definition pad3 (n : Z) : string :=
  let s := dec (Z.to_N n) in
  if n <? 10 then "00" ++ s else if n <? 100 then "0" ++ s else s.

(** [f"{x:.3f}"] *)
Definition format_3f (x : float) : string :=
  match x with
  | NaN => "nan"
  | Fin q =>
      let m := round_half_even (Qabs q * 1000) in
      (if Qle_bool 0 q then "" else "-")
      ++ dec (Z.to_N (m / 1000)) ++ "." ++ pad3 (m mod 1000)
  end.

(** [x < c] for a float [x]; every comparison with [NaN] is false. *)
Definition flt (x : float) (c : Q) : bool :=
  match x with
  | NaN => false
  | Fin q => negb (Qle_bool c q)
  end.

(** The float literals of the scripts, as the decimals they denote. *)
Definition alpha : Q := 5 # 100.
Definition tiny : Q := 1 # 1000.

(** ** The annotation text (step 5 of each test)

    The three tests build their annotation alike; they differ in the
    two headings and in the name of the test. *)

Definition significant (pvalue : float) : bool := flt pvalue alpha.

Definition p_text (pvalue : float) : string :=
  if flt pvalue tiny then "p < 0.001" else "p = " ++ format_3f pvalue.

Definition annotate (heading_sig heading_not test : string) (pvalue : float)
    : string * string :=
  if significant pvalue then
    (heading_sig ++ nl ++ "(" ++ test ++ " " ++ p_text pvalue ++ ")", "lightgreen")
  else
    (heading_not ++ nl ++ "(" ++ test ++ " p = " ++ format_3f pvalue ++ ")",
     "lightgray").

(* ===================================================================== *)
(** * Part III: the scripts                                               *)
(* ===================================================================== *)

(** What the scripts call outside the repository. *)

Inductive plot :=
| Figure (w h : Z)
| Histplot (data : DataFrame) (x : string)
| Countplot (data : DataFrame) (y : string) (order : list cell)
| Boxplot (data : DataFrame) (x y : string)
| Barplot (data : DataFrame) (y x : string)
| Title (s : string)
| Xlabel (s : string)
| Ylabel (s : string)
| Xlim (lo hi : Z)
| Ylim (lo hi : Z)
| Xticks
| Text (s box_color : string)
| Show.

Record World := mk_World {
  (** [os.environ.get('WORKSPACE_CDR')] *)
  WORKSPACE_CDR : option string;
  (** [client.query(sql).to_dataframe()] *)
  client_query : string -> result DataFrame;
  (** a seaborn call: it draws, or raises on data it cannot draw *)
  sns_draw : plot -> result unit;
  (** [stats.kruskal] on the samples it is given, however many:
      [(hvalue, pvalue)], or the exception the installed release raises *)
  kruskal : list Series -> result (float * float);
  (** [sp.posthoc_dunn(a, val_col, group_col, p_adjust)], as a function
      of the two columns of [a] it reads and of the correction *)
  posthoc_dunn : Series -> Series -> string -> result DataFrame;
  (** [stats.chi2_contingency]: [(chi2, pvalue)] *)
  chi2_contingency : list cell * list (cell * list nat) -> result (float * float)
}.

(** What a run does that can be observed from outside; [ClientInit] is
    [bigquery.Client()]. *)
Inductive event :=
| Print (s : string)
| PrintFrame (df : DataFrame)
| ClientInit
| Query (sql : string)
| Plt (p : plot).

(** A script step: it extends the trace and returns or raises. *)
Definition M (A : Type) : Type := list event -> list event * result A.

Definition ret {A : Type} (a : A) : M A := fun tr => (tr, Ok a).

Definition bind {A B : Type} (m : M A) (k : A -> M B) : M B :=
  fun tr =>
    match m tr with
    | (tr', Ok a) => k a tr'
    | (tr', Raise e) => (tr', Raise e)
    end.

Definition emit (e : event) : M unit := fun tr => ((tr ++ [e])%list, Ok tt).

Definition lift {A : Type} (r : result A) : M A := fun tr => (tr, r).

(** [try: m except Exception as e: h e] *)
Definition try_except {A : Type} (m : M A) (h : exn -> M A) : M A :=
  fun tr =>
    match m tr with
    | (tr', Ok a) => (tr', Ok a)
    | (tr', Raise e) => h e tr'
    end.

(** A step only ever adds to the trace. *)
Definition extends {A : Type} (m : M A) : Prop :=
  forall tr, exists more, fst (m tr) = (tr ++ more)%list.

Declare Scope script_scope.
Delimit Scope script_scope with script.
Notation "x <- m ;; k" := (bind m (fun x => k))
  (at level 61, m at next level, right associativity) : script_scope.
Notation "m ;; k" := (bind m (fun _ => k))
  (at level 61, right associativity) : script_scope.

Definition print (s : string) : M unit := emit (Print s).
Definition plt (p : plot) : M unit := emit (Plt p).

Definition sns (w : World) (p : plot) : M unit :=
  (emit (Plt p) ;; lift (sns_draw w p))%script.

Definition run_query (w : World) (sql : string) : M DataFrame :=
  (emit (Query sql) ;; lift (client_query w sql))%script.

Definition run {A : Type} (m : M A) : list event * result A := m [].

(** [stats.kruskal] on the unpacked list of samples: the scripts call
    the library on whatever samples they have collected.  What the
    library does with fewer than two of them depends on the installed
    release (scipy is not pinned), and is the world's to say. *)
Definition stats_kruskal (w : World) (samples : list Series) : result (float * float) :=
  kruskal w samples.

Fixpoint mapM {A B : Type} (f : A -> result B) (l : list A) : result (list B) :=
  match l with
  | [] => Ok []
  | x :: rest =>
      (y <- f x ;; ys <- mapM f rest ;; Ok (y :: ys))%result
  end.

(** [[df[val][df[by] == group] for group in groups]] *)
Definition by_group (df : DataFrame) (val by_ : string) (groups : list cell)
    : result (list Series) :=
  mapM (fun group =>
          (v <- getitem df val ;;
           g <- getitem df by_ ;;
           Ok (select (eq_mask g group) v))%result) groups.

(** ** level2_metadata_analysis.py *)

Module Level2.

Definition cdr_dataset_id (w : World) : option string := WORKSPACE_CDR w.

(** The set-up lines, in a session in which [bigquery.Client()] returns
    a client. *)
Definition setup (w : World) : M unit :=
  ((if truthy (cdr_dataset_id w)
    then print ("Querying CDR: " ++ fmt_opt (cdr_dataset_id w))
    else print "Error: WORKSPACE_CDR environment variable not set.") ;;
   emit ClientInit)%script.

(** The set-up lines when [bigquery.Client()] ends as [client]: the call
    stands outside every [try], so what it raises ends the run. *)
Definition setup_with (client : result unit) (w : World) : M unit :=
  ((if truthy (cdr_dataset_id w)
    then print ("Querying CDR: " ++ fmt_opt (cdr_dataset_id w))
    else print "Error: WORKSPACE_CDR environment variable not set.") ;;
   emit ClientInit ;;
   lift client)%script.

(** 1. The combined SQL query *)
Definition sql_query (cdr_dataset_id : option string) : string :=
  let id := fmt_opt cdr_dataset_id in
  "
SELECT
    p.person_id,
    (2025 - p.year_of_birth) AS age,
    c_sex.concept_name AS sex_at_birth,
    c_race.concept_name AS race,
    c_eth.concept_name AS ethnicity,
    ses.median_income,
    ses.fraction_poverty,
    ses.fraction_no_health_ins
FROM
    `" ++ id ++ ".person` p
LEFT JOIN
    `" ++ id ++ ".concept` c_sex ON p.sex_at_birth_concept_id = c_sex.concept_id
LEFT JOIN
    `" ++ id ++ ".concept` c_race ON p.race_concept_id = c_race.concept_id
LEFT JOIN
    `" ++ id ++ ".concept` c_eth ON p.ethnicity_concept_id = c_eth.concept_id
LEFT JOIN
    `" ++ id ++ ".observation` AS obs
ON
    p.person_id = obs.person_id AND obs.observation_source_concept_id = 1585250 -- 1585250 is the concept ID for 3-digit ZIP
LEFT JOIN
    `" ++ id ++ ".zip3_ses_map` AS ses
ON
    obs.value_as_string = ses.zip3_as_string
".

(** 2. Run query and load data *)
Definition load (w : World) : M DataFrame :=
  try_except
    (print "Running combined query to fetch all analysis data..." ;;
     df_analysis <- run_query w (sql_query (cdr_dataset_id w)) ;;
     print ("Successfully loaded " ++ dec (N.of_nat (len df_analysis)) ++ " records.") ;;
     print (nl ++ "Data Head (Combined Analysis):") ;;
     emit (PrintFrame (head df_analysis)) ;;
     ret df_analysis)%script
    (fun e =>
       (print ("An error occurred: " ++ exn_str e) ;;
        ret pd_DataFrame)%script).

(** *** Analysis Plot 1: income vs. race *)

Definition no_matching_concept : string := "No matching concept".

Definition plot_data (df_analysis : DataFrame) : result DataFrame :=
  (race <- getitem df_analysis "race" ;;
   Ok (getmask df_analysis (ne_mask race (Str no_matching_concept))))%result.

(** 1. Clean data for the test (remove NaNs and 'No matching concept') *)
Definition test_data (df_analysis : DataFrame) : result DataFrame :=
  (td <- dropna df_analysis ["race"; "median_income"] ;;
   race <- getitem td "race" ;;
   Ok (getmask td (ne_mask race (Str no_matching_concept))))%result.

(** 2. All unique race groups *)
Definition groups (df_analysis : DataFrame) : result (list cell) :=
  (td <- test_data df_analysis ;;
   race <- getitem td "race" ;;
   Ok (unique race))%result.

(** 3. The median_income data of each group *)
Definition income_by_group (df_analysis : DataFrame) : result (list Series) :=
  (td <- test_data df_analysis ;;
   gs <- groups df_analysis ;;
   by_group td "median_income" "race" gs)%result.

(** 4. The Kruskal-Wallis H-test *)
Definition income_test (w : World) (df_analysis : DataFrame) : result (float * float) :=
  (samples <- income_by_group df_analysis ;;
   stats_kruskal w samples)%result.

Definition stat_text_kruskal (pvalue : float) : string * string :=
  annotate "Statistically Significant Deviation"
           "No Significant Deviation Found" "Kruskal-Wallis" pvalue.

Definition analysis_plot1 (w : World) (df_analysis : DataFrame) : M (float * float) :=
  (plt (Figure 14 8) ;;
   pd <- lift (plot_data df_analysis) ;;
   sns w (Boxplot pd "race" "median_income") ;;
   plt (Ylim 0 180000) ;;
   plt (Title "Median Income Distribution by Self-Reported Race") ;;
   plt (Xlabel "Self-Reported Race") ;;
   plt (Ylabel "Median Income (by 3-digit ZIP)") ;;
   plt Xticks ;;
   hp <- lift (income_test w df_analysis) ;;
   plt (Text (fst (stat_text_kruskal (snd hp))) (snd (stat_text_kruskal (snd hp)))) ;;
   plt Show ;;
   ret hp)%script.

(** *** Data cleaning for the label of plot 2 *)

Definition long_label : string := "What Race Ethnicity: Race Ethnicity None Of These".
Definition short_label : string := "None Of These".

(** [df_analysis['ethnicity'] = df_analysis['ethnicity'].replace(...)]:
    the frame every later block reads is the one this returns. *)
Definition clean_label (df_analysis : DataFrame) : result DataFrame :=
  (eth <- getitem df_analysis "ethnicity" ;;
   Ok (setitem df_analysis "ethnicity"
         (replace eth (Str long_label) (Str short_label))))%result.

(** *** Analysis Plot 2: poverty vs. ethnicity *)

(** 1. Clean data for the test (remove NaNs only) *)
Definition test_data_eth (df_analysis : DataFrame) : result DataFrame :=
  dropna df_analysis ["ethnicity"; "fraction_poverty"].

(** 2. All unique ethnicity groups *)
Definition groups_eth (df_analysis : DataFrame) : result (list cell) :=
  (td <- test_data_eth df_analysis ;;
   eth <- getitem td "ethnicity" ;;
   Ok (unique eth))%result.

(** 3. The poverty data of each group *)
Definition poverty_by_group (df_analysis : DataFrame) : result (list Series) :=
  (td <- test_data_eth df_analysis ;;
   gs <- groups_eth df_analysis ;;
   by_group td "fraction_poverty" "ethnicity" gs)%result.

Definition poverty_test (w : World) (df_analysis : DataFrame) : result (float * float) :=
  (samples <- poverty_by_group df_analysis ;;
   stats_kruskal w samples)%result.

Definition analysis_plot2 (w : World) (df_analysis : DataFrame) : M (float * float) :=
  (plt (Figure 10 6) ;;
   sns w (Boxplot df_analysis "ethnicity" "fraction_poverty") ;;
   plt (Ylim 0 75) ;;
   plt (Title "Poverty Percent Distribution by Self-Reported Ethnicity") ;;
   plt (Xlabel "Self-Reported Ethnicity") ;;
   plt (Ylabel "Poverty Percent (by 3-digit ZIP)") ;;
   plt Xticks ;;
   hp <- lift (poverty_test w df_analysis) ;;
   plt (Text (fst (stat_text_kruskal (snd hp))) (snd (stat_text_kruskal (snd hp)))) ;;
   plt Show ;;
   ret hp)%script.

(** *** Post-hoc test (Dunn's test) on the same cleaned data *)

Definition dunn_results (w : World) (df_analysis : DataFrame) : result DataFrame :=
  (td <- test_data_eth df_analysis ;;
   val_col <- getitem td "fraction_poverty" ;;
   group_col <- getitem td "ethnicity" ;;
   posthoc_dunn w val_col group_col "bonferroni")%result.

Definition posthoc (w : World) (df_analysis : DataFrame) : M DataFrame :=
  (print (nl ++ "--- Post-Hoc Test Results (Dunn's Test with Bonferroni Correction) ---") ;;
   res <- lift (dunn_results w df_analysis) ;;
   emit (PrintFrame res) ;;
   print (nl ++ "--- How to Read This Table ---") ;;
   print "This table shows the p-value for the difference between each pair of groups." ;;
   print "Any value in this table LESS THAN 0.05 is a *statistically significant* difference." ;;
   ret res)%script.

(** *** Analysis Plot 3: missingness of SES data by race *)

Definition float_cell (x : float) : cell :=
  match x with
  | NaN => NA
  | Fin q => Num q
  end.

(** [x.isnull().mean() * 100] *)
Definition percent_null (x : Series) : float := fmul (mean_bool (isnull x)) 100.

Definition missing_data (df_analysis : DataFrame) : result (list (cell * float)) :=
  groupby_apply df_analysis "race" "median_income" percent_null.

(** Descending order of the percentage, [NaN] last. *)
Definition fge (a b : cell * float) : bool :=
  match snd a, snd b with
  | Fin x, Fin y => Qle_bool y x
  | Fin _, NaN => true
  | NaN, Fin _ => false
  | NaN, NaN => true
  end.

(** [reset_index(name=...)] then [sort_values(..., ascending=False)];
    pandas leaves the order of equal percentages open, here they keep
    the order of their keys. *)
Definition missing_df (df_analysis : DataFrame) : result DataFrame :=
  (md <- missing_data df_analysis ;;
   let sorted := sort_by fge md in
   Ok [("race", map fst sorted);
       ("percent_missing_ses_data", map (fun kv => float_cell (snd kv)) sorted)])%result.

(** 1. [df_analysis['ses_data_missing'] = df_analysis['median_income'].isnull()] *)
Definition add_ses_data_missing (df_analysis : DataFrame) : result DataFrame :=
  (inc <- getitem df_analysis "median_income" ;;
   Ok (setitem df_analysis "ses_data_missing" (map Bool (isnull inc))))%result.

(** 2. The contingency table, read from the frame of step 1 *)
Definition contingency_table (df_analysis : DataFrame)
    : result (list cell * list (cell * list nat)) :=
  (race <- getitem df_analysis "race" ;;
   miss <- getitem df_analysis "ses_data_missing" ;;
   Ok (crosstab race miss))%result.

Definition stat_text_chi2 (pvalue : float) : string * string :=
  annotate "Statistically Significant Difference"
           "No Significant Difference Found" "Chi-Square" pvalue.

(** The block returns the test result and the frame it leaves behind. *)
Definition analysis_plot3 (w : World) (df_analysis : DataFrame)
    : M (float * float * DataFrame) :=
  (print "Calculating missing SES data by race..." ;;
   mdf <- lift (missing_df df_analysis) ;;
   plt (Figure 12 8) ;;
   sns w (Barplot mdf "race" "percent_missing_ses_data") ;;
   plt (Title "Percent of Participants with Missing SES Data by Race") ;;
   plt (Xlabel "Percent Missing SES Data (%)") ;;
   plt (Ylabel "Self-Reported Race") ;;
   df' <- lift (add_ses_data_missing df_analysis) ;;
   ct <- lift (contingency_table df') ;;
   cp <- lift (chi2_contingency w ct) ;;
   plt (Text (fst (stat_text_chi2 (snd cp))) (snd (stat_text_chi2 (snd cp)))) ;;
   plt Show ;;
   ret (cp, df'))%script.

(** 3. The analyses, in the order of the script; they return the frame
    [df_analysis] ends as. *)
Definition analyses (w : World) (df_analysis : DataFrame) : M DataFrame :=
  (analysis_plot1 w df_analysis ;;
   df_analysis <- lift (clean_label df_analysis) ;;
   analysis_plot2 w df_analysis ;;
   posthoc w df_analysis ;;
   r <- analysis_plot3 w df_analysis ;;
   ret (snd r))%script.

(** The whole script. *)
Definition main (w : World) : M DataFrame :=
  (setup w ;;
   df_analysis <- load w ;;
   analyses w df_analysis)%script.

(** The whole script, when [bigquery.Client()] ends as [client]. *)
Definition main_with (client : result unit) (w : World) : M DataFrame :=
  (setup_with client w ;;
   df_analysis <- load w ;;
   analyses w df_analysis)%script.

End Level2.

(** ** level1_metadata_analysis.py *)

Module Level1.

Definition cdr_dataset_id (w : World) : option string := WORKSPACE_CDR w.

(** The set-up lines, in a session in which [bigquery.Client()] returns
    a client. *)
Definition setup (w : World) : M unit :=
  ((if truthy (cdr_dataset_id w)
    then print ("Querying CDR: " ++ fmt_opt (cdr_dataset_id w))
    else print "Error: WORKSPACE_CDR environment variable not set.") ;;
   emit ClientInit)%script.

(** The set-up lines when [bigquery.Client()] ends as [client]: the call
    stands outside every [try], so what it raises ends the run. *)
Definition setup_with (client : result unit) (w : World) : M unit :=
  ((if truthy (cdr_dataset_id w)
    then print ("Querying CDR: " ++ fmt_opt (cdr_dataset_id w))
    else print "Error: WORKSPACE_CDR environment variable not set.") ;;
   emit ClientInit ;;
   lift client)%script.

(** 1. The SQL query (demographics) *)
Definition sql_query (cdr_dataset_id : option string) : string :=
  let id := fmt_opt cdr_dataset_id in
  "
SELECT
    (2025 - p.year_of_birth) AS age,
    c_sex.concept_name AS sex_at_birth,
    c_race.concept_name AS race,
    c_eth.concept_name AS ethnicity
FROM
    `" ++ id ++ ".person` p
LEFT JOIN
    `" ++ id ++ ".concept` c_sex ON p.sex_at_birth_concept_id = c_sex.concept_id
LEFT JOIN
    `" ++ id ++ ".concept` c_race ON p.race_concept_id = c_race.concept_id
LEFT JOIN
    `" ++ id ++ ".concept` c_eth ON p.ethnicity_concept_id = c_eth.concept_id
".

(** 2. Run query and load data (demographics) *)
Definition load (w : World) : M DataFrame :=
  try_except
    (print "Running query to fetch demographic data..." ;;
     df_demographics <- run_query w (sql_query (cdr_dataset_id w)) ;;
     print ("Successfully loaded " ++ dec (N.of_nat (len df_demographics))
            ++ " demographic records.") ;;
     print (nl ++ "Data Head (Demographics):") ;;
     emit (PrintFrame (head df_demographics)) ;;
     ret df_demographics)%script
    (fun e =>
       (print ("An error occurred: " ++ exn_str e) ;;
        ret pd_DataFrame)%script).

(** [s.value_counts().index]: the distinct non-null values by falling
    count; equal counts keep the order of first appearance. *)
Definition value_counts_index (s : Series) : list cell :=
  map fst
    (sort_by (fun a b : cell * nat => (snd b <=? snd a)%nat)
       (map (fun k => (k, count_true (eq_mask s k)))
            (unique (select (notnull s) s)))).

(** 3. Plot the distributions (demographics) *)

Definition histogram (w : World) (df : DataFrame) (x title xlabel ylabel : string)
    (xlim : option (Z * Z)) : M unit :=
  (plt (Figure 10 6) ;;
   d <- lift (dropna df [x]) ;;
   sns w (Histplot d x) ;;
   plt (Title title) ;;
   plt (Xlabel xlabel) ;;
   plt (Ylabel ylabel) ;;
   match xlim with
   | Some (lo, hi) => plt (Xlim lo hi)
   | None => ret tt
   end ;;
   plt Show)%script.

Definition countplot (w : World) (df : DataFrame) (fw fh : Z)
    (y title xlabel ylabel : string) : M unit :=
  (plt (Figure fw fh) ;;
   col <- lift (getitem df y) ;;
   sns w (Countplot df y (value_counts_index col)) ;;
   plt (Title title) ;;
   plt (Xlabel xlabel) ;;
   plt (Ylabel ylabel) ;;
   plt Show)%script.

Definition plot1 (w : World) (df_demographics : DataFrame) : M unit :=
  histogram w df_demographics "age" "Distribution of Participant Age" "Age" "Count" None.

Definition plot2 (w : World) (df_demographics : DataFrame) : M unit :=
  countplot w df_demographics 10 6 "sex_at_birth"
    "Distribution of Sex at Birth" "Count" "Sex at Birth".

Definition plot3 (w : World) (df_demographics : DataFrame) : M unit :=
  countplot w df_demographics 12 8 "race"
    "Distribution of Self-Reported Race" "Count" "Race".

Definition plot4 (w : World) (df_demographics : DataFrame) : M unit :=
  countplot w df_demographics 10 6 "ethnicity"
    "Distribution of Self-Reported Ethnicity" "Count" "Ethnicity".

(** 4. The SES query *)
Definition sql_query_ses (cdr_dataset_id : option string) : string :=
  let id := fmt_opt cdr_dataset_id in
  "
SELECT
    ses.median_income,
    ses.fraction_poverty,
    ses.fraction_no_health_ins
FROM
    `" ++ id ++ ".observation` AS obs
JOIN
    `" ++ id ++ ".zip3_ses_map` AS ses
ON
    obs.value_as_string = ses.zip3_as_string
WHERE
    obs.observation_source_concept_id = 1585250
".

(** 5. Run query and load data (SES) *)
Definition load_ses (w : World) : M DataFrame :=
  try_except
    (print "Running query to fetch SES data..." ;;
     df_ses <- run_query w (sql_query_ses (cdr_dataset_id w)) ;;
     print ("Successfully loaded " ++ dec (N.of_nat (len df_ses)) ++ " SES records.") ;;
     print (nl ++ "Data Head (SES):") ;;
     emit (PrintFrame (head df_ses)) ;;
     ret df_ses)%script
    (fun e =>
       (print ("An error occurred during SES query: " ++ exn_str e) ;;
        ret pd_DataFrame)%script).

(** 6. Plot the SES distributions *)

Definition plot5 (w : World) (df_ses : DataFrame) : M unit :=
  histogram w df_ses "median_income"
    "Distribution of Median Income (by 3-digit ZIP)"
    "Median Income" "Count of Participants" None.

Definition plot6 (w : World) (df_ses : DataFrame) : M unit :=
  histogram w df_ses "fraction_poverty"
    "Distribution of Poverty Percent (by 3-digit ZIP)"
    "Percent of Population Below Poverty Level (%)" "Count of Participants"
    (Some (0, 60)).

Definition plot7 (w : World) (df_ses : DataFrame) : M unit :=
  histogram w df_ses "fraction_no_health_ins"
    "Distribution of No Health Insurance Percent (by 3-digit ZIP)"
    "Percent of Population with No Health Insurance (%)" "Count of Participants"
    (Some (0, 40)).

(** Sections 3 to 6: everything after the demographics are loaded. *)
Definition report (w : World) (df_demographics : DataFrame) : M unit :=
  (plot1 w df_demographics ;;
   plot2 w df_demographics ;;
   plot3 w df_demographics ;;
   plot4 w df_demographics ;;
   print (nl ++ "--- Starting Socioeconomic (SES) Analysis ---") ;;
   df_ses <- load_ses w ;;
   plot5 w df_ses ;;
   plot6 w df_ses ;;
   plot7 w df_ses)%script.

(** The whole script. *)
Definition main (w : World) : M unit :=
  (setup w ;;
   df_demographics <- load w ;;
   report w df_demographics)%script.

(** The whole script, when [bigquery.Client()] ends as [client]. *)
Definition main_with (client : result unit) (w : World) : M unit :=
  (setup_with client w ;;
   df_demographics <- load w ;;
   report w df_demographics)%script.

End Level1.

(** ** An engine that serves a dataset

    [to_dataframe] lays the rows of a query result out by column.  The
    engine below answers each of the three queries, as written for the
    dataset identifier [cdr], with its rows over [ds], and refuses any
    other request. *)

Definition cellZ (o : option Z) : cell :=
  match o with Some z => Int z | None => NA end.

Definition cellQ (o : option Q) : cell :=
  match o with Some q => Num q | None => NA end.

Definition cellS (o : option string) : cell :=
  match o with Some s => Str s | None => NA end.

Definition to_dataframe1 (rows : list Level1Sql.row) : DataFrame :=
  [("age", map (fun r => cellZ (Level1Sql.age r)) rows);
   ("sex_at_birth", map (fun r => cellS (Level1Sql.sex_at_birth r)) rows);
   ("race", map (fun r => cellS (Level1Sql.race r)) rows);
   ("ethnicity", map (fun r => cellS (Level1Sql.ethnicity r)) rows)].

Definition to_dataframe_ses (rows : list Level1Sql.ses_row) : DataFrame :=
  [("median_income", map (fun r => cellQ (Level1Sql.s_median_income r)) rows);
   ("fraction_poverty", map (fun r => cellQ (Level1Sql.s_fraction_poverty r)) rows);
   ("fraction_no_health_ins",
    map (fun r => cellQ (Level1Sql.s_fraction_no_health_ins r)) rows)].

Definition to_dataframe2 (rows : list Level2Sql.row) : DataFrame :=
  [("person_id", map (fun r => Int (Level2Sql.person_id r)) rows);
   ("age", map (fun r => cellZ (Level2Sql.age r)) rows);
   ("sex_at_birth", map (fun r => cellS (Level2Sql.sex_at_birth r)) rows);
   ("race", map (fun r => cellS (Level2Sql.race r)) rows);
   ("ethnicity", map (fun r => cellS (Level2Sql.ethnicity r)) rows);
   ("median_income", map (fun r => cellQ (Level2Sql.median_income r)) rows);
   ("fraction_poverty", map (fun r => cellQ (Level2Sql.fraction_poverty r)) rows);
   ("fraction_no_health_ins",
    map (fun r => cellQ (Level2Sql.fraction_no_health_ins r)) rows)].

Definition serve (cdr : string) (ds : Warehouse.dataset) (sql : string)
    : result DataFrame :=
  if String.eqb sql (Level2.sql_query (Some cdr))
  then Ok (to_dataframe2 (Level2Sql.sql_query ds))
  else if String.eqb sql (Level1.sql_query (Some cdr))
  then Ok (to_dataframe1 (Level1Sql.sql_query ds))
  else if String.eqb sql (Level1.sql_query_ses (Some cdr))
  then Ok (to_dataframe_ses (Level1Sql.sql_query_ses ds))
  else Raise (mk_exn EngineError "400 Bad Request").

(** An engine on which every request fails. *)
Definition engine_down (msg : string) (sql : string) : result DataFrame :=
  Raise (mk_exn EngineError msg).

(** [needle in hay] *)
Fixpoint contains (needle hay : string) : bool :=
  if String.prefix needle hay then true
  else match hay with
       | EmptyString => false
       | String _ rest => contains needle rest
       end.

(** ** Unique keys of the lookups

    The join keys of the three right-hand tables: a concept is looked up
    by [concept_id], an SES row by [zip3_as_string], and the 3-digit ZIP
    observation of a person by [person_id] among the observations of
    that survey question. *)

Definition is_zip3_obs (o : Warehouse.observation) : bool :=
  Warehouse.sql_eqZ (Warehouse.observation_source_concept_id o)
                    (Some Warehouse.zip3_concept).

Definition concept_unique (ds : Warehouse.dataset) : Prop :=
  NoDup (map Warehouse.concept_id (Warehouse.concept_tbl ds)).

Definition ses_unique (ds : Warehouse.dataset) : Prop :=
  NoDup (map Warehouse.zip3_as_string (Warehouse.zip3_ses_map_tbl ds)).

Definition zip_obs_unique (ds : Warehouse.dataset) : Prop :=
  NoDup (map Warehouse.obs_person_id
             (filter is_zip3_obs (Warehouse.observation_tbl ds))).

(** The demographic columns of a row of the combined query. *)
Definition demographics_of (r : Level2Sql.row) : Level1Sql.row :=
  {| Level1Sql.age := Level2Sql.age r;
     Level1Sql.sex_at_birth := Level2Sql.sex_at_birth r;
     Level1Sql.race := Level2Sql.race r;
     Level1Sql.ethnicity := Level2Sql.ethnicity r |}.

(** No concept carries the code [code]. *)
Definition no_concept (ds : Warehouse.dataset) (code : option Z) : Prop :=
  forall c, In c (Warehouse.concept_tbl ds) ->
    Warehouse.sql_eqZ code (Some (Warehouse.concept_id c)) = false.

(** The subject has no 3-digit ZIP observation whose value is a key of
    the SES lookup: no such observation at all, or none that matches. *)
Definition no_ses_match (ds : Warehouse.dataset) (p : Warehouse.person) : Prop :=
  forall o s,
    In o (Warehouse.observation_tbl ds) ->
    In s (Warehouse.zip3_ses_map_tbl ds) ->
    Warehouse.obs_person_id o = Warehouse.person_id p ->
    is_zip3_obs o = true ->
    Level1Sql.on_zip o s = false.

(** ** Sample data *)

Module Sample.
Import Warehouse.

Definition alice : person := mk_person 1 (Some 1980) (Some 45878463) (Some 8527) (Some 38003564).

(** A subject with unknown birth year, no sex code, an unresolved race
    code and an ethnicity code that is no concept. *)
Definition bob : person := mk_person 2 None None (Some 0) (Some 999).

Definition concepts : list concept :=
  [mk_concept 0 (Some "No matching concept");
   mk_concept 8527 (Some "White");
   mk_concept 45878463 (Some "Female");
   mk_concept 38003564 (Some "Not Hispanic or Latino")].

(** Alice has a 3-digit ZIP observation that the lookup knows, and an
    observation of another kind; Bob's ZIP is not in the lookup. *)
Definition observations : list observation :=
  [mk_observation 1 (Some 1585250) (Some "021");
   mk_observation 1 (Some 1585845) (Some "PMI: Skip");
   mk_observation 2 (Some 1585250) (Some "999")].

Definition ses_map : list zip3_ses :=
  [mk_zip3_ses "021" (Some (65000 # 1)) (Some (12 # 1)) (Some (4 # 1))].

Definition cohort : dataset := mk_dataset [alice; bob] concepts observations ses_map.

(** One subject whose 3-digit ZIP has no SES entry. *)
Definition unmatched : dataset :=
  mk_dataset [bob] concepts [mk_observation 2 (Some 1585250) (Some "999")] ses_map.

End Sample.

(** ** The analyses as operations on the shared frame

    The three analyses of level 2 without their drawing: what each
    computes from the frame [df_analysis] it finds, and the frame it
    leaves to the next.  The poverty comparison comes with the label
    cleaning and the post-hoc test that the script runs around it. *)

Inductive operation := IncomeByRace | PovertyByEthnicity | MissingnessByRace.

Inductive outcome :=
| Compared (groups : list cell) (samples : list Series) (test : float * float)
| ComparedPosthoc (groups : list cell) (samples : list Series)
    (test : float * float) (dunn : DataFrame)
| Missing (table : DataFrame) (contingency : list cell * list (cell * list nat))
    (test : float * float).

Definition perform (w : World) (op : operation) (df_analysis : DataFrame)
    : result (outcome * DataFrame) :=
  match op with
  | IncomeByRace =>
      (_ <- Level2.plot_data df_analysis ;;
       gs <- Level2.groups df_analysis ;;
       samples <- Level2.income_by_group df_analysis ;;
       hp <- stats_kruskal w samples ;;
       Ok (Compared gs samples hp, df_analysis))%result
  | PovertyByEthnicity =>
      (df' <- Level2.clean_label df_analysis ;;
       gs <- Level2.groups_eth df' ;;
       samples <- Level2.poverty_by_group df' ;;
       hp <- stats_kruskal w samples ;;
       dunn <- Level2.dunn_results w df' ;;
       Ok (ComparedPosthoc gs samples hp dunn, df'))%result
  | MissingnessByRace =>
      (mdf <- Level2.missing_df df_analysis ;;
       df' <- Level2.add_ses_data_missing df_analysis ;;
       ct <- Level2.contingency_table df' ;;
       cp <- chi2_contingency w ct ;;
       Ok (Missing mdf ct cp, df'))%result
  end.

(** The operations one after the other; an exception ends the run. *)
Fixpoint perform_all (w : World) (ops : list operation) (df_analysis : DataFrame)
    : result DataFrame :=
  match ops with
  | [] => Ok df_analysis
  | op :: rest =>
      (r <- perform w op df_analysis ;; perform_all w rest (snd r))%result
  end.

Definition rmap {A B : Type} (f : A -> B) (r : result A) : result B :=
  match r with
  | Ok a => Ok (f a)
  | Raise e => Raise e
  end.

(** What an operation computes, whatever it leaves behind. *)
Definition outcome_of (w : World) (op : operation) (df_analysis : DataFrame)
    : result outcome :=
  rmap fst (perform w op df_analysis).

(** All columns of a frame have as many cells as the frame has rows. *)
Definition well_formed (df : DataFrame) : Prop :=
  Forall (fun c => List.length (snd c) = len df) df.

(** ** Reading the missingness table

    The size of each group, the sum and the mean of the per-group values
    weighted by it, and the counts they are compared with. *)

Module Missingness.


Definition fval (x : float) : Q :=
  match x with
  | NaN => 0
  | Fin q => q
  end.







(** The rows that are in some group: those with a race. *)
Definition grouped_rows (race inc : Series) : list (cell * cell) :=
  filter (fun r => negb (isnull_cell (fst r))) (combine race inc).


End Missingness.

(** Sample frames, with the columns of the combined query. *)

Module Frames.

Definition df_sample : DataFrame :=
  [("person_id", [Int 1; Int 2; Int 3; Int 4; Int 5; Int 6]);
   ("age", [Int 45; Int 31; NA; Int 67; Int 52; Int 28]);
   ("sex_at_birth", [Str "Female"; Str "Male"; Str "Female"; NA; Str "Male"; Str "Female"]);
   ("race", [Str "White"; Str "No matching concept"; Str "Asian"; Str "White"; NA; Str "Asian"]);
   ("ethnicity",
    [Str "Not Hispanic or Latino"; Str Level2.long_label; Str "Hispanic or Latino";
     Str "Not Hispanic or Latino"; Str Level2.long_label; NA]);
   ("median_income", [Num (65000 # 1); Num (40000 # 1); Num (72000 # 1); NA; NA; Num (58000 # 1)]);
   ("fraction_poverty", [Num (12 # 1); Num (20 # 1); Num (9 # 1); NA; NA; Num (14 # 1)]);
   ("fraction_no_health_ins", [Num (4 # 1); Num (11 # 1); Num (3 # 1); NA; NA; Num (6 # 1)])].

(** Every subject reports the same race. *)
Definition df_one_race : DataFrame :=
  [("person_id", [Int 1; Int 2]);
   ("age", [Int 45; Int 31]);
   ("sex_at_birth", [Str "Female"; Str "Male"]);
   ("race", [Str "White"; Str "White"]);
   ("ethnicity", [Str "Hispanic or Latino"; Str "Not Hispanic or Latino"]);
   ("median_income", [Num (65000 # 1); Num (40000 # 1)]);
   ("fraction_poverty", [Num (12 # 1); Num (20 # 1)]);
   ("fraction_no_health_ins", [Num (4 # 1); Num (11 # 1)])].

(** The only subject with the long ethnicity label has no SES data. *)
Definition df_long_without_ses : DataFrame :=
  [("person_id", [Int 1; Int 2; Int 3]);
   ("age", [Int 45; Int 31; Int 50]);
   ("sex_at_birth", [Str "Female"; Str "Male"; Str "Male"]);
   ("race", [Str "White"; Str "Asian"; Str "White"]);
   ("ethnicity", [Str Level2.long_label; Str "Hispanic or Latino"; Str "Not Hispanic or Latino"]);
   ("median_income", [NA; Num (40000 # 1); Num (72000 # 1)]);
   ("fraction_poverty", [NA; Num (20 # 1); Num (9 # 1)]);
   ("fraction_no_health_ins", [NA; Num (11 # 1); Num (3 # 1)])].



(** A world in which the engine is down and every library call answers
    with a fixed value. *)
Definition quiet (cdr : option string) (engine : string -> result DataFrame) : World :=
  {| WORKSPACE_CDR := cdr;
     client_query := engine;
     sns_draw := fun _ => Ok tt;
     kruskal := fun _ => Ok (Fin (3 # 1), Fin (2 # 100));
     posthoc_dunn := fun _ _ _ => Ok [];
     chi2_contingency := fun _ => Ok (Fin (3 # 1), Fin (2 # 100)) |}.

(** What scipy releases raise on fewer than two samples: the message of
    the releases that count their arguments first, and the class later
    releases end in on a single sample (its message is left out). *)
Definition need_two_groups : exn :=
  mk_exn ValueError "Need at least two groups in stats.kruskal()".

Definition index_error : exn := mk_exn IndexError "".

(** A world like [quiet] whose Kruskal-Wallis routine raises [e] on fewer
    than two samples. *)
Definition rejecting (e : exn) (cdr : option string)
    (engine : string -> result DataFrame) : World :=
  {| WORKSPACE_CDR := cdr;
     client_query := engine;
     sns_draw := fun _ => Ok tt;
     kruskal := fun samples =>
       if (List.length samples <? 2)%nat
       then Raise e
       else Ok (Fin (3 # 1), Fin (2 # 100));
     posthoc_dunn := fun _ _ _ => Ok [];
     chi2_contingency := fun _ => Ok (Fin (3 # 1), Fin (2 # 100)) |}.

End Frames.

(** What the three operations read of the frame: the number of rows, the
    columns race, median_income and fraction_poverty, and the ethnicity
    column up to the cleaning of its label. *)

Definition clean (s : Series) : Series :=
  replace s (Str Level2.long_label) (Str Level2.short_label).

Definition same_view (df1 df2 : DataFrame) : Prop :=
  len df1 = len df2
  /\ lookup "race" df1 = lookup "race" df2
  /\ lookup "median_income" df1 = lookup "median_income" df2
  /\ lookup "fraction_poverty" df1 = lookup "fraction_poverty" df2
  /\ option_map clean (lookup "ethnicity" df1)
     = option_map clean (lookup "ethnicity" df2).

(** ** What a run sends to the engine *)

Definition is_query (e : event) : bool :=
  match e with
  | Query _ => true
  | _ => false
  end.

(** The requests of a trace, in order. *)
Definition queries (tr : list event) : list event := filter is_query tr.

(** A step that sends nothing to the engine. *)
Definition silent {A : Type} (m : M A) : Prop :=
  forall tr, queries (fst (m tr)) = queries tr.

(** The frame an operation leaves behind when it returns. *)
Definition frame_after (op : operation) (df_analysis : DataFrame) : DataFrame :=
  match op with
  | IncomeByRace => df_analysis
  | PovertyByEthnicity =>
      match lookup "ethnicity" df_analysis with
      | Some eth => setitem df_analysis "ethnicity" (clean eth)
      | None => df_analysis
      end
  | MissingnessByRace =>
      match lookup "median_income" df_analysis with
      | Some inc => setitem df_analysis "ses_data_missing" (map Bool (isnull inc))
      | None => df_analysis
      end
  end.

(* ===================================================================== *)
(** * Part IV: properties                                                 *)
(* ===================================================================== *)

(** ** Joins *)

Section Joins.
Import Warehouse.
Context {A B : Type}.
Variable on : A -> B -> bool.

Lemma left_join_cons (a : A) (l : list A) (r : list B) :
  left_join on (a :: l) r =
  ((match filter (on a) r with
    | [] => [(a, None)]
    | ms => map (fun b => (a, Some b)) ms
    end) ++ left_join on l r)%list.
Proof. reflexivity. Qed.

(** A left join over a right table with at most one match per left row
    returns the left rows, each once and in order. *)
Lemma left_join_fst (l : list A) (r : list B) :
  (forall a, In a l -> (List.length (filter (on a) r) <= 1)%nat) ->
  map fst (left_join on l r) = l.
Proof.
  induction l as [|a l IH]; intros Hone; [reflexivity|].
  rewrite left_join_cons, map_app, IH by (intros; apply Hone; now right).
  specialize (Hone a (or_introl eq_refl)).
  destruct (filter (on a) r) as [|b [|b' ms]]; simpl in *; try reflexivity; lia.
Qed.

(** Every left row survives a left join; when nothing matches it, the
    right side of its row is null. *)
Lemma left_join_keeps (l : list A) (r : list B) (a : A) :
  In a l ->
  exists ob, In (a, ob) (left_join on l r)
             /\ (forall b, ob = Some b -> In b r /\ on a b = true)
             /\ ((forall b, In b r -> on a b = false) -> ob = None).
Proof.
  induction l as [|a' l IH]; intros Hin; [contradiction|].
  rewrite left_join_cons. destruct Hin as [->|Hin].
  - destruct (filter (on a) r) as [|b ms] eqn:Hf.
    + exists None. split; [apply in_or_app; left; now left|].
      split; [discriminate|reflexivity].
    + exists (Some b). split; [apply in_or_app; left; now left|].
      assert (Hb : In b (filter (on a) r)) by (rewrite Hf; now left).
      apply filter_In in Hb. split.
      * intros b0 [= <-]. exact Hb.
      * intros Hnone. rewrite (Hnone b) in Hb by tauto. now destruct Hb.
  - destruct (IH Hin) as (ob & Hob & Hrest).
    exists ob. split; [apply in_or_app; now right|exact Hrest].
Qed.

Lemma in_inner_join (l : list A) (r : list B) (a : A) (b : B) :
  In (a, b) (inner_join on l r) <-> In a l /\ In b r /\ on a b = true.
Proof.
  unfold inner_join. rewrite in_flat_map. split.
  - intros (a' & Ha & Hp). apply in_map_iff in Hp.
    destruct Hp as (b' & [= <- <-] & Hb). apply filter_In in Hb. tauto.
  - intros (Ha & Hb & Hon). exists a. split; [exact Ha|].
    apply in_map. apply filter_In. tauto.
Qed.

End Joins.

(** At most one row of a table with distinct keys carries a given key. *)
Lemma unique_key_one_match {B K : Type} (key : B -> K) (p : B -> bool) (k : K)
    (r : list B) :
  (forall b, In b r -> p b = true -> key b = k) ->
  NoDup (map key r) ->
  (List.length (filter p r) <= 1)%nat.
Proof.
  induction r as [|b r IH]; intros Hk Hnd; simpl; [lia|].
  inversion Hnd as [|? ? Hnotin Hnd']; subst.
  assert (IH' : (List.length (filter p r) <= 1)%nat).
  { apply IH; [|exact Hnd']. intros; apply Hk; [now right|assumption]. }
  destruct (p b) eqn:Hpb; [|exact IH'].
  destruct (filter p r) as [|b' ms] eqn:Hf; simpl; [lia|].
  exfalso. apply Hnotin.
  assert (Hb' : In b' (filter p r)) by (rewrite Hf; now left).
  apply filter_In in Hb'. destruct Hb' as [Hin Hpb'].
  rewrite (Hk b (or_introl eq_refl) Hpb).
  rewrite <- (Hk b' (or_intror Hin) Hpb'). now apply in_map.
Qed.

Lemma filter_andb {B : Type} (p q : B -> bool) (l : list B) :
  filter (fun b => p b && q b) l = filter p (filter q l).
Proof.
  induction l as [|b l IH]; simpl; [reflexivity|].
  destruct (q b); simpl; rewrite ?andb_true_r, ?andb_false_r.
  - destruct (p b); now rewrite IH.
  - exact IH.
Qed.

Section QueryFacts.
Import Warehouse.
Variable ds : dataset.

Lemma concept_one_match (code : option Z) :
  concept_unique ds ->
  (List.length (filter (fun c => sql_eqZ code (Some (concept_id c)))
                  (concept_tbl ds)) <= 1)%nat.
Proof.
  intros Hu. destruct code as [z|].
  - apply (unique_key_one_match concept_id _ z); [|exact Hu].
    intros c _ H. simpl in H. apply Z.eqb_eq in H. now symmetry.
  - simpl. clear Hu. induction (concept_tbl ds); simpl; [lia|assumption].
Qed.

Lemma from_person_concepts_fst :
  concept_unique ds ->
  map lab_person (from_person_concepts ds) = person_tbl ds.
Proof.
  intros Hu. unfold from_person_concepts.
  set (j1 := left_join on_sex (person_tbl ds) (concept_tbl ds)).
  set (j2 := left_join on_race j1 (concept_tbl ds)).
  assert (H1 : map fst j1 = person_tbl ds).
  { apply left_join_fst. intros p _. apply (concept_one_match _ Hu). }
  assert (H2 : map fst j2 = j1).
  { apply left_join_fst. intros p _. apply (concept_one_match _ Hu). }
  assert (H3 : map fst (left_join on_eth j2 (concept_tbl ds)) = j2).
  { apply left_join_fst. intros p _. apply (concept_one_match _ Hu). }
  transitivity (map fst (map fst (map fst (left_join on_eth j2 (concept_tbl ds))))).
  - rewrite !map_map. reflexivity.
  - now rewrite H3, H2, H1.
Qed.

Lemma obs_one_match (x : labelled) :
  zip_obs_unique ds ->
  (List.length (filter (Level2Sql.on_obs x) (observation_tbl ds)) <= 1)%nat.
Proof.
  intros Hu. unfold Level2Sql.on_obs.
  rewrite (filter_andb (fun o => Z.eqb (person_id (lab_person x)) (obs_person_id o))
                       is_zip3_obs).
  apply (unique_key_one_match obs_person_id _ (person_id (lab_person x)));
    [|exact Hu].
  intros o _ H. apply Z.eqb_eq in H. now symmetry.
Qed.

Lemma ses_one_match (xo : labelled * option observation) :
  ses_unique ds ->
  (List.length (filter (Level2Sql.on_ses xo) (zip3_ses_map_tbl ds)) <= 1)%nat.
Proof.
  intros Hu. unfold Level2Sql.on_ses.
  destruct (col_of value_as_string (snd xo)) as [v|].
  - apply (unique_key_one_match zip3_as_string _ v); [|exact Hu].
    intros s _ H. simpl in H. apply String.eqb_eq in H. now symmetry.
  - simpl. clear Hu. induction (zip3_ses_map_tbl ds); simpl; [lia|assumption].
Qed.

Lemma from_all_fst :
  ses_unique ds -> zip_obs_unique ds ->
  map (fun j : Level2Sql.joined => fst (fst j)) (Level2Sql.from_all ds)
  = from_person_concepts ds.
Proof.
  intros Hs Ho. unfold Level2Sql.from_all.
  set (j4 := left_join Level2Sql.on_obs (from_person_concepts ds) (observation_tbl ds)).
  assert (H4 : map fst j4 = from_person_concepts ds).
  { apply left_join_fst. intros x _. now apply obs_one_match. }
  assert (H5 : map fst (left_join Level2Sql.on_ses j4 (zip3_ses_map_tbl ds)) = j4).
  { apply left_join_fst. intros x _. now apply ses_one_match. }
  transitivity (map fst (map fst (left_join Level2Sql.on_ses j4 (zip3_ses_map_tbl ds)))).
  - rewrite !map_map. reflexivity.
  - now rewrite H5, H4.
Qed.

End QueryFacts.

(** C1. When the concept lookup, the SES lookup and the 3-digit ZIP
    observation are unique on their join keys, the combined query
    returns as many rows as the demographics-only query, and both return
    one row per subject: the demographic columns of the combined rows
    are the rows of the demographics-only query, in the same order, and
    their number is the number of subjects. *)
Theorem combined_query_keeps_cohort_size (ds : Warehouse.dataset) :
  concept_unique ds -> ses_unique ds -> zip_obs_unique ds ->
  List.length (Level2Sql.sql_query ds) = List.length (Level1Sql.sql_query ds)
  /\ List.length (Level1Sql.sql_query ds) = List.length (Warehouse.person_tbl ds)
  /\ map demographics_of (Level2Sql.sql_query ds) = Level1Sql.sql_query ds.
Proof.
  intros Hc Hs Ho.
  assert (Hproj : map demographics_of (Level2Sql.sql_query ds) = Level1Sql.sql_query ds).
  { unfold Level2Sql.sql_query, Level1Sql.sql_query.
    rewrite <- (from_all_fst ds Hs Ho), !map_map. reflexivity. }
  assert (Hlen : List.length (Level1Sql.sql_query ds)
                 = List.length (Warehouse.person_tbl ds)).
  { unfold Level1Sql.sql_query.
    rewrite <- (from_person_concepts_fst ds Hc), !length_map. reflexivity. }
  split; [|split; assumption].
  rewrite <- Hproj, length_map. reflexivity.
Qed.

Lemma combined_query_keeps_cohort_size_witness :
  List.length (Level2Sql.sql_query Sample.cohort)
    = List.length (Level1Sql.sql_query Sample.cohort)
  /\ List.length (Level1Sql.sql_query Sample.cohort)
    = List.length (Warehouse.person_tbl Sample.cohort)
  /\ map demographics_of (Level2Sql.sql_query Sample.cohort)
    = Level1Sql.sql_query Sample.cohort.
Proof.
  apply (combined_query_keeps_cohort_size Sample.cohort).
  - unfold concept_unique. simpl.
    repeat (constructor; [simpl; intuition discriminate|]). constructor.
  - unfold ses_unique. simpl.
    repeat (constructor; [simpl; intuition discriminate|]). constructor.
  - unfold zip_obs_unique. simpl.
    repeat (constructor; [simpl; intuition discriminate|]). constructor.
Defined.

(** Without unique keys the count does change: a second SES row for the
    same prefix doubles Alice. *)
Example duplicate_ses_key_fans_out :
  let ds := Warehouse.mk_dataset [Sample.alice] Sample.concepts Sample.observations
              (Sample.ses_map ++ Sample.ses_map) in
  List.length (Level2Sql.sql_query ds) = 2%nat
  /\ List.length (Level1Sql.sql_query ds) = 1%nat.
Proof. split; reflexivity. Qed.

(** ** C2: which joins keep every subject *)

Section KeepsSubjects.
Import Warehouse.
Variable ds : dataset.

Lemma labelled_keeps (p : person) :
  In p (person_tbl ds) ->
  exists x, In x (from_person_concepts ds)
    /\ lab_person x = p
    /\ (no_concept ds (sex_at_birth_concept_id p) -> lab_sex x = None)
    /\ (no_concept ds (race_concept_id p) -> lab_race x = None)
    /\ (no_concept ds (ethnicity_concept_id p) -> lab_eth x = None).
Proof.
  intros Hp.
  destruct (left_join_keeps on_sex _ (concept_tbl ds) p Hp) as (c1 & H1 & _ & N1).
  destruct (left_join_keeps on_race _ (concept_tbl ds) _ H1) as (c2 & H2 & _ & N2).
  destruct (left_join_keeps on_eth _ (concept_tbl ds) _ H2) as (c3 & H3 & _ & N3).
  exists (p, c1, c2, c3). split; [exact H3|]. split; [reflexivity|].
  unfold lab_sex, lab_race, lab_eth; simpl.
  split; [|split]; intros Hno; [apply N1|apply N2|apply N3]; exact Hno.
Qed.

End KeepsSubjects.

(** A selected label is null when the join that feeds it found nothing. *)
Ltac label_case :=
  first [ reflexivity
        | let Hn := fresh "Hn" in
          intros Hn;
          match goal with
          | H : _ -> ?t = None |- Warehouse.col_of _ ?t = None =>
              rewrite (H Hn); reflexivity
          end ].

(** C2, as the code has it.  The concept joins of both scripts and the
    observation and SES joins of the combined query are left joins:
    every subject has a row in the demographics query and in the
    combined query, with a null label where no concept carries the
    subject's code and null SES fields where the subject has no 3-digit
    ZIP observation that the lookup knows.  The SES query of level 1 is
    an inner join of observations and lookup: its rows are exactly the
    pairs that match. *)
Theorem left_joins_keep_every_subject (ds : Warehouse.dataset) (p : Warehouse.person) :
  In p (Warehouse.person_tbl ds) ->
  (exists r, In r (Level2Sql.sql_query ds)
     /\ Level2Sql.person_id r = Warehouse.person_id p
     /\ Level2Sql.age r = Warehouse.age_of p
     /\ (no_concept ds (Warehouse.sex_at_birth_concept_id p) ->
         Level2Sql.sex_at_birth r = None)
     /\ (no_concept ds (Warehouse.race_concept_id p) -> Level2Sql.race r = None)
     /\ (no_concept ds (Warehouse.ethnicity_concept_id p) ->
         Level2Sql.ethnicity r = None)
     /\ (no_ses_match ds p ->
         Level2Sql.median_income r = None
         /\ Level2Sql.fraction_poverty r = None
         /\ Level2Sql.fraction_no_health_ins r = None))
  /\ (exists r, In r (Level1Sql.sql_query ds)
     /\ Level1Sql.age r = Warehouse.age_of p
     /\ (no_concept ds (Warehouse.sex_at_birth_concept_id p) ->
         Level1Sql.sex_at_birth r = None)
     /\ (no_concept ds (Warehouse.race_concept_id p) -> Level1Sql.race r = None)
     /\ (no_concept ds (Warehouse.ethnicity_concept_id p) ->
         Level1Sql.ethnicity r = None))
  /\ (forall r, In r (Level1Sql.sql_query_ses ds) <->
        exists o s, In o (Warehouse.observation_tbl ds)
          /\ In s (Warehouse.zip3_ses_map_tbl ds)
          /\ is_zip3_obs o = true
          /\ Level1Sql.on_zip o s = true
          /\ r = Level1Sql.select_ses (o, s)).
Proof.
  intros Hp.
  destruct (labelled_keeps ds p Hp) as (x & Hx & Hxp & Hsex & Hrace & Heth).
  split; [|split].
  - destruct (left_join_keeps Level2Sql.on_obs _ (Warehouse.observation_tbl ds) _ Hx)
      as (oo & Ho & Hsome & _).
    destruct (left_join_keeps Level2Sql.on_ses _ (Warehouse.zip3_ses_map_tbl ds) _ Ho)
      as (os & Hs & _ & Hnone).
    exists (Level2Sql.select (x, oo, os)).
    split; [unfold Level2Sql.sql_query; now apply in_map|].
    simpl. rewrite Hxp.
    do 5 (split; [label_case|]).
    intros Hno.
    assert (Hos : os = None).
    { apply Hnone. intros s Hs_in. unfold Level2Sql.on_ses. simpl.
      destruct oo as [o|]; [|reflexivity]. simpl.
      destruct (Hsome o eq_refl) as [Ho_in Hon].
      unfold Level2Sql.on_obs in Hon. apply andb_prop in Hon.
      destruct Hon as [Hid Hz]. apply Z.eqb_eq in Hid. rewrite Hxp in Hid.
      apply (Hno o s Ho_in Hs_in); [now symmetry|exact Hz]. }
    rewrite Hos. simpl. repeat split.
  - exists (Level1Sql.select x).
    split; [unfold Level1Sql.sql_query; now apply in_map|].
    simpl. rewrite Hxp.
    do 3 (split; [label_case|]). label_case.
  - intros r. unfold Level1Sql.sql_query_ses. rewrite in_map_iff. split.
    + intros ([o s] & <- & Hin). apply filter_In in Hin. destruct Hin as [Hin Hw].
      apply in_inner_join in Hin. exists o, s. tauto.
    + intros (o & s & Ho & Hs & Hz & Hon & ->). exists (o, s).
      split; [reflexivity|]. apply filter_In. split; [|exact Hz].
      apply in_inner_join. tauto.
Qed.

Lemma left_joins_keep_every_subject_witness :
  exists r, In r (Level2Sql.sql_query Sample.cohort)
     /\ Level2Sql.person_id r = 2
     /\ Level2Sql.sex_at_birth r = None
     /\ Level2Sql.ethnicity r = None
     /\ Level2Sql.median_income r = None.
Proof.
  assert (Hin : In Sample.bob (Warehouse.person_tbl Sample.cohort))
    by (simpl; tauto).
  destruct (left_joins_keep_every_subject Sample.cohort Sample.bob Hin)
    as ((r & Hr & Hid & _ & Hsex & _ & Heth & Hses) & _).
  exists r. split; [exact Hr|]. split; [exact Hid|].
  split; [|split].
  - apply Hsex. intros c _. reflexivity.
  - apply Heth. intros c Hc. simpl in Hc.
    repeat (destruct Hc as [<-|Hc]; [reflexivity|]). contradiction.
  - refine (proj1 (Hses _)). intros o s Ho Hs Hid' Hz. simpl in Ho, Hs.
    destruct Hs as [<-|[]].
    repeat (destruct Ho as [<-|Ho]; [first [reflexivity | discriminate]|]).
    contradiction.
Defined.

(** C2, as stated, fails for the SES query of level 1: Bob is a subject
    with a 3-digit ZIP observation, the lookup has no entry for it, and
    the query returns no row at all, where a left join would return one
    with null SES fields (as the combined query does). *)
Lemma ses_query_drops_unmatched_subject :
  In Sample.bob (Warehouse.person_tbl Sample.unmatched)
  /\ (exists o, In o (Warehouse.observation_tbl Sample.unmatched)
        /\ Warehouse.obs_person_id o = Warehouse.person_id Sample.bob
        /\ is_zip3_obs o = true)
  /\ no_ses_match Sample.unmatched Sample.bob
  /\ Level1Sql.sql_query_ses Sample.unmatched = []
  /\ List.length (Level2Sql.sql_query Sample.unmatched) = 1%nat.
Proof.
  split; [simpl; tauto|]. split.
  - eexists. split; [left; reflexivity|]. split; reflexivity.
  - split; [|split; reflexivity].
    intros o s Ho Hs _ _. simpl in Ho, Hs.
    destruct Ho as [<-|[]]. destruct Hs as [<-|[]]. reflexivity.
Qed.

(** ** Frames *)

Lemma lookup_getmask (df : DataFrame) (m : list bool) (c : string) :
  lookup c (getmask df m) = option_map (select m) (lookup c df).
Proof.
  induction df as [|[n s] df IH]; simpl; [reflexivity|].
  destruct (String.eqb n c); [reflexivity|exact IH].
Qed.

Lemma getitem_Ok (df : DataFrame) (c : string) (s : Series) :
  getitem df c = Ok s <-> lookup c df = Some s.
Proof.
  unfold getitem. destruct (lookup c df); split; intros H;
    first [now inversion H | discriminate].
Qed.

Lemma getitem_getmask (df : DataFrame) (m : list bool) (c : string) (s : Series) :
  lookup c df = Some s -> getitem (getmask df m) c = Ok (select m s).
Proof. intros H. apply getitem_Ok. now rewrite lookup_getmask, H. Qed.

Lemma missing_labels_nil (df : DataFrame) (subset : list string) :
  missing_labels df subset = [] <-> (forall c, In c subset -> lookup c df <> None).
Proof.
  induction subset as [|n rest IH]; simpl.
  - split; [intros _ c []|reflexivity].
  - destruct (lookup n df) eqn:Hn.
    + rewrite IH. split.
      * intros H c [<-|Hc]; [congruence|now apply H].
      * intros H c Hc. apply H. now right.
    + split; [discriminate|]. intros H. exfalso. now apply (H n); [left|].
Qed.

(** [dropna] returns when every label of [subset] is a column, and then
    it is a selection of rows. *)
Lemma dropna_Ok (df td : DataFrame) (subset : list string) :
  dropna df subset = Ok td ->
  td = getmask df (notnull_rows df subset (len df))
  /\ (forall c, In c subset -> lookup c df <> None).
Proof.
  unfold dropna. destruct (missing_labels df subset) eqn:Hm; [|discriminate].
  intros [= <-]. split; [reflexivity|]. now apply missing_labels_nil.
Qed.

Lemma dropna_total (df : DataFrame) (subset : list string) :
  (forall c, In c subset -> lookup c df <> None) ->
  dropna df subset = Ok (getmask df (notnull_rows df subset (len df))).
Proof.
  intros H. unfold dropna. apply missing_labels_nil in H. now rewrite H.
Qed.

Lemma in_select {A : Type} (m : list bool) (l : list A) (x : A) :
  In x (select m l) -> In x l.
Proof.
  revert l. induction m as [|b m IH]; intros [|y l]; simpl; try tauto.
  destruct b; simpl; intros H; [destruct H as [H|H]|]; auto.
Qed.

(** What passes [s[s != v]] is not equal to [v]. *)
Lemma in_select_ne (s : Series) (v c : cell) :
  In c (select (ne_mask s v) s) -> eq_cell c v = false.
Proof.
  induction s as [|x s IH]; simpl; [tauto|].
  destruct (eq_cell x v) eqn:Hx; simpl; [exact IH|].
  intros [<-|H]; [exact Hx|now apply IH].
Qed.

Lemma in_unique_acc (seen : list cell) (s : Series) (c : cell) :
  In c (unique_acc seen s) -> In c s.
Proof.
  revert seen. induction s as [|x s IH]; intros seen; simpl; [tauto|].
  destruct (mem_cell x seen); simpl.
  - intros H. right. exact (IH _ H).
  - intros [H|H]; [now left|right; exact (IH _ H)].
Qed.

Lemma in_unique (s : Series) (c : cell) : In c (unique s) -> In c s.
Proof. apply in_unique_acc. Qed.

Lemma same_cell_Str (x : string) (c : cell) :
  same_cell (Str x) c = true -> c = Str x.
Proof.
  destruct c; simpl; try discriminate. intros H. apply String.eqb_eq in H. now subst.
Qed.

Lemma eq_cell_Str_refl (x : string) : eq_cell (Str x) (Str x) = true.
Proof. unfold eq_cell. simpl. apply String.eqb_refl. Qed.

(** A string of the series is among its unique values. *)
Lemma unique_acc_keeps_Str (seen : list cell) (s : Series) (x : string) :
  In (Str x) s -> mem_cell (Str x) seen = false -> In (Str x) (unique_acc seen s).
Proof.
  revert seen. induction s as [|y s IH]; intros seen; simpl; [tauto|].
  intros Hin Hseen. destruct (mem_cell y seen) eqn:Hy.
  - destruct Hin as [->|Hin]; [congruence|now apply IH].
  - destruct Hin as [->|Hin]; [now left|].
    destruct (same_cell (Str x) y) eqn:Hxy.
    + apply same_cell_Str in Hxy. subst y. now left.
    + right. apply IH; [exact Hin|].
      unfold mem_cell in *. cbn [existsb]. now rewrite Hxy.
Qed.

Lemma unique_keeps_Str (s : Series) (x : string) :
  In (Str x) s -> In (Str x) (unique s).
Proof. intros H. now apply unique_acc_keeps_Str. Qed.

(** ** C3: the income comparison leaves the sentinel out *)

(** The groups of the income test: the unique values of a series from
    which the sentinel was removed. *)
Lemma groups_shape (df : DataFrame) (gs : list cell) :
  Level2.groups df = Ok gs ->
  exists s, gs = unique (select (ne_mask s (Str Level2.no_matching_concept)) s).
Proof.
  unfold Level2.groups, Level2.test_data, rbind.
  destruct (dropna df _) as [td|e] eqn:Hd; [|discriminate].
  destruct (getitem td "race") as [race|e] eqn:Hr; [|discriminate].
  apply getitem_Ok in Hr. rewrite (getitem_getmask _ _ _ _ Hr).
  intros [= <-]. now exists race.
Qed.

Lemma groups_total (df : DataFrame) :
  lookup "race" df <> None -> lookup "median_income" df <> None ->
  exists gs, Level2.groups df = Ok gs.
Proof.
  intros Hr Hi. unfold Level2.groups, Level2.test_data, rbind.
  rewrite dropna_total by (intros c [<-|[<-|[]]]; assumption).
  destruct (lookup "race" df) as [race|] eqn:Hrace; [|congruence].
  rewrite (getitem_getmask df _ "race" race Hrace).
  rewrite (getitem_getmask _ _ "race" _
             (eq_trans (lookup_getmask df _ "race")
                       (f_equal (option_map _) Hrace))).
  eexists. reflexivity.
Qed.

(** C3.  Rows whose race is the sentinel 'No matching concept' are left
    out of the income-by-race comparison: on every frame with the columns
    race and median_income the comparison gets its groups, and the
    sentinel is never one of them. *)
Theorem income_groups_exclude_sentinel (df : DataFrame) :
  lookup "race" df <> None -> lookup "median_income" df <> None ->
  exists gs, Level2.groups df = Ok gs
             /\ ~ In (Str "No matching concept") gs.
Proof.
  intros Hr Hi. destruct (groups_total df Hr Hi) as [gs Hgs].
  exists gs. split; [exact Hgs|].
  destruct (groups_shape df gs Hgs) as [s ->].
  intros Hin. apply in_unique, in_select_ne in Hin.
  change "No matching concept" with Level2.no_matching_concept in Hin.
  now rewrite eq_cell_Str_refl in Hin.
Qed.

Lemma income_groups_exclude_sentinel_witness :
  exists gs, Level2.groups Frames.df_sample = Ok gs
             /\ ~ In (Str "No matching concept") gs.
Proof.
  apply (income_groups_exclude_sentinel Frames.df_sample); simpl; discriminate.
Defined.

(** Whenever the groups are computed at all, the sentinel is not there. *)
Lemma income_groups_never_sentinel (df : DataFrame) (gs : list cell) :
  Level2.groups df = Ok gs -> ~ In (Str Level2.no_matching_concept) gs.
Proof.
  intros Hgs. destruct (groups_shape df gs Hgs) as [s ->].
  intros Hin. apply in_unique, in_select_ne in Hin.
  now rewrite eq_cell_Str_refl in Hin.
Qed.

(** ** C4: the text of a p-value *)

Lemma flt_Fin (q c : Q) : flt (Fin q) c = true <-> (q < c)%Q.
Proof.
  unfold flt. rewrite negb_true_iff. split.
  - intros H. apply Qnot_le_lt. intros Hle.
    apply Qle_bool_iff in Hle. congruence.
  - intros H. destruct (Qle_bool c q) eqn:Hle; [|reflexivity].
    apply Qle_bool_iff in Hle. exfalso. exact (Qlt_not_le _ _ H Hle).
Qed.

Lemma tiny_lt_alpha : (tiny < alpha)%Q.
Proof. reflexivity. Qed.

(** C4.  A p-value below 0.001 is shown as the bound "p < 0.001", in the
    annotation of the Kruskal-Wallis tests and of the chi-square test.
    The verdict compares with 0.05 strictly: a p-value is significant
    exactly when it is a number below 0.05, so 0.05 itself is not, and
    its annotation is the one for no significant result. *)
Theorem p_value_text_and_verdict (q : Q) :
  (q < 1 # 1000)%Q ->
  p_text (Fin q) = "p < 0.001"
  /\ Level2.stat_text_kruskal (Fin q)
     = ("Statistically Significant Deviation" ++ nl ++ "(Kruskal-Wallis p < 0.001)",
        "lightgreen")
  /\ Level2.stat_text_chi2 (Fin q)
     = ("Statistically Significant Difference" ++ nl ++ "(Chi-Square p < 0.001)",
        "lightgreen")
  /\ significant (Fin (5 # 100)) = false
  /\ Level2.stat_text_kruskal (Fin (5 # 100))
     = ("No Significant Deviation Found" ++ nl ++ "(Kruskal-Wallis p = 0.050)",
        "lightgray")
  /\ (forall p, significant p = true <-> exists x, p = Fin x /\ (x < 5 # 100)%Q).
Proof.
  intros Hq.
  assert (Ht : flt (Fin q) tiny = true) by (apply flt_Fin; exact Hq).
  assert (Hs : significant (Fin q) = true).
  { apply flt_Fin. exact (Qlt_trans _ _ _ Hq tiny_lt_alpha). }
  assert (Hp : p_text (Fin q) = "p < 0.001") by (unfold p_text; now rewrite Ht).
  split; [exact Hp|].
  split; [unfold Level2.stat_text_kruskal, annotate; now rewrite Hs, Hp|].
  split; [unfold Level2.stat_text_chi2, annotate; now rewrite Hs, Hp|].
  split; [reflexivity|]. split; [reflexivity|].
  intros p. split.
  - destruct p as [|x]; [discriminate|]. intros H. exists x.
    split; [reflexivity|]. now apply flt_Fin.
  - intros (x & -> & Hx). now apply flt_Fin.
Qed.

Lemma p_value_text_and_verdict_witness :
  p_text (Fin (1 # 10000)) = "p < 0.001"
  /\ significant (Fin (5 # 100)) = false.
Proof.
  assert (H : (1 # 10000 < 1 # 1000)%Q) by reflexivity.
  destruct (p_value_text_and_verdict (1 # 10000) H) as (Hp & _ & _ & Hs & _).
  split; assumption.
Defined.

(** Above the bound the value is printed with three decimals. *)
Example p_text_three_decimals :
  p_text (Fin (1 # 1000)) = "p = 0.001"
  /\ p_text (Fin (12 # 1000)) = "p = 0.012"
  /\ fst (Level2.stat_text_chi2 (Fin (49 # 1000)))
     = "Statistically Significant Difference" ++ nl ++ "(Chi-Square p = 0.049)"
  /\ fst (Level2.stat_text_kruskal NaN)
     = "No Significant Deviation Found" ++ nl ++ "(Kruskal-Wallis p = nan)".
Proof. repeat split; reflexivity. Qed.

(** ** Traces *)

Lemma extends_ret {A : Type} (a : A) : extends (ret a).
Proof. intros tr. exists []. simpl. now rewrite app_nil_r. Qed.

Lemma extends_lift {A : Type} (r : result A) : extends (lift r).
Proof. intros tr. exists []. simpl. now rewrite app_nil_r. Qed.

Lemma extends_emit (e : event) : extends (emit e).
Proof. intros tr. now exists [e]. Qed.

Lemma extends_bind {A B : Type} (m : M A) (k : A -> M B) :
  extends m -> (forall a, extends (k a)) -> extends (bind m k).
Proof.
  intros Hm Hk tr. unfold bind. destruct (Hm tr) as [more1 H1].
  destruct (m tr) as [tr' [a|e]]; simpl in *; subst tr'.
  - destruct (Hk a (tr ++ more1)%list) as [more2 H2].
    exists (more1 ++ more2)%list. now rewrite H2, app_assoc.
  - now exists more1.
Qed.

Lemma extends_try {A : Type} (m : M A) (h : exn -> M A) :
  extends m -> (forall e, extends (h e)) -> extends (try_except m h).
Proof.
  intros Hm Hh tr. unfold try_except. destruct (Hm tr) as [more1 H1].
  destruct (m tr) as [tr' [a|e]]; simpl in *; subst tr'.
  - now exists more1.
  - destruct (Hh e (tr ++ more1)%list) as [more2 H2].
    exists (more1 ++ more2)%list. now rewrite H2, app_assoc.
Qed.

Ltac extends_tac :=
  repeat match goal with
  | |- extends (bind _ _) => apply extends_bind; [|intros]
  | |- extends (try_except _ _) => apply extends_try; [|intros]
  | |- extends (emit _) => apply extends_emit
  | |- extends (print _) => apply extends_emit
  | |- extends (plt _) => apply extends_emit
  | |- extends (lift _) => apply extends_lift
  | |- extends (ret _) => apply extends_ret
  | |- extends (sns _ _) => unfold sns
  | |- extends (run_query _ _) => unfold run_query
  | |- extends (if ?b then _ else _) => destruct b
  | |- extends (match ?x with _ => _ end) => destruct x
  end.

(** What a step has emitted stays in the trace of what follows. *)
Lemma bind_keeps_event {A B : Type} (m : M A) (k : A -> M B) (tr : list event)
    (e : event) :
  (forall a, extends (k a)) ->
  In e (fst (m tr)) -> In e (fst (bind m k tr)).
Proof.
  intros Hk Hin. unfold bind. destruct (m tr) as [tr' [a|x]]; simpl in *.
  - destruct (Hk a tr') as [more ->]. apply in_or_app. now left.
  - exact Hin.
Qed.

Lemma extends_analyses (w : World) (df_analysis : DataFrame) :
  extends (Level2.analyses w df_analysis).
Proof.
  unfold Level2.analyses, Level2.analysis_plot1, Level2.analysis_plot2,
    Level2.posthoc, Level2.analysis_plot3. extends_tac.
Qed.

Lemma extends_report (w : World) (df_demographics : DataFrame) :
  extends (Level1.report w df_demographics).
Proof.
  unfold Level1.report, Level1.plot1, Level1.plot2, Level1.plot3, Level1.plot4,
    Level1.plot5, Level1.plot6, Level1.plot7, Level1.load_ses,
    Level1.histogram, Level1.countplot. extends_tac.
Qed.

(** ** C5 and C7: what a run does without a dataset identifier, and
       after a failed query *)

Lemma setup_trace (w : World) (tr : list event) :
  truthy (WORKSPACE_CDR w) = false ->
  Level2.setup w tr
  = ((tr ++ [Print "Error: WORKSPACE_CDR environment variable not set."; ClientInit])%list,
     Ok tt)
  /\ Level1.setup w tr = Level2.setup w tr.
Proof.
  intros H. unfold Level2.setup, Level1.setup, Level2.cdr_dataset_id,
    Level1.cdr_dataset_id, bind, print, emit.
  rewrite H. rewrite <- app_assoc. split; reflexivity.
Qed.

(** The query is sent whatever the identifier is. *)
Lemma load2_sends_query (w : World) (tr : list event) :
  In (Query (Level2.sql_query (WORKSPACE_CDR w))) (fst (Level2.load w tr)).
Proof.
  unfold Level2.load, try_except, bind, print, run_query, emit, lift,
    Level2.cdr_dataset_id.
  destruct (client_query w _) as [df|e]; simpl;
    rewrite !in_app_iff; simpl; tauto.
Qed.

Lemma load1_sends_query (w : World) (tr : list event) :
  In (Query (Level1.sql_query (WORKSPACE_CDR w))) (fst (Level1.load w tr)).
Proof.
  unfold Level1.load, try_except, bind, print, run_query, emit, lift,
    Level1.cdr_dataset_id.
  destruct (client_query w _) as [df|e]; simpl;
    rewrite !in_app_iff; simpl; tauto.
Qed.

(** C5, on the code.  With [WORKSPACE_CDR] unset the scripts print an
    error line and go on: each builds its query with the text [None] in
    place of the identifier and sends it to the engine.  Nothing is
    refused and no configuration error is raised. *)
Theorem unset_dataset_id_is_queried_as_None (w : World) :
  WORKSPACE_CDR w = None ->
  In (Print "Error: WORKSPACE_CDR environment variable not set.")
     (fst (run (Level2.main w)))
  /\ In (Query (Level2.sql_query None)) (fst (run (Level2.main w)))
  /\ In (Query (Level1.sql_query None)) (fst (run (Level1.main w)))
  /\ contains "FROM
    `None.person` p" (Level2.sql_query None) = true
  /\ contains "FROM
    `None.person` p" (Level1.sql_query None) = true.
Proof.
  intros Hcdr.
  assert (Ht : truthy (WORKSPACE_CDR w) = false) by now rewrite Hcdr.
  destruct (setup_trace w [] Ht) as [H2 H1].
  split; [|split; [|split; [|split; reflexivity]]].
  - unfold run, Level2.main. apply bind_keeps_event.
    + intros _. extends_tac; [unfold Level2.load; extends_tac|apply extends_analyses].
    + rewrite H2. simpl. now left.
  - unfold run, Level2.main, bind at 1. rewrite H2.
    apply bind_keeps_event; [intros; apply extends_analyses|].
    rewrite <- Hcdr. apply load2_sends_query.
  - unfold run, Level1.main, bind at 1. rewrite H1, H2.
    apply bind_keeps_event; [intros; apply extends_report|].
    rewrite <- Hcdr. apply load1_sends_query.
Qed.

Lemma unset_dataset_id_is_queried_as_None_witness :
  In (Query (Level2.sql_query None))
     (fst (run (Level2.main (Frames.quiet None (engine_down "404 Not found: Dataset None"))))).
Proof.
  refine (proj1 (proj2 (unset_dataset_id_is_queried_as_None
                          (Frames.quiet None (engine_down "404 Not found: Dataset None")) _))).
  reflexivity.
Defined.

(** The substitution itself: a failed query leaves the empty frame. *)
Lemma load_substitutes_empty_frame (w : World) (e : exn) (tr : list event) :
  (forall sql, client_query w sql = Raise e) ->
  snd (Level1.load w tr) = Ok pd_DataFrame
  /\ snd (Level1.load_ses w tr) = Ok pd_DataFrame
  /\ snd (Level2.load w tr) = Ok pd_DataFrame.
Proof.
  intros H.
  unfold Level1.load, Level1.load_ses, Level2.load, try_except, bind, print,
    run_query, emit, lift. rewrite !H. repeat split.
Qed.

(** C7, on the code.  When the engine fails, the empty frame
    [pd.DataFrame()] is put in place of the result and the run goes on,
    but that frame has no column: the first analysis raises [KeyError]
    on the first column it asks for, and the run ends there.  In level 1
    the SES query, which does not depend on the demographics, is never
    sent; in level 2 no test is run and nothing is annotated. *)
Theorem failed_query_ends_run_at_first_analysis (w : World) (e : exn) :
  (forall sql, client_query w sql = Raise e) ->
  (exists greeting,
     run (Level1.main w)
     = ([Print greeting; ClientInit;
         Print "Running query to fetch demographic data...";
         Query (Level1.sql_query (WORKSPACE_CDR w));
         Print ("An error occurred: " ++ exn_str e);
         Plt (Figure 10 6)],
        Raise (mk_exn KeyError "['age']")))
  /\ (exists greeting,
     run (Level2.main w)
     = ([Print greeting; ClientInit;
         Print "Running combined query to fetch all analysis data...";
         Query (Level2.sql_query (WORKSPACE_CDR w));
         Print ("An error occurred: " ++ exn_str e);
         Plt (Figure 14 8)],
        Raise (mk_exn KeyError "'race'"))).
Proof.
  intros H. split.
  - unfold run, Level1.main, Level1.setup, Level1.load, Level1.report,
      Level1.plot1, Level1.histogram, Level1.cdr_dataset_id,
      try_except, bind, print, plt, run_query, emit, lift.
    destruct (truthy (WORKSPACE_CDR w)); simpl; rewrite H; simpl;
      eexists; reflexivity.
  - unfold run, Level2.main, Level2.setup, Level2.load, Level2.analyses,
      Level2.analysis_plot1, Level2.cdr_dataset_id,
      try_except, bind, print, plt, run_query, emit, lift.
    destruct (truthy (WORKSPACE_CDR w)); simpl; rewrite H; simpl;
      eexists; reflexivity.
Qed.

Lemma failed_query_ends_run_at_first_analysis_witness :
  snd (run (Level1.main (Frames.quiet (Some "aou.C2024Q3R5") (engine_down "403 Forbidden"))))
  = Raise (mk_exn KeyError "['age']")
  /\ snd (run (Level2.main (Frames.quiet (Some "aou.C2024Q3R5") (engine_down "403 Forbidden"))))
  = Raise (mk_exn KeyError "'race'").
Proof.
  destruct (failed_query_ends_run_at_first_analysis
              (Frames.quiet (Some "aou.C2024Q3R5") (engine_down "403 Forbidden"))
              (mk_exn EngineError "403 Forbidden") (fun _ => eq_refl))
    as [[g1 H1] [g2 H2]].
  rewrite H1, H2. split; reflexivity.
Defined.

(** ** C6: fewer than two groups *)

Lemma by_group_Ok (td : DataFrame) (val by_ : string) (v g : Series)
    (gs : list cell) :
  lookup val td = Some v -> lookup by_ td = Some g ->
  by_group td val by_ gs = Ok (map (fun group => select (eq_mask g group) v) gs).
Proof.
  intros Hv Hg. unfold by_group.
  induction gs as [|x gs IH]; simpl; [reflexivity|].
  rewrite IH. unfold getitem. now rewrite Hv, Hg.
Qed.

(** The samples handed to the test, one per group. *)
Lemma income_by_group_shape (df : DataFrame) (gs : list cell) :
  Level2.groups df = Ok gs ->
  exists samples, Level2.income_by_group df = Ok samples
                  /\ List.length samples = List.length gs.
Proof.
  intros Hgs. unfold Level2.income_by_group. rewrite Hgs.
  revert Hgs. unfold Level2.groups, Level2.test_data, rbind.
  destruct (dropna df _) as [td|e] eqn:Hd; [|discriminate].
  destruct (getitem td "race") as [race|e] eqn:Hr; [|discriminate].
  apply getitem_Ok in Hr. intros _.
  apply dropna_Ok in Hd. destruct Hd as [Htd Hcols].
  destruct (lookup "median_income" td) as [inc|] eqn:Hi.
  - erewrite by_group_Ok.
    + eexists. split; [reflexivity|]. now rewrite length_map.
    + now rewrite lookup_getmask, Hi.
    + now rewrite lookup_getmask, Hr.
  - exfalso. rewrite Htd, lookup_getmask in Hi.
    destruct (lookup "median_income" df) eqn:Hdf; [discriminate|].
    apply (Hcols "median_income"); [simpl; tauto|exact Hdf].
Qed.

Lemma poverty_by_group_shape (df : DataFrame) (gs : list cell) :
  Level2.groups_eth df = Ok gs ->
  exists samples, Level2.poverty_by_group df = Ok samples
                  /\ List.length samples = List.length gs.
Proof.
  intros Hgs. unfold Level2.poverty_by_group. rewrite Hgs.
  revert Hgs. unfold Level2.groups_eth, Level2.test_data_eth, rbind.
  destruct (dropna df _) as [td|e] eqn:Hd; [|discriminate].
  destruct (getitem td "ethnicity") as [eth|e] eqn:Hr; [|discriminate].
  apply getitem_Ok in Hr. intros _.
  apply dropna_Ok in Hd. destruct Hd as [Htd Hcols].
  destruct (lookup "fraction_poverty" td) as [pov|] eqn:Hi.
  - erewrite by_group_Ok; [|exact Hi|exact Hr].
    eexists. split; [reflexivity|]. now rewrite length_map.
  - exfalso. rewrite Htd, lookup_getmask in Hi.
    destruct (lookup "fraction_poverty" df) eqn:Hdf; [discriminate|].
    apply (Hcols "fraction_poverty"); [simpl; tauto|exact Hdf].
Qed.

(** What a block has drawn when it ends in an exception before its
    annotation: no text box. *)
Ltac no_text_box Hin :=
  repeat (apply in_app_or in Hin; destruct Hin as [Hin|Hin]);
  try assumption; simpl in Hin;
  repeat (destruct Hin as [Hin|Hin]; [discriminate|]); contradiction.

(** C6, as the code has it.  The scripts do not count the groups and
    signal nothing of their own.  When fewer than two distinct groups
    remain after the rows with nulls (and, for race, the sentinel) are
    dropped, the samples, one per group, are handed to [stats.kruskal] as
    for any other input, and the outcome of the test is the library's.
    When the library raises on them, the exception is not caught: the
    block that asked ends in an exception and draws no annotation, so
    the comparison is not reported as skipped.  This holds for the income
    comparison and for the poverty comparison. *)
Theorem fewer_than_two_groups_reach_the_test (w : World) (df : DataFrame)
    (gs : list cell) :
  (List.length gs < 2)%nat ->
  (Level2.groups df = Ok gs ->
     exists samples,
       Level2.income_by_group df = Ok samples
       /\ (List.length samples < 2)%nat
       /\ Level2.income_test w df = kruskal w samples
       /\ forall e, kruskal w samples = Raise e ->
            forall tr,
              (exists e', snd (Level2.analysis_plot1 w df tr) = Raise e')
              /\ forall s c,
                   In (Plt (Text s c)) (fst (Level2.analysis_plot1 w df tr)) ->
                   In (Plt (Text s c)) tr)
  /\ (Level2.groups_eth df = Ok gs ->
     exists samples,
       Level2.poverty_by_group df = Ok samples
       /\ (List.length samples < 2)%nat
       /\ Level2.poverty_test w df = kruskal w samples
       /\ forall e, kruskal w samples = Raise e ->
            forall tr,
              (exists e', snd (Level2.analysis_plot2 w df tr) = Raise e')
              /\ forall s c,
                   In (Plt (Text s c)) (fst (Level2.analysis_plot2 w df tr)) ->
                   In (Plt (Text s c)) tr).
Proof.
  intros Hlen. split; intros Hgs.
  - destruct (income_by_group_shape df gs Hgs) as (samples & Hs & Hl).
    assert (Ht : Level2.income_test w df = kruskal w samples).
    { unfold Level2.income_test. rewrite Hs. reflexivity. }
    exists samples. split; [exact Hs|]. split; [now rewrite Hl|].
    split; [exact Ht|]. intros e He tr.
    unfold Level2.analysis_plot1, sns, bind, plt, emit, lift.
    rewrite Ht, He.
    destruct (Level2.plot_data df); cbn [fst snd].
    + destruct (sns_draw w _); cbn [fst snd];
        (split; [eexists; reflexivity|intros s c Hin; no_text_box Hin]).
    + split; [eexists; reflexivity|intros s c Hin; no_text_box Hin].
  - destruct (poverty_by_group_shape df gs Hgs) as (samples & Hs & Hl).
    assert (Ht : Level2.poverty_test w df = kruskal w samples).
    { unfold Level2.poverty_test. rewrite Hs. reflexivity. }
    exists samples. split; [exact Hs|]. split; [now rewrite Hl|].
    split; [exact Ht|]. intros e He tr.
    unfold Level2.analysis_plot2, sns, bind, plt, emit, lift.
    rewrite Ht, He.
    destruct (sns_draw w _); cbn [fst snd];
      (split; [eexists; reflexivity|intros s c Hin; no_text_box Hin]).
Qed.

Lemma fewer_than_two_groups_reach_the_test_witness :
  let w := Frames.rejecting Frames.index_error (Some "aou.C2024Q3R5")
             (engine_down "-") in
  exists samples,
    Level2.income_by_group Frames.df_one_race = Ok samples
    /\ (List.length samples < 2)%nat
    /\ Level2.income_test w Frames.df_one_race = kruskal w samples
    /\ forall e, kruskal w samples = Raise e ->
         forall tr,
           (exists e', snd (Level2.analysis_plot1 w Frames.df_one_race tr) = Raise e')
           /\ forall s c,
                In (Plt (Text s c))
                   (fst (Level2.analysis_plot1 w Frames.df_one_race tr)) ->
                In (Plt (Text s c)) tr.
Proof.
  refine (proj1 (fewer_than_two_groups_reach_the_test
                   (Frames.rejecting Frames.index_error (Some "aou.C2024Q3R5")
                      (engine_down "-"))
                   Frames.df_one_race [Str "White"] _) _).
  - simpl. lia.
  - reflexivity.
Defined.

(** C6, as stated, fails.  All subjects of the frame report one race, so
    one group remains, and its sample is handed to the test.  Whether the
    library rejects a single sample with the [ValueError] of the releases
    that count their arguments or with an [IndexError], the run of the
    analyses ends in that exception after the box plot, without an
    annotation and before the poverty comparison, which has two groups
    here; and where the library answers, its answer is annotated.  In no
    case is the comparison skipped. *)
Lemma one_group_is_not_skipped :
  let drawn :=
    [Plt (Figure 14 8);
     Plt (Boxplot Frames.df_one_race "race" "median_income");
     Plt (Ylim 0 180000);
     Plt (Title "Median Income Distribution by Self-Reported Race");
     Plt (Xlabel "Self-Reported Race");
     Plt (Ylabel "Median Income (by 3-digit ZIP)");
     Plt Xticks] in
  Level2.groups Frames.df_one_race = Ok [Str "White"]
  /\ Level2.income_by_group Frames.df_one_race
     = Ok [[Num (65000 # 1); Num (40000 # 1)]]
  /\ run (Level2.analyses
            (Frames.rejecting Frames.need_two_groups (Some "aou.C2024Q3R5")
               (engine_down "-"))
            Frames.df_one_race)
     = (drawn,
        Raise (mk_exn ValueError "Need at least two groups in stats.kruskal()"))
  /\ run (Level2.analyses
            (Frames.rejecting Frames.index_error (Some "aou.C2024Q3R5")
               (engine_down "-"))
            Frames.df_one_race)
     = (drawn, Raise (mk_exn IndexError ""))
  /\ run (Level2.analysis_plot1
            (Frames.quiet (Some "aou.C2024Q3R5") (engine_down "-"))
            Frames.df_one_race)
     = ((drawn
         ++ [Plt (Text ("Statistically Significant Deviation" ++ nl
                        ++ "(Kruskal-Wallis p = 0.020)")%string
                       "lightgreen");
             Plt Show])%list,
        Ok (Fin (3 # 1), Fin (2 # 100)))
  /\ Level2.groups_eth Frames.df_one_race
     = Ok [Str "Hispanic or Latino"; Str "Not Hispanic or Latino"].
Proof. repeat split; reflexivity. Qed.

(** ** C10: the ethnicity label of plot 2 *)

Lemma lookup_setitem_same (df : DataFrame) (c : string) (s : Series) :
  lookup c (setitem df c s) = Some s.
Proof.
  induction df as [|[n x] df IH]; simpl.
  - now rewrite String.eqb_refl.
  - destruct (String.eqb n c) eqn:Hn; simpl; rewrite Hn; [reflexivity|exact IH].
Qed.

Lemma lookup_setitem_other (df : DataFrame) (c c' : string) (s : Series) :
  c' <> c -> lookup c' (setitem df c s) = lookup c' df.
Proof.
  intros Hne. induction df as [|[n x] df IH]; simpl.
  - destruct (String.eqb_spec c c'); [congruence|reflexivity].
  - destruct (String.eqb_spec n c) as [->|Hn]; simpl.
    + destruct (String.eqb_spec c c'); [congruence|reflexivity].
    + destruct (String.eqb n c'); [reflexivity|exact IH].
Qed.

(** Overwriting a column with one of its own length keeps the number of
    rows. *)
Lemma len_setitem (df : DataFrame) (c : string) (s s' : Series) :
  lookup c df = Some s -> List.length s' = List.length s ->
  len (setitem df c s') = len df.
Proof.
  destruct df as [|[n x] df]; simpl; [discriminate|].
  destruct (String.eqb n c); simpl; [|reflexivity].
  intros [= ->]. exact (fun H => H).
Qed.

Lemma length_replace (s : Series) (a b : cell) :
  List.length (replace s a b) = List.length s.
Proof. apply length_map. Qed.

(** After [replace(a, b)] the value [a] is gone. *)
Lemma not_in_replace (s : Series) (a b : string) :
  a <> b -> ~ In (Str a) (replace s (Str a) (Str b)).
Proof.
  intros Hab Hin. unfold replace in Hin. apply in_map_iff in Hin.
  destruct Hin as (c & Hc & _).
  destruct (eq_cell c (Str a)) eqn:He.
  - injection Hc as Hc. congruence.
  - subst c. now rewrite eq_cell_Str_refl in He.
Qed.

Lemma in_combine_replace (eth pov : Series) (a b : string) (v : cell) :
  In (Str a, v) (combine eth pov) ->
  In (Str b, v) (combine (replace eth (Str a) (Str b)) pov).
Proof.
  revert pov. induction eth as [|x eth IH]; intros [|y pov]; simpl; try tauto.
  intros [[= -> ->]|H].
  - left. now rewrite eq_cell_Str_refl.
  - right. now apply IH.
Qed.

(** A row with both cells present passes [dropna] on the two columns. *)
Lemma in_select_notnull_rows (a b : Series) (n : nat) (x y : cell) :
  List.length a = n -> List.length b = n ->
  In (x, y) (combine a b) -> isnull_cell x = false -> isnull_cell y = false ->
  In x (select (and_mask (notnull a) (and_mask (notnull b) (repeat true n))) a).
Proof.
  revert b n. induction a as [|x' a IH]; intros [|y' b] [|n]; simpl;
    try tauto; try discriminate.
  intros [= Ha] [= Hb] [[= -> ->]|Hin] Hx Hy.
  - rewrite Hx, Hy. simpl. now left.
  - destruct (negb (isnull_cell x') && (negb (isnull_cell y') && true));
      [right|]; now apply (IH b n).
Qed.

Lemma long_short_differ : Level2.long_label <> Level2.short_label.
Proof. discriminate. Qed.

(** The ethnicity column the poverty comparison and Dunn's test read. *)
Lemma test_data_eth_column (df df' td : DataFrame) (eth' : Series) :
  Level2.clean_label df = Ok df' ->
  Level2.test_data_eth df' = Ok td ->
  lookup "ethnicity" td = Some eth' ->
  exists eth,
    lookup "ethnicity" df = Some eth
    /\ eth' = select (notnull_rows df' ["ethnicity"; "fraction_poverty"] (len df'))
                     (replace eth (Str Level2.long_label) (Str Level2.short_label)).
Proof.
  unfold Level2.clean_label, Level2.test_data_eth, rbind.
  destruct (getitem df "ethnicity") as [eth|e] eqn:He; [|discriminate].
  apply getitem_Ok in He. intros [= <-] Hd Hl.
  apply dropna_Ok in Hd. destruct Hd as [-> _].
  rewrite lookup_getmask, lookup_setitem_same in Hl. injection Hl as <-.
  now exists eth.
Qed.

(** C10, as the code has it.  Once the label is cleaned, the groups of
    the poverty comparison and the ethnicity column of the frame handed
    to Dunn's test never hold the long label.  They hold 'None Of These'
    when some row with the long label has a poverty value; a row without
    one is dropped before the groups are formed ([eth] and [pov] are the
    two columns of the frame as loaded, each with one cell per row). *)
Theorem cleaned_label_in_poverty_groups (df df' : DataFrame) :
  Level2.clean_label df = Ok df' ->
  (forall gs, Level2.groups_eth df' = Ok gs -> ~ In (Str Level2.long_label) gs)
  /\ (forall td eth', Level2.test_data_eth df' = Ok td ->
        lookup "ethnicity" td = Some eth' -> ~ In (Str Level2.long_label) eth')
  /\ (forall eth pov v,
        lookup "ethnicity" df = Some eth ->
        lookup "fraction_poverty" df = Some pov ->
        List.length eth = len df -> List.length pov = len df ->
        In (Str Level2.long_label, v) (combine eth pov) -> v <> NA ->
        exists gs, Level2.groups_eth df' = Ok gs /\ In (Str Level2.short_label) gs).
Proof.
  intros Hclean.
  assert (Hcol : forall td eth', Level2.test_data_eth df' = Ok td ->
            lookup "ethnicity" td = Some eth' -> ~ In (Str Level2.long_label) eth').
  { intros td eth' Htd Hl Hin.
    destruct (test_data_eth_column df df' td eth' Hclean Htd Hl) as (eth & _ & ->).
    apply in_select in Hin.
    exact (not_in_replace eth _ _ long_short_differ Hin). }
  split; [|split; [exact Hcol|]].
  - intros gs Hgs Hin. unfold Level2.groups_eth, rbind in Hgs.
    destruct (Level2.test_data_eth df') as [td|e] eqn:Htd; [|discriminate].
    destruct (getitem td "ethnicity") as [eth'|e] eqn:He; [|discriminate].
    injection Hgs as <-. apply getitem_Ok in He. apply in_unique in Hin.
    exact (Hcol td eth' eq_refl He Hin).
  - intros eth pov v Heth Hpov Hle Hlp Hin Hv.
    assert (Hdf' : df' = setitem df "ethnicity"
                     (replace eth (Str Level2.long_label) (Str Level2.short_label))).
    { unfold Level2.clean_label, rbind, getitem in Hclean. rewrite Heth in Hclean.
      now injection Hclean. }
    assert (Hl' : lookup "ethnicity" df'
                  = Some (replace eth (Str Level2.long_label) (Str Level2.short_label)))
      by (rewrite Hdf'; apply lookup_setitem_same).
    assert (Hp' : lookup "fraction_poverty" df' = Some pov)
      by (rewrite Hdf', lookup_setitem_other; [exact Hpov|discriminate]).
    assert (Hn' : len df' = len df)
      by (rewrite Hdf'; apply (len_setitem df _ eth); [exact Heth|apply length_replace]).
    unfold Level2.groups_eth, Level2.test_data_eth, rbind.
    rewrite dropna_total
      by (intros c [<-|[<-|[]]]; [rewrite Hl'|rewrite Hp']; discriminate).
    rewrite (getitem_getmask _ _ _ _ Hl').
    eexists. split; [reflexivity|].
    apply unique_keeps_Str. simpl. rewrite Hl', Hp', Hn'.
    apply (in_select_notnull_rows _ pov (len df) _ v).
    + now rewrite length_replace.
    + exact Hlp.
    + now apply in_combine_replace.
    + reflexivity.
    + destruct v; first [reflexivity | congruence].
Qed.

Lemma cleaned_label_in_poverty_groups_witness :
  exists gs df',
    Level2.clean_label Frames.df_sample = Ok df'
    /\ Level2.groups_eth df' = Ok gs
    /\ In (Str Level2.short_label) gs
    /\ ~ In (Str Level2.long_label) gs.
Proof.
  pose (df' := setitem Frames.df_sample "ethnicity"
                 [Str "Not Hispanic or Latino"; Str Level2.short_label;
                  Str "Hispanic or Latino"; Str "Not Hispanic or Latino";
                  Str Level2.short_label; NA]).
  destruct (cleaned_label_in_poverty_groups Frames.df_sample df' eq_refl)
    as (Hnever & _ & Hsome).
  destruct (Hsome _ _ (Num (20 # 1)) eq_refl eq_refl eq_refl eq_refl
              (or_intror (or_introl eq_refl)))
    as (gs & Hgs & Hin); [discriminate|].
  exists gs, df'. split; [reflexivity|]. split; [exact Hgs|].
  split; [exact Hin|]. exact (Hnever gs Hgs).
Defined.

(** C10, as stated, fails.  The frame holds the long label, on a subject
    without SES data.  The label is replaced in the frame, but the row is
    dropped with the other nulls: neither label is a group of the
    comparison, nor in the frame handed to Dunn's test. *)
Lemma short_label_absent_without_poverty_value :
  lookup "ethnicity" Frames.df_long_without_ses
  = Some [Str Level2.long_label; Str "Hispanic or Latino"; Str "Not Hispanic or Latino"]
  /\ (exists df',
        Level2.clean_label Frames.df_long_without_ses = Ok df'
        /\ lookup "ethnicity" df'
           = Some [Str "None Of These"; Str "Hispanic or Latino";
                   Str "Not Hispanic or Latino"]
        /\ Level2.groups_eth df'
           = Ok [Str "Hispanic or Latino"; Str "Not Hispanic or Latino"]
        /\ ~ In (Str "None Of These")
               [Str "Hispanic or Latino"; Str "Not Hispanic or Latino"]
        /\ (td <- Level2.test_data_eth df' ;; getitem td "ethnicity")%result
           = Ok [Str "Hispanic or Latino"; Str "Not Hispanic or Latino"]).
Proof.
  split; [reflexivity|]. eexists. split; [reflexivity|].
  split; [reflexivity|]. split; [reflexivity|]. split; [|reflexivity].
  simpl. intros [H|[H|[]]]; discriminate.
Qed.

(** ** C8: the missingness table *)

(** [same_cell] is an equivalence. *)

Lemma same_cell_refl (c : cell) : same_cell c c = true.
Proof.
  destruct c; simpl; auto using Z.eqb_refl, String.eqb_refl.
  - apply Qeq_bool_iff. reflexivity.
  - now destruct b.
Qed.

Lemma same_cell_sym (a b : cell) : same_cell a b = true -> same_cell b a = true.
Proof.
  destruct a, b; simpl; try discriminate; auto.
  - rewrite Z.eqb_sym. auto.
  - rewrite !Qeq_bool_iff. intros H. now symmetry.
  - rewrite String.eqb_sym. auto.
  - destruct b0, b; auto.
Qed.

Lemma same_cell_trans (a b c : cell) :
  same_cell a b = true -> same_cell b c = true -> same_cell a c = true.
Proof.
  destruct a, b, c; simpl; try discriminate; auto.
  - rewrite !Z.eqb_eq. congruence.
  - rewrite !Qeq_bool_iff. intros H1 H2. now rewrite H1.
  - rewrite !String.eqb_eq. congruence.
  - destruct b0, b1, b; auto.
Qed.

Lemma same_cell_congr (a b c : cell) :
  same_cell a b = true -> same_cell a c = same_cell b c.
Proof.
  intros Hab. destruct (same_cell b c) eqn:Hbc.
  - exact (same_cell_trans a b c Hab Hbc).
  - destruct (same_cell a c) eqn:Hac; [|reflexivity].
    rewrite <- Hbc. symmetry.
    exact (same_cell_trans b a c (same_cell_sym a b Hab) Hac).
Qed.

Lemma mem_cell_congr (a b : cell) (l : list cell) :
  same_cell a b = true -> mem_cell a l = mem_cell b l.
Proof.
  intros Hab. unfold mem_cell. induction l as [|x l IH]; simpl; [reflexivity|].
  now rewrite IH, (same_cell_congr a b x Hab).
Qed.

Lemma length_filter_cons {A : Type} (p : A -> bool) (x : A) (l : list A) :
  List.length (filter p (x :: l)) = (b2n (p x) + List.length (filter p l))%nat.
Proof. simpl. now destruct (p x). Qed.

(** Each value of a series occurs once among its unique values. *)
Lemma count_unique_acc (s : Series) (seen : list cell) (c : cell) :
  List.length (filter (same_cell c) (unique_acc seen s))
  = b2n (negb (mem_cell c seen) && mem_cell c s).
Proof.
  revert seen. induction s as [|x s IH]; intros seen; simpl.
  - now rewrite andb_false_r.
  - destruct (mem_cell x seen) eqn:Hx.
    + rewrite IH. destruct (same_cell c x) eqn:Hcx; simpl; [|reflexivity].
      rewrite (mem_cell_congr c x seen Hcx), Hx. reflexivity.
    + rewrite length_filter_cons, IH. unfold mem_cell at 1. cbn [existsb].
      fold (mem_cell c seen). destruct (same_cell c x) eqn:Hcx; simpl.
      * rewrite (mem_cell_congr c x seen Hcx), Hx. reflexivity.
      * reflexivity.
Qed.

Lemma length_filter_insert_sorted {A : Type} (leb : A -> A -> bool) (p : A -> bool)
    (x : A) (l : list A) :
  List.length (filter p (insert_sorted leb x l)) = List.length (filter p (x :: l)).
Proof.
  induction l as [|y l IH]; [reflexivity|].
  cbn [insert_sorted]. destruct (leb x y); [reflexivity|].
  rewrite length_filter_cons, IH, !length_filter_cons. lia.
Qed.

Lemma length_filter_sort_by {A : Type} (leb : A -> A -> bool) (p : A -> bool)
    (l : list A) :
  List.length (filter p (sort_by leb l)) = List.length (filter p l).
Proof.
  induction l as [|x l IH]; [reflexivity|].
  cbn [sort_by]. rewrite length_filter_insert_sorted, !length_filter_cons. now rewrite IH.
Qed.

Lemma mem_cell_in (c : cell) (l : list cell) : In c l -> mem_cell c l = true.
Proof.
  intros H. apply existsb_exists. exists c. split; [exact H|apply same_cell_refl].
Qed.

Lemma in_select_notnull (s : Series) (c : cell) :
  In c s -> isnull_cell c = false -> In c (select (notnull s) s).
Proof.
  induction s as [|x s IH]; simpl; [tauto|].
  intros [->|H] Hc.
  - rewrite Hc. now left.
  - destruct (negb (isnull_cell x)); [right|]; now apply IH.
Qed.

(** Every non-null value of the key column is in exactly one group. *)
Lemma group_keys_one (s : Series) (c : cell) :
  In c s -> isnull_cell c = false ->
  List.length (filter (same_cell c) (group_keys s)) = 1%nat.
Proof.
  intros Hin Hc. unfold group_keys, unique.
  rewrite length_filter_sort_by, count_unique_acc. simpl.
  now rewrite (mem_cell_in _ _ (in_select_notnull s c Hin Hc)).
Qed.

Lemma select_map_mask {A : Type} (f : cell -> bool) (a : Series) (b : list A) :
  select (map f a) b = map snd (filter (fun r => f (fst r)) (combine a b)).
Proof.
  revert b. induction a as [|x a IH]; intros [|y b]; simpl; try reflexivity.
  destruct (f x); simpl; now rewrite IH.
Qed.

Lemma list_sum_map_add {A : Type} (f g : A -> nat) (l : list A) :
  list_sum (map (fun k => (f k + g k)%nat) l)
  = (list_sum (map f l) + list_sum (map g l))%nat.
Proof. induction l as [|x l IH]; simpl; [reflexivity|]. rewrite IH. lia. Qed.

Lemma list_sum_b2n {A : Type} (p : A -> bool) (l : list A) :
  list_sum (map (fun k => b2n (p k)) l) = List.length (filter p l).
Proof.
  induction l as [|x l IH]; simpl; [reflexivity|].
  rewrite IH. now destruct (p x).
Qed.

Lemma list_sum_zero {A : Type} (l : list A) :
  list_sum (map (fun _ => 0%nat) l) = 0%nat.
Proof. induction l; simpl; auto. Qed.

(** Counting per group and adding up counts the rows that have a group. *)
Lemma sum_over_groups (rows : list (cell * cell)) (P : cell * cell -> bool)
    (keys : list cell) :
  (forall r, In r rows -> isnull_cell (fst r) = false ->
             List.length (filter (same_cell (fst r)) keys) = 1%nat) ->
  list_sum (map (fun k =>
              List.length (filter (fun r => eq_cell (fst r) k && P r) rows)) keys)
  = List.length (filter (fun r => negb (isnull_cell (fst r)) && P r) rows).
Proof.
  induction rows as [|r rows IH]; intros Hone.
  - simpl. apply list_sum_zero.
  - rewrite (length_filter_cons (fun r0 => negb (isnull_cell (fst r0)) && P r0) r rows).
    rewrite <- IH by (intros; apply Hone; [now right|assumption]).
    transitivity (list_sum (map (fun k =>
        (b2n (eq_cell (fst r) k && P r)
         + List.length (filter (fun r0 => eq_cell (fst r0) k && P r0) rows))%nat) keys)).
    { apply f_equal, map_ext. intros k.
      exact (length_filter_cons (fun r0 => eq_cell (fst r0) k && P r0) r rows). }
    rewrite list_sum_map_add. f_equal.
    unfold eq_cell. destruct (isnull_cell (fst r)) eqn:Hnull; simpl.
    + apply list_sum_zero.
    + destruct (P r); simpl.
      * rewrite <- (Hone r (or_introl eq_refl) Hnull), <- list_sum_b2n.
        apply f_equal, map_ext. intros k. now rewrite andb_true_r.
      * transitivity (list_sum (map (fun _ : cell => 0%nat) keys));
          [|apply list_sum_zero].
        apply f_equal, map_ext. intros k. now rewrite andb_false_r.
Qed.

Lemma filter_map_swap {A B : Type} (f : B -> bool) (g : A -> B) (l : list A) :
  filter f (map g l) = map g (filter (fun x => f (g x)) l).
Proof.
  induction l as [|x l IH]; simpl; [reflexivity|].
  destruct (f (g x)); simpl; now rewrite IH.
Qed.

Section Groups.
Variables race inc : Series.

Let rows := combine race inc.
Let group (k : cell) : Series := select (eq_mask race k) inc.

Lemma group_size_count (k : cell) :
  List.length (group k)
  = List.length (filter (fun r => eq_cell (fst r) k && true) rows).
Proof.
  unfold group, eq_mask. rewrite select_map_mask, length_map.
  f_equal. apply filter_ext. intros r. now rewrite andb_true_r.
Qed.


Lemma keys_cover (r : cell * cell) :
  In r rows -> isnull_cell (fst r) = false ->
  List.length (filter (same_cell (fst r)) (group_keys race)) = 1%nat.
Proof.
  intros Hin Hn. apply group_keys_one; [|exact Hn].
  destruct r as [x y]. exact (in_combine_l _ _ _ _ Hin).
Qed.

Lemma sizes_add_up :
  list_sum (map (fun k => List.length (group k)) (group_keys race))
  = List.length (Missingness.grouped_rows race inc).
Proof.
  unfold Missingness.grouped_rows. fold rows.
  rewrite (map_ext _ _ group_size_count), (sum_over_groups rows _ _ keys_cover).
  f_equal. apply filter_ext. intros r. now rewrite andb_true_r.
Qed.


End Groups.

Lemma count_true_le (l : list bool) : (count_true l <= List.length l)%nat.
Proof. apply filter_length_le. Qed.

Lemma filter_all {A : Type} (p : A -> bool) (l : list A) :
  (forall x, In x l -> p x = true) -> filter p l = l.
Proof.
  induction l as [|x l IH]; intros H; simpl; [reflexivity|].
  rewrite (H x (or_introl eq_refl)), IH by (intros; apply H; now right).
  reflexivity.
Qed.



(** ** The keys and the rows of a group *)

Lemma insert_sorted_perm {A : Type} (leb : A -> A -> bool) (x : A) (l : list A) :
  Permutation (insert_sorted leb x l) (x :: l).
Proof.
  induction l as [|y l IH]; simpl; [apply Permutation_refl|].
  destruct (leb x y); [apply Permutation_refl|].
  apply perm_trans with (y :: x :: l); [now apply perm_skip|apply perm_swap].
Qed.

Lemma sort_by_perm {A : Type} (leb : A -> A -> bool) (l : list A) :
  Permutation (sort_by leb l) l.
Proof.
  induction l as [|x l IH]; simpl; [apply perm_nil|].
  apply perm_trans with (x :: sort_by leb l);
    [apply insert_sorted_perm|now apply perm_skip].
Qed.

Lemma select_notnull_filter (s : Series) :
  select (notnull s) s = filter (fun c => negb (isnull_cell c)) s.
Proof.
  induction s as [|c s IH]; simpl; [reflexivity|].
  destruct (negb (isnull_cell c)); now rewrite IH.
Qed.

Lemma in_select_notnull_inv (s : Series) (c : cell) :
  In c (select (notnull s) s) -> isnull_cell c = false /\ In c s.
Proof.
  rewrite select_notnull_filter, filter_In, negb_true_iff. tauto.
Qed.

Lemma in_group_keys (s : Series) (k : cell) :
  In k (group_keys s) -> isnull_cell k = false /\ In k s.
Proof.
  unfold group_keys. intros H.
  apply (Permutation_in _ (sort_by_perm cell_leb _)) in H.
  apply in_unique in H. now apply in_select_notnull_inv.
Qed.

Lemma select_eq_mask_nonempty (g v : Series) (k : cell) :
  In k g -> isnull_cell k = false ->
  List.length g = List.length v ->
  select (eq_mask g k) v <> [].
Proof.
  intros Hin Hk. revert v.
  induction g as [|x g IH]; intros [|y v]; simpl; try tauto; try discriminate.
  intros [= Hlen]. destruct Hin as [->|Hin].
  - unfold eq_cell. rewrite Hk, same_cell_refl. simpl. discriminate.
  - destruct (eq_cell x k); [discriminate|]. now apply IH.
Qed.

Lemma Qnat_le (a b : nat) : (a <= b)%nat -> (Qnat a <= Qnat b)%Q.
Proof. intros H. unfold Qnat. rewrite <- Zle_Qle. lia. Qed.

Lemma Qnat_pos (n : nat) : (0 < n)%nat -> (0 < Qnat n)%Q.
Proof. intros H. unfold Qnat. change 0%Q with (inject_Z 0). rewrite <- Zlt_Qlt. lia. Qed.





(** ** C9: what the analyses read and write of the shared frame *)

Lemma missing_labels_congr (df1 df2 : DataFrame) (subset : list string) :
  (forall c, In c subset -> lookup c df1 = lookup c df2) ->
  missing_labels df1 subset = missing_labels df2 subset.
Proof.
  induction subset as [|n rest IH]; intros H; simpl; [reflexivity|].
  rewrite (H n (or_introl eq_refl)), IH by (intros; apply H; now right).
  reflexivity.
Qed.

Lemma notnull_rows_congr (df1 df2 : DataFrame) (subset : list string) (n : nat) :
  (forall c, In c subset -> lookup c df1 = lookup c df2) ->
  notnull_rows df1 subset n = notnull_rows df2 subset n.
Proof.
  induction subset as [|x rest IH]; intros H; simpl; [reflexivity|].
  rewrite (H x (or_introl eq_refl)), IH by (intros; apply H; now right).
  reflexivity.
Qed.

(** [dropna] picks its rows by the columns of [subset] alone. *)
Lemma dropna_congr (df1 df2 : DataFrame) (subset : list string) :
  len df1 = len df2 ->
  (forall c, In c subset -> lookup c df1 = lookup c df2) ->
  dropna df1 subset
  = match dropna df2 subset with
    | Ok _ => Ok (getmask df1 (notnull_rows df2 subset (len df2)))
    | Raise e => Raise e
    end.
Proof.
  intros Hlen H. unfold dropna.
  rewrite (missing_labels_congr df1 df2 subset H),
          (notnull_rows_congr df1 df2 subset _ H), Hlen.
  now destruct (missing_labels df2 subset).
Qed.

Lemma mapM_ext {A B : Type} (f g : A -> result B) (l : list A) :
  (forall x, f x = g x) -> mapM f l = mapM g l.
Proof.
  intros H. induction l as [|x l IH]; simpl; [reflexivity|]. now rewrite H, IH.
Qed.

Lemma by_group_congr (td1 td2 : DataFrame) (val by_ : string) (gs : list cell) :
  lookup val td1 = lookup val td2 -> lookup by_ td1 = lookup by_ td2 ->
  by_group td1 val by_ gs = by_group td2 val by_ gs.
Proof.
  intros Hv Hb. unfold by_group. apply mapM_ext. intros g.
  unfold getitem. now rewrite Hv, Hb.
Qed.

Lemma getitem_congr (df1 df2 : DataFrame) (c : string) :
  lookup c df1 = lookup c df2 -> getitem df1 c = getitem df2 c.
Proof. intros H. unfold getitem. now rewrite H. Qed.

Lemma lookup_getmask_congr (df1 df2 : DataFrame) (m : list bool) (c : string) :
  lookup c df1 = lookup c df2 -> lookup c (getmask df1 m) = lookup c (getmask df2 m).
Proof. intros H. now rewrite !lookup_getmask, H. Qed.

Section Congruence.
Variable w : World.
Variables df1 df2 : DataFrame.
Hypothesis Hlen : len df1 = len df2.

Lemma test_data_congr :
  lookup "race" df1 = lookup "race" df2 ->
  lookup "median_income" df1 = lookup "median_income" df2 ->
  forall c, lookup c df1 = lookup c df2 ->
  rmap (lookup c) (Level2.test_data df1) = rmap (lookup c) (Level2.test_data df2).
Proof.
  intros Hr Hi c Hc. unfold Level2.test_data.
  rewrite (dropna_congr df1 df2) by (try assumption; intros x [<-|[<-|[]]]; assumption).
  unfold dropna. destruct (missing_labels df2 _); [|reflexivity].
  cbn [rbind]. unfold getitem. rewrite !lookup_getmask, Hr.
  destruct (lookup "race" df2); [|reflexivity].
  cbn [option_map rbind rmap]. now rewrite !lookup_getmask, Hc.
Qed.

Lemma groups_congr :
  lookup "race" df1 = lookup "race" df2 ->
  lookup "median_income" df1 = lookup "median_income" df2 ->
  Level2.groups df1 = Level2.groups df2.
Proof.
  intros Hr Hi. unfold Level2.groups.
  pose proof (test_data_congr Hr Hi "race" Hr) as H.
  destruct (Level2.test_data df1) as [t1|e1], (Level2.test_data df2) as [t2|e2];
    simpl in *; try congruence.
  injection H as H. unfold getitem. now rewrite H.
Qed.

Lemma income_by_group_congr :
  lookup "race" df1 = lookup "race" df2 ->
  lookup "median_income" df1 = lookup "median_income" df2 ->
  Level2.income_by_group df1 = Level2.income_by_group df2.
Proof.
  intros Hr Hi. unfold Level2.income_by_group.
  rewrite (groups_congr Hr Hi).
  pose proof (test_data_congr Hr Hi "race" Hr) as H1.
  pose proof (test_data_congr Hr Hi "median_income" Hi) as H2.
  destruct (Level2.test_data df1) as [t1|e1], (Level2.test_data df2) as [t2|e2];
    simpl in *; try congruence.
  injection H1 as H1. injection H2 as H2.
  destruct (Level2.groups df2); simpl; [|reflexivity].
  now apply by_group_congr.
Qed.

Lemma test_data_eth_congr :
  lookup "ethnicity" df1 = lookup "ethnicity" df2 ->
  lookup "fraction_poverty" df1 = lookup "fraction_poverty" df2 ->
  forall c, lookup c df1 = lookup c df2 ->
  rmap (lookup c) (Level2.test_data_eth df1) = rmap (lookup c) (Level2.test_data_eth df2).
Proof.
  intros He Hp c Hc. unfold Level2.test_data_eth.
  rewrite (dropna_congr df1 df2) by (try assumption; intros x [<-|[<-|[]]]; assumption).
  unfold dropna. destruct (missing_labels df2 _); [|reflexivity].
  cbn [rmap]. now rewrite !lookup_getmask, Hc.
Qed.

Lemma groups_eth_congr :
  lookup "ethnicity" df1 = lookup "ethnicity" df2 ->
  lookup "fraction_poverty" df1 = lookup "fraction_poverty" df2 ->
  Level2.groups_eth df1 = Level2.groups_eth df2.
Proof.
  intros He Hp. unfold Level2.groups_eth.
  pose proof (test_data_eth_congr He Hp "ethnicity" He) as H.
  destruct (Level2.test_data_eth df1) as [t1|e1], (Level2.test_data_eth df2) as [t2|e2];
    simpl in *; try congruence.
  injection H as H. unfold getitem. now rewrite H.
Qed.

Lemma poverty_by_group_congr :
  lookup "ethnicity" df1 = lookup "ethnicity" df2 ->
  lookup "fraction_poverty" df1 = lookup "fraction_poverty" df2 ->
  Level2.poverty_by_group df1 = Level2.poverty_by_group df2.
Proof.
  intros He Hp. unfold Level2.poverty_by_group.
  rewrite (groups_eth_congr He Hp).
  pose proof (test_data_eth_congr He Hp "ethnicity" He) as H1.
  pose proof (test_data_eth_congr He Hp "fraction_poverty" Hp) as H2.
  destruct (Level2.test_data_eth df1) as [t1|e1], (Level2.test_data_eth df2) as [t2|e2];
    simpl in *; try congruence.
  injection H1 as H1. injection H2 as H2.
  destruct (Level2.groups_eth df2); simpl; [|reflexivity].
  now apply by_group_congr.
Qed.

Lemma dunn_results_congr :
  lookup "ethnicity" df1 = lookup "ethnicity" df2 ->
  lookup "fraction_poverty" df1 = lookup "fraction_poverty" df2 ->
  Level2.dunn_results w df1 = Level2.dunn_results w df2.
Proof.
  intros He Hp. unfold Level2.dunn_results.
  pose proof (test_data_eth_congr He Hp "ethnicity" He) as H1.
  pose proof (test_data_eth_congr He Hp "fraction_poverty" Hp) as H2.
  destruct (Level2.test_data_eth df1) as [t1|e1], (Level2.test_data_eth df2) as [t2|e2];
    simpl in *; try congruence.
  injection H1 as H1. injection H2 as H2. unfold getitem. now rewrite H1, H2.
Qed.

Lemma missing_df_congr :
  lookup "race" df1 = lookup "race" df2 ->
  lookup "median_income" df1 = lookup "median_income" df2 ->
  Level2.missing_df df1 = Level2.missing_df df2.
Proof.
  intros Hr Hi.
  unfold Level2.missing_df, Level2.missing_data, groupby_apply, getitem.
  now rewrite Hr, Hi.
Qed.

End Congruence.

Lemma same_view_refl (df : DataFrame) : same_view df df.
Proof. repeat split. Qed.

Lemma same_view_trans (a b c : DataFrame) :
  same_view a b -> same_view b c -> same_view a c.
Proof.
  intros (H1 & H2 & H3 & H4 & H5) (K1 & K2 & K3 & K4 & K5).
  repeat split; congruence.
Qed.

Lemma same_view_sym (a b : DataFrame) : same_view a b -> same_view b a.
Proof. intros (H1 & H2 & H3 & H4 & H5). repeat split; congruence. Qed.

Lemma len_setitem_length (df : DataFrame) (c : string) (s : Series) :
  List.length s = len df -> len (setitem df c s) = len df.
Proof.
  destruct df as [|[n x] df]; simpl; [auto|].
  destruct (String.eqb n c); simpl; auto.
Qed.

Lemma Forall_setitem (n : nat) (df : DataFrame) (c : string) (s : Series) :
  Forall (fun col : string * Series => List.length (snd col) = n) df ->
  List.length s = n ->
  Forall (fun col : string * Series => List.length (snd col) = n) (setitem df c s).
Proof.
  intros Hwf Hs. induction Hwf as [|[m x] df Hx Hwf IH]; simpl.
  - constructor; [exact Hs|constructor].
  - destruct (String.eqb m c); constructor; auto.
Qed.

Lemma well_formed_setitem (df : DataFrame) (c : string) (s : Series) :
  well_formed df -> List.length s = len df -> well_formed (setitem df c s).
Proof.
  intros Hwf Hs. unfold well_formed. rewrite (len_setitem_length df c s Hs).
  now apply Forall_setitem.
Qed.

Lemma lookup_well_formed (df : DataFrame) (c : string) (s : Series) :
  well_formed df -> lookup c df = Some s -> List.length s = len df.
Proof.
  unfold well_formed. generalize (len df) as n. intros n Hwf.
  induction Hwf as [|[m x] df Hx Hwf IH]; simpl; [discriminate|].
  destruct (String.eqb m c); [intros [= <-]; exact Hx|exact IH].
Qed.

(** Cleaning a cleaned column changes nothing. *)
Lemma clean_idempotent (s : Series) : clean (clean s) = clean s.
Proof.
  unfold clean, replace. rewrite map_map. apply map_ext. intros c.
  destruct (eq_cell c (Str Level2.long_label)) eqn:Hc; [reflexivity|].
  now rewrite Hc.
Qed.

(** The frame an operation leaves shows the operations what the frame
    it found showed them. *)
Lemma perform_keeps_view (w : World) (op : operation) (df df' : DataFrame)
    (out : outcome) :
  well_formed df -> perform w op df = Ok (out, df') ->
  same_view df df' /\ well_formed df'.
Proof.
  intros Hwf. destruct op; unfold perform, rbind.
  - destruct (Level2.plot_data df); [|discriminate].
    destruct (Level2.groups df); [|discriminate].
    destruct (Level2.income_by_group df); [|discriminate].
    destruct (stats_kruskal w _); [|discriminate].
    intros [= _ <-]. split; [apply same_view_refl|exact Hwf].
  - unfold Level2.clean_label, rbind, getitem.
    destruct (lookup "ethnicity" df) as [eth|] eqn:He; [|discriminate].
    fold (clean eth).
    destruct (Level2.groups_eth _); [|discriminate].
    destruct (Level2.poverty_by_group _); [|discriminate].
    destruct (stats_kruskal w _); [|discriminate].
    destruct (Level2.dunn_results w _); [|discriminate].
    intros [= _ <-].
    assert (Hl : List.length (clean eth) = len df).
    { unfold clean. rewrite length_replace. exact (lookup_well_formed _ _ _ Hwf He). }
    split; [|now apply well_formed_setitem].
    unfold same_view.
    rewrite (len_setitem_length _ _ _ Hl), lookup_setitem_same, He.
    rewrite !lookup_setitem_other by discriminate.
    simpl. rewrite clean_idempotent. repeat split.
  - destruct (Level2.missing_df df); [|discriminate].
    unfold Level2.add_ses_data_missing, rbind, getitem.
    destruct (lookup "median_income" df) as [inc|] eqn:Hi; [|discriminate].
    destruct (Level2.contingency_table _); [|discriminate].
    destruct (chi2_contingency w _); [|discriminate].
    intros [= _ <-].
    assert (Hl : List.length (map Bool (isnull inc)) = len df).
    { unfold isnull. rewrite !length_map. exact (lookup_well_formed _ _ _ Hwf Hi). }
    split; [|now apply well_formed_setitem].
    unfold same_view.
    rewrite (len_setitem_length _ _ _ Hl).
    rewrite !lookup_setitem_other by discriminate. repeat split.
Qed.

(** Frames that show the same compute the same. *)
Lemma outcome_congr (w : World) (op : operation) (df1 df2 : DataFrame) :
  same_view df1 df2 -> outcome_of w op df1 = outcome_of w op df2.
Proof.
  intros (Hlen & Hr & Hi & Hp & He). destruct op; unfold outcome_of, perform.
  - rewrite (groups_congr df1 df2 Hlen Hr Hi),
            (income_by_group_congr df1 df2 Hlen Hr Hi).
    unfold Level2.plot_data, getitem. rewrite Hr.
    destruct (lookup "race" df2); [|reflexivity]. cbn [rbind].
    destruct (Level2.groups df2); [|reflexivity]. cbn [rbind].
    destruct (Level2.income_by_group df2); [|reflexivity]. cbn [rbind].
    destruct (stats_kruskal w _); reflexivity.
  - unfold Level2.clean_label, getitem.
    destruct (lookup "ethnicity" df1) as [e1|] eqn:E1,
             (lookup "ethnicity" df2) as [e2|] eqn:E2; simpl in He;
      try discriminate; [|reflexivity].
    injection He as He. cbn [rbind]. fold (clean e1). fold (clean e2). rewrite He.
    set (d1 := setitem df1 "ethnicity" (clean e2)).
    set (d2 := setitem df2 "ethnicity" (clean e2)).
    assert (Hlen' : len d1 = len d2).
    { unfold d1, d2.
      rewrite (len_setitem df1 _ e1), (len_setitem df2 _ e2); auto.
      - apply length_replace.
      - rewrite <- He. apply length_replace. }
    assert (He' : lookup "ethnicity" d1 = lookup "ethnicity" d2)
      by (unfold d1, d2; now rewrite !lookup_setitem_same).
    assert (Hp' : lookup "fraction_poverty" d1 = lookup "fraction_poverty" d2)
      by (unfold d1, d2; now rewrite !lookup_setitem_other by discriminate).
    rewrite (groups_eth_congr d1 d2 Hlen' He' Hp'),
            (poverty_by_group_congr d1 d2 Hlen' He' Hp'),
            (dunn_results_congr w d1 d2 Hlen' He' Hp').
    destruct (Level2.groups_eth d2); [|reflexivity]. cbn [rbind].
    destruct (Level2.poverty_by_group d2); [|reflexivity]. cbn [rbind].
    destruct (stats_kruskal w _); [|reflexivity]. cbn [rbind].
    destruct (Level2.dunn_results w d2); reflexivity.
  - rewrite (missing_df_congr df1 df2 Hr Hi).
    destruct (Level2.missing_df df2); [|reflexivity]. cbn [rbind].
    unfold Level2.add_ses_data_missing, getitem. rewrite Hi.
    destruct (lookup "median_income" df2) as [inc|]; [|reflexivity]. cbn [rbind].
    unfold Level2.contingency_table, getitem.
    rewrite !lookup_setitem_same, !lookup_setitem_other by discriminate.
    rewrite Hr. destruct (lookup "race" df2); [|reflexivity]. cbn [rbind].
    destruct (chi2_contingency w _); reflexivity.
Qed.

Lemma perform_all_keeps_view (w : World) (ops : list operation) (df df' : DataFrame) :
  well_formed df -> perform_all w ops df = Ok df' ->
  same_view df df' /\ well_formed df'.
Proof.
  revert df. induction ops as [|op ops IH]; intros df Hwf; simpl.
  - intros [= <-]. split; [apply same_view_refl|exact Hwf].
  - destruct (perform w op df) as [[out d]|e] eqn:Hop; [|discriminate]. simpl.
    destruct (perform_keeps_view w op df d out Hwf Hop) as [Hv Hwf'].
    intros Hrest. destruct (IH d Hwf' Hrest) as [Hv' Hwf''].
    split; [exact (same_view_trans _ _ _ Hv Hv')|exact Hwf''].
Qed.

(** C9, as the code has it.  The income comparison leaves the frame as
    it found it.  The poverty comparison overwrites the ethnicity column
    of the shared frame with its cleaned labels, and the missingness
    analysis adds the column ses_data_missing to it.  Neither changes
    what any of the three operations computes: on a frame whose columns
    all have one cell per row, an operation run after any sequence of
    the operations computes what it computes when run first. *)
Theorem analyses_write_but_do_not_interfere (w : World) (df : DataFrame) :
  well_formed df ->
  (forall out df', perform w IncomeByRace df = Ok (out, df') -> df' = df)
  /\ (forall out df', perform w PovertyByEthnicity df = Ok (out, df') ->
        exists eth, lookup "ethnicity" df = Some eth
                    /\ df' = setitem df "ethnicity" (clean eth))
  /\ (forall out df', perform w MissingnessByRace df = Ok (out, df') ->
        exists inc, lookup "median_income" df = Some inc
                    /\ df' = setitem df "ses_data_missing" (map Bool (isnull inc)))
  /\ (forall ops df', perform_all w ops df = Ok df' ->
        forall op, outcome_of w op df' = outcome_of w op df).
Proof.
  intros Hwf. split; [|split; [|split]].
  - intros out df'. unfold perform, rbind.
    destruct (Level2.plot_data df); [|discriminate].
    destruct (Level2.groups df); [|discriminate].
    destruct (Level2.income_by_group df); [|discriminate].
    destruct (stats_kruskal w _); [|discriminate].
    now intros [= _ <-].
  - intros out df'. unfold perform, Level2.clean_label, rbind, getitem.
    destruct (lookup "ethnicity" df) as [eth|]; [|discriminate].
    destruct (Level2.groups_eth _); [|discriminate].
    destruct (Level2.poverty_by_group _); [|discriminate].
    destruct (stats_kruskal w _); [|discriminate].
    destruct (Level2.dunn_results w _); [|discriminate].
    intros [= _ <-]. now exists eth.
  - intros out df'. unfold perform, rbind.
    destruct (Level2.missing_df df); [|discriminate].
    unfold Level2.add_ses_data_missing, rbind, getitem.
    destruct (lookup "median_income" df) as [inc|]; [|discriminate].
    destruct (Level2.contingency_table _); [|discriminate].
    destruct (chi2_contingency w _); [|discriminate].
    intros [= _ <-]. now exists inc.
  - intros ops df' Hall op. apply outcome_congr, same_view_sym.
    exact (proj1 (perform_all_keeps_view w ops df df' Hwf Hall)).
Qed.

Lemma income_by_group_after_groups (df : DataFrame) :
  (_ <- Level2.groups df ;; Level2.income_by_group df)%result
  = Level2.income_by_group df.
Proof.
  unfold Level2.income_by_group, Level2.groups, rbind.
  destruct (Level2.test_data df) as [td|e]; [|reflexivity].
  destruct (getitem td "race"); reflexivity.
Qed.

Lemma poverty_by_group_after_groups (df : DataFrame) :
  (_ <- Level2.groups_eth df ;; Level2.poverty_by_group df)%result
  = Level2.poverty_by_group df.
Proof.
  unfold Level2.poverty_by_group, Level2.groups_eth, rbind.
  destruct (Level2.test_data_eth df) as [td|e]; [|reflexivity].
  destruct (getitem td "ethnicity"); reflexivity.
Qed.

(** The script runs the three operations in this order; when every
    drawing succeeds, the frame its analyses end with is the frame the
    operations leave. *)
Lemma analyses_are_the_operations (w : World) (df : DataFrame) (tr : list event) :
  (forall p, sns_draw w p = Ok tt) ->
  snd (Level2.analyses w df tr)
  = perform_all w [IncomeByRace; PovertyByEthnicity; MissingnessByRace] df.
Proof.
  intros Hs.
  unfold Level2.analyses, Level2.analysis_plot1, Level2.analysis_plot2,
    Level2.posthoc, Level2.analysis_plot3, Level2.income_test, Level2.poverty_test,
    sns, bind, plt, print, emit, lift, ret.
  cbn [perform_all perform].
  destruct (Level2.plot_data df) as [pd|e]; [|reflexivity].
  rewrite Hs. cbn [rbind fst snd].
  pose proof (income_by_group_after_groups df) as Hg.
  destruct (Level2.groups df) as [gs|e]; cbn [rbind] in Hg |- *;
    [|rewrite <- Hg; reflexivity].
  destruct (Level2.income_by_group df) as [samples|e]; [|reflexivity].
  cbn [rbind]. destruct (stats_kruskal w samples) as [hp|e]; [|reflexivity].
  cbn [rbind fst snd].
  destruct (Level2.clean_label df) as [df'|e]; [|reflexivity].
  rewrite Hs. cbn [rbind fst snd].
  pose proof (poverty_by_group_after_groups df') as Hg'.
  destruct (Level2.groups_eth df') as [gs'|e]; cbn [rbind] in Hg' |- *;
    [|rewrite <- Hg'; reflexivity].
  destruct (Level2.poverty_by_group df') as [samples'|e]; [|reflexivity].
  cbn [rbind]. destruct (stats_kruskal w samples') as [hp'|e]; [|reflexivity].
  cbn [rbind fst snd].
  destruct (Level2.dunn_results w df') as [dunn|e]; [|reflexivity].
  cbn [rbind fst snd].
  destruct (Level2.missing_df df') as [mdf|e]; [|reflexivity].
  rewrite Hs. cbn [rbind fst snd].
  destruct (Level2.add_ses_data_missing df') as [df''|e]; [|reflexivity].
  cbn [rbind].
  destruct (Level2.contingency_table df'') as [ct|e]; [|reflexivity].
  cbn [rbind].
  destruct (chi2_contingency w ct) as [cp|e]; reflexivity.
Qed.

Lemma analyses_write_but_do_not_interfere_witness :
  let w := Frames.quiet None (engine_down "-") in
  let df' :=
    setitem (setitem Frames.df_sample "ses_data_missing"
               [Bool false; Bool false; Bool false; Bool true; Bool true; Bool false])
            "ethnicity"
            (clean [Str "Not Hispanic or Latino"; Str Level2.long_label;
                    Str "Hispanic or Latino"; Str "Not Hispanic or Latino";
                    Str Level2.long_label; NA]) in
  perform_all w [MissingnessByRace; IncomeByRace; PovertyByEthnicity] Frames.df_sample
  = Ok df'
  /\ outcome_of w IncomeByRace df' = outcome_of w IncomeByRace Frames.df_sample
  /\ outcome_of w PovertyByEthnicity df' = outcome_of w PovertyByEthnicity Frames.df_sample
  /\ outcome_of w MissingnessByRace df' = outcome_of w MissingnessByRace Frames.df_sample.
Proof.
  intros w df'.
  assert (Hwf : well_formed Frames.df_sample) by (repeat constructor).
  assert (Hall : perform_all w [MissingnessByRace; IncomeByRace; PovertyByEthnicity]
                   Frames.df_sample = Ok df') by reflexivity.
  pose proof (proj2 (proj2 (proj2
                (analyses_write_but_do_not_interfere w Frames.df_sample Hwf)))
                _ df' Hall) as H.
  split; [exact Hall|]. split; [apply H|]. split; apply H.
Defined.

(** C9, as stated, fails: two of the operations do write to the shared
    frame.  After the analyses of the script the frame is not the frame
    that was loaded: the long ethnicity label is overwritten in place,
    and there is a column that the query did not return. *)
Lemma analyses_mutate_the_shared_frame :
  let w := Frames.quiet (Some "aou.C2024Q3R5") (engine_down "-") in
  exists df_end,
    snd (run (Level2.analyses w Frames.df_sample)) = Ok df_end
    /\ df_end <> Frames.df_sample
    /\ lookup "ethnicity" Frames.df_sample
       = Some [Str "Not Hispanic or Latino";
               Str "What Race Ethnicity: Race Ethnicity None Of These";
               Str "Hispanic or Latino"; Str "Not Hispanic or Latino";
               Str "What Race Ethnicity: Race Ethnicity None Of These"; NA]
    /\ lookup "ethnicity" df_end
       = Some [Str "Not Hispanic or Latino"; Str "None Of These";
               Str "Hispanic or Latino"; Str "Not Hispanic or Latino";
               Str "None Of These"; NA]
    /\ lookup "ses_data_missing" Frames.df_sample = None
    /\ lookup "ses_data_missing" df_end
       = Some [Bool false; Bool false; Bool false; Bool true; Bool true; Bool false].
Proof.
  eexists. split; [reflexivity|]. split; [discriminate|].
  repeat split; reflexivity.
Qed.

(** ** A run on the sample cohort

    With an engine that serves the sample cohort, the frame the script
    loads holds the rows of the combined query, one per subject; Bob is
    there with his nulls. *)
Example load_returns_the_query_rows :
  let w := Frames.quiet (Some "aou.C2024Q3R5") (serve "aou.C2024Q3R5" Sample.cohort) in
  snd (Level2.load w []) = Ok (to_dataframe2 (Level2Sql.sql_query Sample.cohort))
  /\ lookup "race" (to_dataframe2 (Level2Sql.sql_query Sample.cohort))
     = Some [Str "White"; Str "No matching concept"]
  /\ lookup "median_income" (to_dataframe2 (Level2Sql.sql_query Sample.cohort))
     = Some [Num (65000 # 1); NA]
  /\ snd (run (Level1.main w)) = Ok tt.
Proof. repeat split; reflexivity. Qed.

(* ===================================================================== *)
(** * Part V: further properties of the queries and the scripts           *)
(* ===================================================================== *)

(** ** The rows of a join *)

Lemma filter_none {B : Type} (p : B -> bool) (r : list B) :
  (forall b, In b r -> p b = false) -> filter p r = [].
Proof.
  induction r as [|b r IH]; intros H; simpl; [reflexivity|].
  rewrite (H b (or_introl eq_refl)). apply IH. intros; apply H; now right.
Qed.

Lemma in_left_join {A B : Type} (on : A -> B -> bool) (l : list A) (r : list B)
    (a : A) (ob : option B) :
  In (a, ob) (Warehouse.left_join on l r) <->
  In a l /\ match ob with
            | Some b => In b r /\ on a b = true
            | None => forall b, In b r -> on a b = false
            end.
Proof.
  unfold Warehouse.left_join. rewrite in_flat_map. split.
  - intros (a' & Ha' & Hin).
    destruct (filter (on a') r) as [|b0 ms] eqn:Hf.
    + destruct Hin as [[= <- <-]|[]]. split; [exact Ha'|].
      intros b Hb. destruct (on a' b) eqn:Hon; [|reflexivity].
      assert (Hbf : In b (filter (on a') r)) by (apply filter_In; tauto).
      rewrite Hf in Hbf. destruct Hbf.
    + apply in_map_iff in Hin. destruct Hin as (b & [= <- <-] & Hb).
      rewrite <- Hf in Hb. apply filter_In in Hb. tauto.
  - intros (Ha & Hob). exists a. split; [exact Ha|].
    destruct ob as [b|].
    + assert (Hbf : In b (filter (on a) r)) by (apply filter_In; tauto).
      destruct (filter (on a) r) as [|b0 ms]; [destruct Hbf|].
      now apply (in_map (fun b => (a, Some b))).
    + rewrite (filter_none (on a) r Hob). now left.
Qed.

Section Rows.
Import Warehouse.
Variable ds : dataset.

(** The rows of the three concept joins. *)
Lemma in_from_person_concepts (p : person) (c1 c2 c3 : option concept) :
  In (p, c1, c2, c3) (from_person_concepts ds) <->
  In p (person_tbl ds)
  /\ match c1 with
     | Some c => In c (concept_tbl ds) /\ on_sex p c = true
     | None => forall c, In c (concept_tbl ds) -> on_sex p c = false
     end
  /\ match c2 with
     | Some c => In c (concept_tbl ds) /\ on_race (p, c1) c = true
     | None => forall c, In c (concept_tbl ds) -> on_race (p, c1) c = false
     end
  /\ match c3 with
     | Some c => In c (concept_tbl ds) /\ on_eth (p, c1, c2) c = true
     | None => forall c, In c (concept_tbl ds) -> on_eth (p, c1, c2) c = false
     end.
Proof.
  unfold from_person_concepts. rewrite !in_left_join. tauto.
Qed.

Lemma in_from_all (x : labelled) (oo : option observation) (os : option zip3_ses) :
  In (x, oo, os) (Level2Sql.from_all ds) <->
  In x (from_person_concepts ds)
  /\ match oo with
     | Some o => In o (observation_tbl ds) /\ Level2Sql.on_obs x o = true
     | None => forall o, In o (observation_tbl ds) -> Level2Sql.on_obs x o = false
     end
  /\ match os with
     | Some s => In s (zip3_ses_map_tbl ds) /\ Level2Sql.on_ses (x, oo) s = true
     | None => forall s, In s (zip3_ses_map_tbl ds) -> Level2Sql.on_ses (x, oo) s = false
     end.
Proof.
  unfold Level2Sql.from_all. rewrite !in_left_join. tauto.
Qed.

(** Some concept row, or the null row, is joined to every code. *)
Lemma concept_choice (code : option Z) :
  exists oc : option concept,
    match oc with
    | Some c => In c (concept_tbl ds) /\ sql_eqZ code (Some (concept_id c)) = true
    | None => forall c, In c (concept_tbl ds) ->
                        sql_eqZ code (Some (concept_id c)) = false
    end.
Proof.
  induction (concept_tbl ds) as [|c l IH].
  - exists None. intros c [].
  - destruct (sql_eqZ code (Some (concept_id c))) eqn:Hc.
    + exists (Some c). split; [now left|exact Hc].
    + destruct IH as [[c'|] H].
      * exists (Some c'). split; [right|]; tauto.
      * exists None. intros c0 [<-|Hin]; [exact Hc|now apply H].
Qed.

End Rows.

(** X1.  A left join keeps what matches: for a subject whose race code
    is the id of a concept and who has a 3-digit ZIP observation whose
    value is a prefix of the SES lookup, the combined query has a row
    with the subject's id and age, the name of that concept as race and
    the three SES values of that lookup entry. *)
Theorem matched_subject_carries_label_and_ses (ds : Warehouse.dataset)
    (p : Warehouse.person) (c : Warehouse.concept)
    (o : Warehouse.observation) (s : Warehouse.zip3_ses) :
  In p (Warehouse.person_tbl ds) ->
  In c (Warehouse.concept_tbl ds) ->
  Warehouse.race_concept_id p = Some (Warehouse.concept_id c) ->
  In o (Warehouse.observation_tbl ds) ->
  Warehouse.obs_person_id o = Warehouse.person_id p ->
  is_zip3_obs o = true ->
  In s (Warehouse.zip3_ses_map_tbl ds) ->
  Warehouse.value_as_string o = Some (Warehouse.zip3_as_string s) ->
  exists r, In r (Level2Sql.sql_query ds)
    /\ Level2Sql.person_id r = Warehouse.person_id p
    /\ Level2Sql.age r = Warehouse.age_of p
    /\ Level2Sql.race r = Warehouse.concept_name c
    /\ Level2Sql.median_income r = Warehouse.median_income s
    /\ Level2Sql.fraction_poverty r = Warehouse.fraction_poverty s
    /\ Level2Sql.fraction_no_health_ins r = Warehouse.fraction_no_health_ins s.
Proof.
  intros Hp Hc Hrace Ho Hid Hz Hs Hval.
  destruct (concept_choice ds (Warehouse.sex_at_birth_concept_id p)) as [c1 H1].
  destruct (concept_choice ds (Warehouse.ethnicity_concept_id p)) as [c3 H3].
  exists (Level2Sql.select ((p, c1, Some c, c3), Some o, Some s)).
  split.
  - unfold Level2Sql.sql_query. apply in_map. apply in_from_all.
    split; [|split].
    + apply in_from_person_concepts. split; [exact Hp|]. split; [exact H1|].
      split; [|exact H3]. split; [exact Hc|].
      unfold Warehouse.on_race. simpl. rewrite Hrace. simpl. apply Z.eqb_refl.
    + split; [exact Ho|]. unfold Level2Sql.on_obs, Warehouse.lab_person. simpl.
      rewrite Hid, Z.eqb_refl. exact Hz.
    + split; [exact Hs|]. unfold Level2Sql.on_ses. simpl. rewrite Hval. simpl.
      apply String.eqb_refl.
  - repeat split.
Qed.

Lemma matched_subject_carries_label_and_ses_witness :
  exists r, In r (Level2Sql.sql_query Sample.cohort)
    /\ Level2Sql.person_id r = 1
    /\ Level2Sql.race r = Some "White"
    /\ Level2Sql.median_income r = Some (65000 # 1).
Proof.
  destruct (matched_subject_carries_label_and_ses Sample.cohort Sample.alice
              (Warehouse.mk_concept 8527 (Some "White"))
              (Warehouse.mk_observation 1 (Some 1585250) (Some "021"))
              (Warehouse.mk_zip3_ses "021" (Some (65000 # 1)) (Some (12 # 1)) (Some (4 # 1))))
    as (r & Hr & Hid & _ & Hrace & Hinc & _);
    try reflexivity; try (simpl; tauto).
  exists r. repeat split; assumption.
Defined.

(** X2.  The combined query invents nothing.  Every row comes from a
    subject of the person table, with that subject's id and age.  A label
    that is not null is the name of a concept whose id is the subject's
    code.  The three SES fields are either all null, or the fields of one
    entry of the lookup whose prefix is the value of a 3-digit ZIP
    observation of that subject. *)
Theorem combined_rows_come_from_the_tables (ds : Warehouse.dataset)
    (r : Level2Sql.row) :
  In r (Level2Sql.sql_query ds) ->
  exists p, In p (Warehouse.person_tbl ds)
    /\ Level2Sql.person_id r = Warehouse.person_id p
    /\ Level2Sql.age r = Warehouse.age_of p
    /\ (forall name, Level2Sql.sex_at_birth r = Some name ->
          exists c, In c (Warehouse.concept_tbl ds)
            /\ Warehouse.sex_at_birth_concept_id p = Some (Warehouse.concept_id c)
            /\ Warehouse.concept_name c = Some name)
    /\ (forall name, Level2Sql.race r = Some name ->
          exists c, In c (Warehouse.concept_tbl ds)
            /\ Warehouse.race_concept_id p = Some (Warehouse.concept_id c)
            /\ Warehouse.concept_name c = Some name)
    /\ (forall name, Level2Sql.ethnicity r = Some name ->
          exists c, In c (Warehouse.concept_tbl ds)
            /\ Warehouse.ethnicity_concept_id p = Some (Warehouse.concept_id c)
            /\ Warehouse.concept_name c = Some name)
    /\ ((Level2Sql.median_income r = None
         /\ Level2Sql.fraction_poverty r = None
         /\ Level2Sql.fraction_no_health_ins r = None)
        \/ exists o s,
             In o (Warehouse.observation_tbl ds)
             /\ Warehouse.obs_person_id o = Warehouse.person_id p
             /\ is_zip3_obs o = true
             /\ In s (Warehouse.zip3_ses_map_tbl ds)
             /\ Warehouse.value_as_string o = Some (Warehouse.zip3_as_string s)
             /\ Level2Sql.median_income r = Warehouse.median_income s
             /\ Level2Sql.fraction_poverty r = Warehouse.fraction_poverty s
             /\ Level2Sql.fraction_no_health_ins r
                = Warehouse.fraction_no_health_ins s).
Proof.
  unfold Level2Sql.sql_query. rewrite in_map_iff.
  intros ([[[[[p c1] c2] c3] oo] os] & <- & Hin).
  apply in_from_all in Hin. destruct Hin as (Hx & Hoo & Hos).
  apply in_from_person_concepts in Hx. destruct Hx as (Hp & H1 & H2 & H3).
  assert (Hcode : forall (code : option Z) (c : Warehouse.concept),
            Warehouse.sql_eqZ code (Some (Warehouse.concept_id c)) = true ->
            code = Some (Warehouse.concept_id c)).
  { intros [z|] c0; simpl; [|discriminate]. intros H. apply Z.eqb_eq in H. now subst. }
  exists p. split; [exact Hp|]. split; [reflexivity|]. split; [reflexivity|].
  split; [|split; [|split]].
  - simpl. destruct c1 as [c|]; simpl; [|discriminate].
    intros name Hn. exists c. destruct H1 as [Hc Hon].
    split; [exact Hc|]. split; [exact (Hcode _ _ Hon)|exact Hn].
  - simpl. destruct c2 as [c|]; simpl; [|discriminate].
    intros name Hn. exists c. destruct H2 as [Hc Hon].
    split; [exact Hc|]. split; [exact (Hcode _ _ Hon)|exact Hn].
  - simpl. destruct c3 as [c|]; simpl; [|discriminate].
    intros name Hn. exists c. destruct H3 as [Hc Hon].
    split; [exact Hc|]. split; [exact (Hcode _ _ Hon)|exact Hn].
  - destruct os as [s|]; [|left; repeat split].
    right. destruct Hos as [Hs Hon]. unfold Level2Sql.on_ses in Hon. simpl in Hon.
    destruct oo as [o|]; [|discriminate Hon].
    destruct Hoo as [Ho Hobs]. unfold Level2Sql.on_obs in Hobs.
    apply andb_prop in Hobs. destruct Hobs as [Hid Hz]. apply Z.eqb_eq in Hid.
    exists o, s. split; [exact Ho|]. split; [now symmetry|]. split; [exact Hz|].
    split; [exact Hs|]. split; [|repeat split].
    simpl in Hon. destruct (Warehouse.value_as_string o) as [v|]; [|discriminate].
    simpl in Hon. apply String.eqb_eq in Hon. now subst.
Qed.

Lemma combined_rows_come_from_the_tables_witness :
  exists p, In p (Warehouse.person_tbl Sample.cohort)
            /\ Warehouse.person_id p = 1
            /\ Warehouse.age_of p = Some 45.
Proof.
  assert (Hin : In (Level2Sql.mk_row 1 (Some 45) (Some "Female") (Some "White")
                      (Some "Not Hispanic or Latino")
                      (Some (65000 # 1)) (Some (12 # 1)) (Some (4 # 1)))
                   (Level2Sql.sql_query Sample.cohort))
    by (left; reflexivity).
  destruct (combined_rows_come_from_the_tables Sample.cohort _ Hin)
    as (p & Hp & Hid & Hage & _).
  exists p. split; [exact Hp|]. split; [now rewrite <- Hid|now rewrite <- Hage].
Defined.

(** ** The SES query of level 1 *)

Lemma inner_join_cons {A B : Type} (on : A -> B -> bool) (a : A) (l : list A)
    (r : list B) :
  Warehouse.inner_join on (a :: l) r
  = (map (fun b => (a, b)) (filter (on a) r) ++ Warehouse.inner_join on l r)%list.
Proof. reflexivity. Qed.

Lemma length_filter_le1 {B : Type} (p : B -> bool) (r : list B) :
  (List.length (filter p r) <= 1)%nat ->
  List.length (filter p r) = b2n (existsb p r).
Proof.
  induction r as [|b r IH]; simpl; [reflexivity|].
  destruct (p b); simpl; intros H.
  - destruct (filter p r); simpl in *; [reflexivity|lia].
  - now apply IH.
Qed.

(** X3.  With distinct prefixes in the SES lookup, the SES query of
    level 1 returns one row for every 3-digit ZIP observation whose value
    is a prefix of the lookup, and none for any other observation: it
    never counts an observation twice, and it has at most as many rows
    as there are 3-digit ZIP observations. *)
Theorem ses_query_rows_are_matched_observations (ds : Warehouse.dataset) :
  ses_unique ds ->
  List.length (Level1Sql.sql_query_ses ds)
  = List.length
      (filter (fun o => is_zip3_obs o
                        && existsb (Level1Sql.on_zip o) (Warehouse.zip3_ses_map_tbl ds))
              (Warehouse.observation_tbl ds))
  /\ (List.length (Level1Sql.sql_query_ses ds)
      <= List.length (filter is_zip3_obs (Warehouse.observation_tbl ds)))%nat.
Proof.
  intros Hu.
  assert (Hone : forall o, (List.length (filter (Level1Sql.on_zip o)
                              (Warehouse.zip3_ses_map_tbl ds)) <= 1)%nat).
  { intros o. unfold Level1Sql.on_zip.
    destruct (Warehouse.value_as_string o) as [v|].
    - apply (unique_key_one_match Warehouse.zip3_as_string _ v); [|exact Hu].
      intros s _ H. simpl in H. apply String.eqb_eq in H. now symmetry.
    - simpl. clear Hu. induction (Warehouse.zip3_ses_map_tbl ds); simpl; [lia|assumption]. }
  unfold Level1Sql.sql_query_ses. rewrite length_map.
  induction (Warehouse.observation_tbl ds) as [|o l [IH1 IH2]]; [split; reflexivity|].
  rewrite inner_join_cons, filter_app, length_app.
  assert (Ho : List.length
                 (filter Level1Sql.where_zip3
                    (map (fun s => (o, s))
                       (filter (Level1Sql.on_zip o) (Warehouse.zip3_ses_map_tbl ds))))
               = b2n (is_zip3_obs o
                      && existsb (Level1Sql.on_zip o) (Warehouse.zip3_ses_map_tbl ds))).
  { rewrite filter_map_swap, length_map.
    unfold Level1Sql.where_zip3. simpl. fold (is_zip3_obs o).
    destruct (is_zip3_obs o); simpl.
    - rewrite filter_all by reflexivity. apply length_filter_le1, Hone.
    - now rewrite filter_none. }
  rewrite Ho, IH1.
  rewrite (length_filter_cons
             (fun o0 => is_zip3_obs o0
                        && existsb (Level1Sql.on_zip o0) (Warehouse.zip3_ses_map_tbl ds))
             o l).
  split; [reflexivity|].
  rewrite (length_filter_cons is_zip3_obs o l).
  rewrite IH1 in IH2.
  destruct (is_zip3_obs o), (existsb _ _); simpl; lia.
Qed.

Lemma ses_query_rows_are_matched_observations_witness :
  List.length (Level1Sql.sql_query_ses Sample.cohort) = 1%nat
  /\ (List.length (Level1Sql.sql_query_ses Sample.cohort) <= 2)%nat.
Proof.
  apply (ses_query_rows_are_matched_observations Sample.cohort).
  unfold ses_unique. simpl. repeat (constructor; [simpl; intuition discriminate|]).
  constructor.
Defined.

(** ** Loading *)

Lemma len_to_dataframe2 (rows : list Level2Sql.row) :
  len (to_dataframe2 rows) = List.length rows.
Proof. unfold to_dataframe2, len. apply length_map. Qed.

(** X4.  When the engine answers the combined query with its rows over
    a dataset whose lookups have unique keys, the load step of level 2
    sends that one query, reports as many records as there are
    subjects, prints the head of the frame and returns the frame (the
    report line is 'Successfully loaded N records.'). *)
Theorem load_reports_the_cohort_size (w : World) (ds : Warehouse.dataset)
    (tr : list event) :
  concept_unique ds -> ses_unique ds -> zip_obs_unique ds ->
  client_query w (Level2.sql_query (WORKSPACE_CDR w))
    = Ok (to_dataframe2 (Level2Sql.sql_query ds)) ->
  Level2.load w tr
  = ((tr ++ [Print "Running combined query to fetch all analysis data...";
             Query (Level2.sql_query (WORKSPACE_CDR w));
             Print ("Successfully loaded "
                    ++ dec (N.of_nat (List.length (Warehouse.person_tbl ds)))
                    ++ " records.");
             Print (nl ++ "Data Head (Combined Analysis):");
             PrintFrame (head (to_dataframe2 (Level2Sql.sql_query ds)))])%list,
     Ok (to_dataframe2 (Level2Sql.sql_query ds)))
  /\ len (to_dataframe2 (Level2Sql.sql_query ds))
     = List.length (Warehouse.person_tbl ds).
Proof.
  intros Hc Hs Ho Hq.
  assert (Hlen : len (to_dataframe2 (Level2Sql.sql_query ds))
                 = List.length (Warehouse.person_tbl ds)).
  { rewrite len_to_dataframe2. unfold Level2Sql.sql_query. rewrite length_map.
    rewrite <- (from_person_concepts_fst ds Hc), <- (from_all_fst ds Hs Ho).
    now rewrite !length_map. }
  split; [|exact Hlen].
  unfold Level2.load, try_except, print, run_query, Level2.cdr_dataset_id.
  unfold bind, emit, lift, ret.
  rewrite Hq. cbn [fst snd]. rewrite Hlen, <- !app_assoc. reflexivity.
Qed.

Lemma load_reports_the_cohort_size_witness :
  In (Print "Successfully loaded 2 records.")
     (fst (Level2.load (Frames.quiet (Some "aou.C2024Q3R5")
                          (serve "aou.C2024Q3R5" Sample.cohort)) [])).
Proof.
  destruct (load_reports_the_cohort_size
              (Frames.quiet (Some "aou.C2024Q3R5") (serve "aou.C2024Q3R5" Sample.cohort))
              Sample.cohort []) as [H _].
  - unfold concept_unique. simpl.
    repeat (constructor; [simpl; intuition discriminate|]). constructor.
  - unfold ses_unique. simpl.
    repeat (constructor; [simpl; intuition discriminate|]). constructor.
  - unfold zip_obs_unique. simpl.
    repeat (constructor; [simpl; intuition discriminate|]). constructor.
  - reflexivity.
  - rewrite H. simpl. tauto.
Defined.

(** ** The requests of a run *)

Lemma silent_ret {A : Type} (a : A) : silent (ret a).
Proof. intros tr. reflexivity. Qed.

Lemma silent_lift {A : Type} (r : result A) : silent (lift r).
Proof. intros tr. reflexivity. Qed.

Lemma silent_emit (e : event) : is_query e = false -> silent (emit e).
Proof.
  intros He tr. unfold emit, queries. simpl. rewrite filter_app. simpl.
  rewrite He. apply app_nil_r.
Qed.

Lemma silent_bind {A B : Type} (m : M A) (k : A -> M B) :
  silent m -> (forall a, silent (k a)) -> silent (bind m k).
Proof.
  intros Hm Hk tr. unfold bind. specialize (Hm tr).
  destruct (m tr) as [tr' [a|e]]; simpl in *.
  - now rewrite Hk.
  - exact Hm.
Qed.

Ltac silent_tac :=
  repeat match goal with
  | |- silent (bind _ _) => apply silent_bind; [|intros]
  | |- silent (emit _) => apply silent_emit; reflexivity
  | |- silent (print _) => apply silent_emit; reflexivity
  | |- silent (plt _) => apply silent_emit; reflexivity
  | |- silent (lift _) => apply silent_lift
  | |- silent (ret _) => apply silent_ret
  | |- silent (sns _ _) => unfold sns
  | |- silent (if ?b then _ else _) => destruct b
  | |- silent (match ?x with _ => _ end) => destruct x
  end.

Lemma silent_analyses (w : World) (df : DataFrame) : silent (Level2.analyses w df).
Proof.
  unfold Level2.analyses, Level2.analysis_plot1, Level2.analysis_plot2,
    Level2.posthoc, Level2.analysis_plot3. silent_tac.
Qed.

Lemma silent_histogram (w : World) (df : DataFrame) (x t xl yl : string)
    (lim : option (Z * Z)) :
  silent (Level1.histogram w df x t xl yl lim).
Proof. unfold Level1.histogram. silent_tac. Qed.

Lemma silent_countplot (w : World) (df : DataFrame) (fw fh : Z) (y t xl yl : string) :
  silent (Level1.countplot w df fw fh y t xl yl).
Proof. unfold Level1.countplot. silent_tac. Qed.

Lemma setup_is_silent (w : World) (tr : list event) :
  snd (Level2.setup w tr) = Ok tt
  /\ queries (fst (Level2.setup w tr)) = queries tr
  /\ Level1.setup w tr = Level2.setup w tr.
Proof.
  unfold Level2.setup, Level1.setup, Level1.cdr_dataset_id, Level2.cdr_dataset_id,
    bind, print, emit, queries.
  destruct (truthy (WORKSPACE_CDR w)); simpl; rewrite !filter_app; simpl;
    rewrite !app_nil_r; repeat split.
Qed.

(** A load step sends its query once and always returns a frame. *)
Lemma load2_queries (w : World) (tr : list event) :
  (exists df, snd (Level2.load w tr) = Ok df)
  /\ queries (fst (Level2.load w tr))
     = (queries tr ++ [Query (Level2.sql_query (WORKSPACE_CDR w))])%list.
Proof.
  unfold Level2.load, try_except, print, run_query, Level2.cdr_dataset_id.
  unfold bind, emit, lift, ret, queries.
  destruct (client_query w _) as [df|e]; cbn [fst snd];
    (split; [eexists; reflexivity|]);
    rewrite !filter_app; simpl; now rewrite !app_nil_r.
Qed.

Lemma load1_queries (w : World) (tr : list event) :
  (exists df, snd (Level1.load w tr) = Ok df)
  /\ queries (fst (Level1.load w tr))
     = (queries tr ++ [Query (Level1.sql_query (WORKSPACE_CDR w))])%list.
Proof.
  unfold Level1.load, try_except, print, run_query, Level1.cdr_dataset_id.
  unfold bind, emit, lift, ret, queries.
  destruct (client_query w _) as [df|e]; cbn [fst snd];
    (split; [eexists; reflexivity|]);
    rewrite !filter_app; simpl; now rewrite !app_nil_r.
Qed.

Lemma load_ses_queries (w : World) (tr : list event) :
  (exists df, snd (Level1.load_ses w tr) = Ok df)
  /\ queries (fst (Level1.load_ses w tr))
     = (queries tr ++ [Query (Level1.sql_query_ses (WORKSPACE_CDR w))])%list.
Proof.
  unfold Level1.load_ses, try_except, print, run_query, Level1.cdr_dataset_id.
  unfold bind, emit, lift, ret, queries.
  destruct (client_query w _) as [df|e]; cbn [fst snd];
    (split; [eexists; reflexivity|]);
    rewrite !filter_app; simpl; now rewrite !app_nil_r.
Qed.

(** The requests of [m ;; k] when [m] sends nothing. *)
Lemma queries_after_silent {A B : Type} (m : M A) (k : A -> M B) (tr : list event)
    (qs : list event) :
  silent m ->
  (forall a tr', queries tr' = queries tr ->
     queries (fst (k a tr')) = queries tr \/ queries (fst (k a tr')) = qs) ->
  queries (fst (bind m k tr)) = queries tr \/ queries (fst (bind m k tr)) = qs.
Proof.
  intros Hm Hk. unfold bind. specialize (Hm tr).
  destruct (m tr) as [tr' [a|e]]; simpl in *.
  - now apply Hk.
  - now left.
Qed.

(** Once the client is constructed, whatever the environment, the engine
    and the libraries do, a run of level 2 sends exactly one request, the
    combined query, and a run of level 1 sends the demographics query
    first and then at most one more request, the SES query. *)
Lemma main_sends_its_queries (w : World) :
  queries (fst (run (Level2.main w)))
  = [Query (Level2.sql_query (WORKSPACE_CDR w))]
  /\ (queries (fst (run (Level1.main w)))
      = [Query (Level1.sql_query (WORKSPACE_CDR w))]
      \/ queries (fst (run (Level1.main w)))
         = [Query (Level1.sql_query (WORKSPACE_CDR w));
            Query (Level1.sql_query_ses (WORKSPACE_CDR w))]).
Proof.
  destruct (setup_is_silent w []) as (Hok & Hq & H1).
  split.
  - unfold run, Level2.main, bind.
    destruct (Level2.setup w []) as [tr1 [[]|e]]; simpl in Hok, Hq; [|discriminate].
    destruct (load2_queries w tr1) as [[df Hdf] Hload].
    destruct (Level2.load w tr1) as [tr2 r2]; simpl in Hdf, Hload. subst r2.
    rewrite silent_analyses, Hload, Hq. reflexivity.
  - unfold run, Level1.main, bind. rewrite H1.
    destruct (Level2.setup w []) as [tr1 [[]|e]]; simpl in Hok, Hq; [|discriminate].
    destruct (load1_queries w tr1) as [[df Hdf] Hload].
    destruct (Level1.load w tr1) as [tr2 r2]; simpl in Hdf, Hload. subst r2.
    rewrite Hq in Hload. simpl in Hload. rewrite <- Hload.
    unfold Level1.report.
    apply queries_after_silent; [apply silent_countplot || apply silent_histogram|].
    intros _ t1 E1. rewrite <- E1.
    apply queries_after_silent; [apply silent_countplot|].
    intros _ t2 E2. rewrite <- E2.
    apply queries_after_silent; [apply silent_countplot|].
    intros _ t3 E3. rewrite <- E3.
    apply queries_after_silent; [apply silent_countplot|].
    intros _ t4 E4. rewrite <- E4.
    apply queries_after_silent; [apply silent_emit; reflexivity|].
    intros _ t5 E5. right.
    unfold bind. destruct (load_ses_queries w t5) as [[dfs Hdfs] Hses].
    destruct (Level1.load_ses w t5) as [t6 r6]; simpl in Hdfs, Hses. subst r6.
    assert (Hrest : silent (bind (Level1.plot5 w dfs)
                       (fun _ => bind (Level1.plot6 w dfs)
                                   (fun _ => Level1.plot7 w dfs)))).
    { apply silent_bind; [apply silent_histogram|]. intros _.
      apply silent_bind; [apply silent_histogram|]. intros _. apply silent_histogram. }
    unfold silent, bind in Hrest. rewrite Hrest, Hses, E5, E4, E3, E2, E1, Hload.
    reflexivity.
Qed.

(** X5.  The scripts send their queries and nothing else, and nothing
    without a client.  When [bigquery.Client()] raises, the run of either
    script ends in that exception and no request is sent.  When it
    returns, the run is the one of [main], and whatever the environment,
    the engine and the libraries do, level 2 sends exactly one request,
    the combined query, and level 1 sends the demographics query first
    and then at most one more request, the SES query. *)
Theorem scripts_send_only_their_queries (client : result unit) (w : World) :
  match client with
  | Raise e =>
      queries (fst (run (Level2.main_with client w))) = []
      /\ snd (run (Level2.main_with client w)) = Raise e
      /\ queries (fst (run (Level1.main_with client w))) = []
      /\ snd (run (Level1.main_with client w)) = Raise e
  | Ok _ =>
      run (Level2.main_with client w) = run (Level2.main w)
      /\ run (Level1.main_with client w) = run (Level1.main w)
      /\ queries (fst (run (Level2.main_with client w)))
         = [Query (Level2.sql_query (WORKSPACE_CDR w))]
      /\ (queries (fst (run (Level1.main_with client w)))
          = [Query (Level1.sql_query (WORKSPACE_CDR w))]
          \/ queries (fst (run (Level1.main_with client w)))
             = [Query (Level1.sql_query (WORKSPACE_CDR w));
                Query (Level1.sql_query_ses (WORKSPACE_CDR w))])
  end.
Proof.
  destruct client as [[]|e].
  - assert (H2 : run (Level2.main_with (Ok tt) w) = run (Level2.main w)).
    { unfold run, Level2.main_with, Level2.main, Level2.setup_with, Level2.setup,
        bind, lift, print, emit.
      destruct (truthy (Level2.cdr_dataset_id w)); reflexivity. }
    assert (H1 : run (Level1.main_with (Ok tt) w) = run (Level1.main w)).
    { unfold run, Level1.main_with, Level1.main, Level1.setup_with, Level1.setup,
        bind, lift, print, emit.
      destruct (truthy (Level1.cdr_dataset_id w)); reflexivity. }
    rewrite H2, H1. split; [reflexivity|]. split; [reflexivity|].
    apply main_sends_its_queries.
  - unfold run, Level2.main_with, Level1.main_with, Level2.setup_with,
      Level1.setup_with, bind, lift, print, emit.
    destruct (truthy (Level2.cdr_dataset_id w));
      destruct (truthy (Level1.cdr_dataset_id w)); repeat split; reflexivity.
Qed.

(** ** The plots of level 1 *)

Lemma and_mask_true (a : list bool) (n : nat) :
  List.length a = n -> and_mask a (repeat true n) = a.
Proof.
  revert n. induction a as [|b a IH]; intros [|n]; simpl; try discriminate;
    [reflexivity|].
  intros [= H]. now rewrite andb_true_r, IH.
Qed.

(** X6.  A histogram of level 1 draws the values of its column that are
    not null, all of them and in their order: after the figure is
    opened, seaborn is handed a frame whose column [x] is the column of
    the loaded frame without its nulls ([s] is that column, with one
    cell per row). *)
Theorem histogram_draws_the_non_null_values (w : World) (df : DataFrame)
    (x title xlabel ylabel : string) (xlim : option (Z * Z)) (s : Series)
    (tr : list event) :
  lookup x df = Some s ->
  List.length s = len df ->
  exists d more,
    fst (Level1.histogram w df x title xlabel ylabel xlim tr)
    = (tr ++ [Plt (Figure 10 6); Plt (Histplot d x)] ++ more)%list
    /\ lookup x d = Some (filter (fun c => negb (isnull_cell c)) s)
    /\ Forall (fun c => isnull_cell c = false)
              (filter (fun c => negb (isnull_cell c)) s).
Proof.
  intros Hx Hlen.
  assert (Hd : dropna df [x] = Ok (getmask df (notnull s))).
  { rewrite dropna_total by (intros c [<-|[]]; congruence).
    simpl. rewrite Hx, and_mask_true; [reflexivity|].
    unfold notnull. now rewrite length_map. }
  exists (getmask df (notnull s)).
  assert (Hcol : lookup x (getmask df (notnull s))
                 = Some (filter (fun c => negb (isnull_cell c)) s)).
  { now rewrite lookup_getmask, Hx, <- select_notnull_filter. }
  assert (Hall : Forall (fun c => isnull_cell c = false)
                        (filter (fun c => negb (isnull_cell c)) s)).
  { apply Forall_forall. intros c Hc. apply filter_In in Hc.
    destruct Hc as [_ Hc]. now apply negb_true_iff in Hc. }
  unfold Level1.histogram, sns. unfold bind, plt, emit, lift, ret.
  rewrite Hd. cbn [fst snd].
  destruct (sns_draw w _) as [[]|e]; cbn [fst snd].
  - destruct xlim as [[lo hi]|]; cbn [fst snd]; eexists;
      (split; [|split; [exact Hcol|exact Hall]]);
      rewrite <- !app_assoc; reflexivity.
  - exists []. split; [|split; [exact Hcol|exact Hall]].
    rewrite <- !app_assoc. reflexivity.
Qed.

Lemma histogram_draws_the_non_null_values_witness :
  exists d more,
    fst (Level1.plot1 (Frames.quiet None (engine_down "-")) Frames.df_sample [])
    = ([Plt (Figure 10 6); Plt (Histplot d "age")] ++ more)%list
    /\ lookup "age" d = Some [Int 45; Int 31; Int 67; Int 52; Int 28].
Proof.
  destruct (histogram_draws_the_non_null_values
              (Frames.quiet None (engine_down "-")) Frames.df_sample
              "age" "Distribution of Participant Age" "Age" "Count" None
              [Int 45; Int 31; NA; Int 67; Int 52; Int 28] [] eq_refl eq_refl)
    as (d & more & Htr & Hcol & _).
  exists d, more. split; [exact Htr|exact Hcol].
Defined.

Lemma append_assoc (a b c : string) : (a ++ b) ++ c = a ++ (b ++ c).
Proof. induction a as [|ch a IH]; simpl; [reflexivity|]. now rewrite IH. Qed.

Lemma repr_list_one (x : string) : repr_list [x] = "['" ++ x ++ "']".
Proof. unfold repr_list, quote. simpl. now rewrite !append_assoc. Qed.

(** X7.  On a frame without the column it plots, a plot of level 1 opens
    its figure and then raises [KeyError]: a histogram from [dropna],
    which names the missing labels as a list, a count plot from the
    column access.  Seaborn is not called and nothing is shown. *)
Theorem plot_of_a_missing_column_raises (w : World) (df : DataFrame)
    (x title xlabel ylabel : string) (xlim : option (Z * Z)) (fw fh : Z)
    (tr : list event) :
  lookup x df = None ->
  Level1.histogram w df x title xlabel ylabel xlim tr
  = ((tr ++ [Plt (Figure 10 6)])%list,
     Raise (mk_exn KeyError ("['" ++ x ++ "']")))
  /\ Level1.countplot w df fw fh x title xlabel ylabel tr
  = ((tr ++ [Plt (Figure fw fh)])%list,
     Raise (mk_exn KeyError ("'" ++ x ++ "'"))).
Proof.
  intros Hx. split.
  - unfold Level1.histogram, dropna. unfold bind, plt, emit, lift.
    cbn [missing_labels]. rewrite Hx, repr_list_one. reflexivity.
  - unfold Level1.countplot, getitem. unfold bind, plt, emit, lift.
    rewrite Hx. reflexivity.
Qed.

Lemma plot_of_a_missing_column_raises_witness :
  Level1.plot1 (Frames.quiet None (engine_down "-")) pd_DataFrame []
  = ([Plt (Figure 10 6)], Raise (mk_exn KeyError "['age']"))
  /\ Level1.plot3 (Frames.quiet None (engine_down "-")) pd_DataFrame []
  = ([Plt (Figure 12 8)], Raise (mk_exn KeyError "'race'")).
Proof.
  split.
  - exact (proj1 (plot_of_a_missing_column_raises
                    (Frames.quiet None (engine_down "-")) pd_DataFrame
                    "age" "Distribution of Participant Age" "Age" "Count" None
                    10 6 [] eq_refl)).
  - exact (proj2 (plot_of_a_missing_column_raises
                    (Frames.quiet None (engine_down "-")) pd_DataFrame
                    "race" "Distribution of Self-Reported Race" "Count" "Race" None
                    12 8 [] eq_refl)).
Defined.

(** ** Sorting *)

Section Sorted.
Context {A : Type}.
Variable leb : A -> A -> bool.
Hypothesis leb_total : forall a b, leb a b = true \/ leb b a = true.
Hypothesis leb_trans : forall a b c, leb a b = true -> leb b c = true -> leb a c = true.

Lemma insert_sorted_sorted (x : A) (l : list A) :
  StronglySorted (fun a b => leb a b = true) l ->
  StronglySorted (fun a b => leb a b = true) (insert_sorted leb x l).
Proof.
  induction 1 as [|y l Hs IH Hy]; simpl.
  - constructor; constructor.
  - destruct (leb x y) eqn:Hxy.
    + constructor; [now constructor|].
      constructor; [exact Hxy|].
      rewrite Forall_forall in *. intros z Hz. exact (leb_trans _ _ _ Hxy (Hy z Hz)).
    + constructor; [exact IH|].
      rewrite Forall_forall in *. intros z Hz.
      apply (Permutation_in _ (insert_sorted_perm leb x l)) in Hz.
      destruct Hz as [<-|Hz]; [|now apply Hy].
      destruct (leb_total x y); congruence.
Qed.

Lemma sort_by_sorted (l : list A) :
  StronglySorted (fun a b => leb a b = true) (sort_by leb l).
Proof.
  induction l as [|x l IH]; simpl; [constructor|now apply insert_sorted_sorted].
Qed.

End Sorted.

Lemma unique_acc_fresh (seen : list cell) (s : Series) (c : cell) :
  In c (unique_acc seen s) -> mem_cell c seen = false.
Proof.
  revert seen. induction s as [|x s IH]; intros seen; simpl; [tauto|].
  destruct (mem_cell x seen) eqn:Hx; [apply IH|].
  intros [<-|Hin]; [exact Hx|].
  specialize (IH _ Hin). unfold mem_cell in IH. cbn [existsb] in IH.
  now apply orb_false_iff in IH.
Qed.

(** The unique values of a series are distinct. *)
Lemma NoDup_unique_acc (seen : list cell) (s : Series) : NoDup (unique_acc seen s).
Proof.
  revert seen. induction s as [|x s IH]; intros seen; simpl; [constructor|].
  destruct (mem_cell x seen); [apply IH|].
  constructor; [|apply IH].
  intros Hin. apply unique_acc_fresh in Hin.
  unfold mem_cell in Hin. cbn [existsb] in Hin.
  now rewrite same_cell_refl in Hin.
Qed.

Lemma sorted_map_fst {K V : Type} (f : K -> V) (R : V -> V -> Prop)
    (l : list (K * V)) :
  (forall p, In p l -> snd p = f (fst p)) ->
  StronglySorted (fun a b => R (snd a) (snd b)) l ->
  StronglySorted (fun a b => R (f a) (f b)) (map fst l).
Proof.
  intros Hf Hs. induction Hs as [|p l Hs IH Hp]; simpl; [constructor|].
  constructor.
  - apply IH. intros q Hq. apply Hf. now right.
  - rewrite Forall_forall in *. intros k Hk. apply in_map_iff in Hk.
    destruct Hk as (q & <- & Hq).
    rewrite <- (Hf p (or_introl eq_refl)), <- (Hf q (or_intror Hq)).
    now apply Hp.
Qed.

(** X8.  The bar order of a count plot of level 1
    ([value_counts().index]) lists the labels of the column, the nulls
    left out: no label twice, only labels that occur, every string that
    occurs, and by falling count (a label never stands before one that
    occurs more often). *)
Theorem count_plot_order_lists_labels_by_count (s : Series) :
  NoDup (Level1.value_counts_index s)
  /\ (forall c, In c (Level1.value_counts_index s) ->
        isnull_cell c = false /\ In c s)
  /\ (forall x, In (Str x) s -> In (Str x) (Level1.value_counts_index s))
  /\ StronglySorted
       (fun a b => (count_true (eq_mask s b) <= count_true (eq_mask s a))%nat)
       (Level1.value_counts_index s).
Proof.
  unfold Level1.value_counts_index.
  set (U := unique (select (notnull s) s)).
  set (cnt := fun k => count_true (eq_mask s k)).
  set (cmp := fun a b : cell * nat => (snd b <=? snd a)%nat).
  set (L := map (fun k => (k, cnt k)) U).
  assert (HL : map fst L = U).
  { unfold L. rewrite map_map. apply map_id. }
  assert (Hperm : Permutation (map fst (sort_by cmp L)) U).
  { rewrite <- HL. apply Permutation_map, sort_by_perm. }
  split; [|split; [|split]].
  - apply (Permutation_NoDup (Permutation_sym Hperm)). apply NoDup_unique_acc.
  - intros c Hc. apply (Permutation_in _ Hperm) in Hc.
    apply in_unique in Hc. now apply in_select_notnull_inv.
  - intros x Hx. apply (Permutation_in _ (Permutation_sym Hperm)).
    apply unique_keeps_Str. now apply in_select_notnull.
  - apply (sorted_map_fst cnt (fun a b => (b <= a)%nat)).
    + intros p Hp. apply (Permutation_in _ (sort_by_perm cmp L)) in Hp.
      unfold L in Hp. apply in_map_iff in Hp. now destruct Hp as (k & <- & _).
    + assert (Hs : StronglySorted (fun a b => cmp a b = true) (sort_by cmp L)).
      { apply sort_by_sorted; unfold cmp; intros.
        - rewrite !Nat.leb_le. lia.
        - rewrite !Nat.leb_le in *. lia. }
      revert Hs. apply StronglySorted_ind with
        (P := fun l => StronglySorted (fun a b : cell * nat => (snd b <= snd a)%nat) l).
      * constructor.
      * intros a l _ IH Ha. constructor; [exact IH|].
        rewrite Forall_forall in *. intros b Hb. apply Nat.leb_le. now apply Ha.
Qed.

(** ** The rows the income plot and the income test see *)

Lemma select_ne_mask_filter (s : Series) (v : cell) :
  select (ne_mask s v) s = filter (fun c => negb (eq_cell c v)) s.
Proof.
  induction s as [|c s IH]; simpl; [reflexivity|].
  destruct (negb (eq_cell c v)); now rewrite IH.
Qed.

Lemma in_select_and_mask_l {A : Type} (a b : list bool) (l : list A) (x : A) :
  In x (select (and_mask a b) l) -> In x (select a l).
Proof.
  revert b l. induction a as [|p a IH]; intros [|q b] [|y l]; simpl; try tauto.
  destruct p, q; simpl; intros H; try (destruct H as [H|H]); eauto.
Qed.

Lemma in_select_and_mask_r {A : Type} (a b : list bool) (l : list A) (x : A) :
  In x (select (and_mask a b) l) -> In x (select b l).
Proof.
  revert b l. induction a as [|p a IH]; intros [|q b] [|y l]; simpl; try tauto.
  destruct p, q; simpl; intros H; try (destruct H as [H|H]); eauto.
Qed.

Lemma length_select {A B : Type} (m : list bool) (l1 : list A) (l2 : list B) :
  List.length l1 = List.length l2 ->
  List.length (select m l1) = List.length (select m l2).
Proof.
  revert l1 l2. induction m as [|b m IH]; intros [|x l1] [|y l2]; simpl;
    try reflexivity; try discriminate.
  intros [= H]. destruct b; simpl; now rewrite (IH l1 l2 H).
Qed.

(** The frame the income test works on, column by column. *)
Lemma test_data_columns (df : DataFrame) (race inc : Series) :
  lookup "race" df = Some race ->
  lookup "median_income" df = Some inc ->
  exists td,
    Level2.test_data df = Ok td
    /\ forall c col, lookup c df = Some col ->
         lookup c td
         = Some (select (ne_mask (select (notnull_rows df ["race"; "median_income"] (len df)) race)
                                 (Str Level2.no_matching_concept))
                        (select (notnull_rows df ["race"; "median_income"] (len df)) col)).
Proof.
  intros Hr Hi. unfold Level2.test_data.
  rewrite dropna_total by (intros c [<-|[<-|[]]]; congruence).
  cbn [rbind]. rewrite (getitem_getmask df _ "race" race Hr). cbn [rbind].
  eexists. split; [reflexivity|].
  intros c col Hc. now rewrite !lookup_getmask, Hc.
Qed.

Lemma groups_Ok_columns (df : DataFrame) (gs : list cell) :
  Level2.groups df = Ok gs ->
  exists race inc, lookup "race" df = Some race /\ lookup "median_income" df = Some inc.
Proof.
  unfold Level2.groups, Level2.test_data, rbind.
  destruct (dropna df _) as [td|e] eqn:Hd; [|discriminate]. intros _.
  apply dropna_Ok in Hd. destruct Hd as [_ Hcols].
  destruct (lookup "race" df) as [race|] eqn:Hr;
    [|exfalso; apply (Hcols "race"); simpl; tauto].
  destruct (lookup "median_income" df) as [inc|] eqn:Hi;
    [|exfalso; apply (Hcols "median_income"); simpl; tauto].
  now exists race, inc.
Qed.

(** X9.  The box plot of income by race and the test under it do not
    see the same rows.  The plot gets every row whose race is not the
    sentinel, the rows without a race among them.  The groups of the
    test are races of the plotted rows, never null and never the
    sentinel: the test also leaves out the rows without a race or
    without an income. *)
Theorem plot_data_keeps_nulls_the_test_drops (df : DataFrame) (race : Series) :
  lookup "race" df = Some race ->
  exists pd,
    Level2.plot_data df = Ok pd
    /\ lookup "race" pd
       = Some (filter (fun c => negb (eq_cell c (Str "No matching concept"))) race)
    /\ (In NA race ->
        In NA (filter (fun c => negb (eq_cell c (Str "No matching concept"))) race))
    /\ (forall gs g, Level2.groups df = Ok gs -> In g gs ->
          isnull_cell g = false
          /\ In g (filter (fun c => negb (eq_cell c (Str "No matching concept"))) race)).
Proof.
  intros Hr. unfold Level2.plot_data, getitem. rewrite Hr. cbn [rbind].
  eexists. split; [reflexivity|].
  split; [now rewrite lookup_getmask, Hr, <- select_ne_mask_filter|].
  split; [intros Hin; apply filter_In; split; [exact Hin|reflexivity]|].
  intros gs g Hgs Hg.
  destruct (groups_Ok_columns df gs Hgs) as (race' & inc & Hr' & Hi).
  rewrite Hr in Hr'. injection Hr' as <-.
  destruct (test_data_columns df race inc Hr Hi) as (td & Htd & Hcols).
  unfold Level2.groups in Hgs. rewrite Htd in Hgs. cbn [rbind] in Hgs.
  unfold getitem in Hgs. rewrite (Hcols "race" race Hr) in Hgs.
  cbn [rbind] in Hgs. injection Hgs as <-.
  apply in_unique in Hg. rewrite select_ne_mask_filter in Hg.
  apply filter_In in Hg. destruct Hg as [Hg Hne].
  cbn [notnull_rows] in Hg. rewrite Hr, Hi in Hg.
  apply in_select_and_mask_l, in_select_notnull_inv in Hg.
  destruct Hg as [Hnull Hin]. split; [exact Hnull|].
  apply filter_In. split; [exact Hin|exact Hne].
Qed.

Lemma plot_data_keeps_nulls_the_test_drops_witness :
  exists pd,
    Level2.plot_data Frames.df_sample = Ok pd
    /\ lookup "race" pd
       = Some [Str "White"; Str "Asian"; Str "White"; NA; Str "Asian"]
    /\ Level2.groups Frames.df_sample = Ok [Str "White"; Str "Asian"].
Proof.
  destruct (plot_data_keeps_nulls_the_test_drops Frames.df_sample _ eq_refl)
    as (pd & Hpd & Hcol & _).
  exists pd. split; [exact Hpd|]. split; [exact Hcol|reflexivity].
Defined.

(** ** The samples of a comparison *)

Lemma unique_covers (g : Series) (c : cell) :
  In c g -> List.length (filter (same_cell c) (unique g)) = 1%nat.
Proof.
  intros Hin. unfold unique. rewrite count_unique_acc. simpl.
  now rewrite (mem_cell_in _ _ Hin).
Qed.

(** Splitting a value column by the unique values of a group column
    that has no null puts every row in exactly one sample, and leaves no
    sample empty. *)
Lemma by_group_partition (g v : Series) :
  List.length g = List.length v ->
  Forall (fun c => isnull_cell c = false) g ->
  list_sum (map (fun s : Series => List.length s)
              (map (fun k => select (eq_mask g k) v) (unique g)))
  = List.length v
  /\ Forall (fun s : Series => s <> [])
            (map (fun k => select (eq_mask g k) v) (unique g)).
Proof.
  intros Hlen Hnn. split.
  - rewrite map_map.
    rewrite (map_ext _ _ (group_size_count g v)).
    rewrite (sum_over_groups (combine g v) (fun _ => true) (unique g)).
    + rewrite filter_all.
      * rewrite length_combine, Hlen. apply Nat.min_id.
      * intros [x y] Hin. simpl. apply in_combine_l in Hin.
        rewrite Forall_forall in Hnn. now rewrite (Hnn x Hin).
    + intros [x y] Hin _. simpl. apply unique_covers.
      exact (in_combine_l _ _ _ _ Hin).
  - apply Forall_forall. intros s Hs. apply in_map_iff in Hs.
    destruct Hs as (k & <- & Hk). apply in_unique in Hk.
    rewrite Forall_forall in Hnn.
    now apply select_eq_mask_nonempty; [|apply Hnn|].
Qed.

Lemma dropna_two_notnull (df : DataFrame) (a b : string) (ca cb : Series) :
  lookup a df = Some ca -> lookup b df = Some cb ->
  Forall (fun c => isnull_cell c = false)
         (select (notnull_rows df [a; b] (len df)) ca)
  /\ Forall (fun c => isnull_cell c = false)
            (select (notnull_rows df [a; b] (len df)) cb).
Proof.
  intros Ha Hb. cbn [notnull_rows]. rewrite Ha, Hb.
  split; apply Forall_forall; intros c Hc.
  - apply in_select_and_mask_l in Hc. now apply in_select_notnull_inv in Hc.
  - apply in_select_and_mask_r, in_select_and_mask_l in Hc.
    now apply in_select_notnull_inv in Hc.
Qed.

Lemma Forall_select {A : Type} (P : A -> Prop) (m : list bool) (l : list A) :
  Forall P l -> Forall P (select m l).
Proof.
  rewrite !Forall_forall. intros H x Hx. apply H. exact (in_select m l x Hx).
Qed.

(** X10.  The income test sees every row it kept exactly once.  On a
    frame whose columns have one cell per row, the samples handed to
    Kruskal-Wallis are one per group, none is empty, none holds a null,
    the groups are distinct, and the sizes of the samples add up to the
    number of rows of the cleaned test data. *)
Theorem income_samples_partition_the_test_rows (df : DataFrame) (gs : list cell) :
  well_formed df ->
  Level2.groups df = Ok gs ->
  exists td inc samples,
    Level2.test_data df = Ok td
    /\ lookup "median_income" td = Some inc
    /\ Level2.income_by_group df = Ok samples
    /\ List.length samples = List.length gs
    /\ NoDup gs
    /\ list_sum (map (fun s : Series => List.length s) samples) = List.length inc
    /\ Forall (fun s : Series => s <> []) samples
    /\ Forall (Forall (fun c => isnull_cell c = false)) samples.
Proof.
  intros Hwf Hgs.
  destruct (groups_Ok_columns df gs Hgs) as (race & inc & Hr & Hi).
  destruct (test_data_columns df race inc Hr Hi) as (td & Htd & Hcols).
  set (m1 := notnull_rows df ["race"; "median_income"] (len df)) in *.
  set (r1 := select m1 race) in *.
  set (m2 := ne_mask r1 (Str Level2.no_matching_concept)) in *.
  assert (Hgs' : gs = unique (select m2 r1)).
  { unfold Level2.groups in Hgs. rewrite Htd in Hgs. cbn [rbind] in Hgs.
    unfold getitem in Hgs. rewrite (Hcols "race" race Hr) in Hgs.
    now injection Hgs. }
  assert (Hlen : List.length (select m2 r1) = List.length (select m2 (select m1 inc))).
  { apply length_select, length_select.
    now rewrite (lookup_well_formed _ _ _ Hwf Hr), (lookup_well_formed _ _ _ Hwf Hi). }
  destruct (dropna_two_notnull df "race" "median_income" race inc Hr Hi) as [Hnr Hni].
  fold m1 in Hnr, Hni. fold r1 in Hnr.
  destruct (by_group_partition (select m2 r1) (select m2 (select m1 inc)) Hlen
              (Forall_select _ m2 r1 Hnr)) as [Hsum Hne].
  exists td, (select m2 (select m1 inc)),
         (map (fun k => select (eq_mask (select m2 r1) k) (select m2 (select m1 inc)))
              (unique (select m2 r1))).
  split; [exact Htd|]. split; [exact (Hcols "median_income" inc Hi)|].
  split.
  { unfold Level2.income_by_group. rewrite Htd, Hgs. cbn [rbind].
    rewrite Hgs'. apply by_group_Ok;
      [exact (Hcols "median_income" inc Hi)|exact (Hcols "race" race Hr)]. }
  split; [now rewrite Hgs', length_map|].
  split; [rewrite Hgs'; apply NoDup_unique_acc|].
  split; [exact Hsum|]. split; [exact Hne|].
  apply Forall_forall. intros s Hs. apply in_map_iff in Hs.
  destruct Hs as (k & <- & _). apply Forall_select, Forall_select. exact Hni.
Qed.

Lemma income_samples_partition_the_test_rows_witness :
  exists td inc samples,
    Level2.test_data Frames.df_sample = Ok td
    /\ lookup "median_income" td = Some inc
    /\ Level2.income_by_group Frames.df_sample = Ok samples
    /\ list_sum (map (fun s : Series => List.length s) samples) = List.length inc.
Proof.
  assert (Hwf : well_formed Frames.df_sample) by (repeat constructor).
  destruct (income_samples_partition_the_test_rows Frames.df_sample
              [Str "White"; Str "Asian"] Hwf eq_refl)
    as (td & inc & samples & Htd & Hinc & Hs & _ & _ & Hsum & _).
  exists td, inc, samples. repeat split; assumption.
Defined.

(** X11.  The same holds for the poverty comparison, which removes the
    nulls only: on a frame whose columns have one cell per row, the
    samples are one per ethnicity of the cleaned rows, distinct, none
    empty and none with a null, and their sizes add up to the number of
    rows that have both an ethnicity and a poverty value. *)
Theorem poverty_samples_partition_the_test_rows (df : DataFrame) (gs : list cell) :
  well_formed df ->
  Level2.groups_eth df = Ok gs ->
  exists td pov samples,
    Level2.test_data_eth df = Ok td
    /\ lookup "fraction_poverty" td = Some pov
    /\ Level2.poverty_by_group df = Ok samples
    /\ List.length samples = List.length gs
    /\ NoDup gs
    /\ list_sum (map (fun s : Series => List.length s) samples) = List.length pov
    /\ Forall (fun s : Series => s <> []) samples
    /\ Forall (Forall (fun c => isnull_cell c = false)) samples.
Proof.
  intros Hwf Hgs.
  assert (Hcols : exists eth pov, lookup "ethnicity" df = Some eth
                                  /\ lookup "fraction_poverty" df = Some pov).
  { revert Hgs. unfold Level2.groups_eth, Level2.test_data_eth, rbind.
    destruct (dropna df _) as [td|e] eqn:Hd; [|discriminate]. intros _.
    apply dropna_Ok in Hd. destruct Hd as [_ Hc].
    destruct (lookup "ethnicity" df) as [eth|] eqn:He;
      [|exfalso; apply (Hc "ethnicity"); simpl; tauto].
    destruct (lookup "fraction_poverty" df) as [pov|] eqn:Hp;
      [|exfalso; apply (Hc "fraction_poverty"); simpl; tauto].
    now exists eth, pov. }
  destruct Hcols as (eth & pov & He & Hp).
  set (m := notnull_rows df ["ethnicity"; "fraction_poverty"] (len df)).
  assert (Htd : Level2.test_data_eth df = Ok (getmask df m)).
  { unfold Level2.test_data_eth.
    apply dropna_total. intros c [<-|[<-|[]]]; congruence. }
  assert (Hle : lookup "ethnicity" (getmask df m) = Some (select m eth))
    by now rewrite lookup_getmask, He.
  assert (Hlp : lookup "fraction_poverty" (getmask df m) = Some (select m pov))
    by now rewrite lookup_getmask, Hp.
  assert (Hgs' : gs = unique (select m eth)).
  { unfold Level2.groups_eth in Hgs. rewrite Htd in Hgs. cbn [rbind] in Hgs.
    unfold getitem in Hgs. rewrite Hle in Hgs. now injection Hgs. }
  assert (Hlen : List.length (select m eth) = List.length (select m pov)).
  { apply length_select.
    now rewrite (lookup_well_formed _ _ _ Hwf He), (lookup_well_formed _ _ _ Hwf Hp). }
  destruct (dropna_two_notnull df "ethnicity" "fraction_poverty" eth pov He Hp)
    as [Hne Hnp].
  fold m in Hne, Hnp.
  destruct (by_group_partition (select m eth) (select m pov) Hlen Hne) as [Hsum Hnonempty].
  exists (getmask df m), (select m pov),
         (map (fun k => select (eq_mask (select m eth) k) (select m pov))
              (unique (select m eth))).
  split; [exact Htd|]. split; [exact Hlp|].
  split.
  { unfold Level2.poverty_by_group. rewrite Htd, Hgs. cbn [rbind].
    rewrite Hgs'. now apply by_group_Ok. }
  split; [now rewrite Hgs', length_map|].
  split; [rewrite Hgs'; apply NoDup_unique_acc|].
  split; [exact Hsum|]. split; [exact Hnonempty|].
  apply Forall_forall. intros s Hs. apply in_map_iff in Hs.
  destruct Hs as (k & <- & _). apply Forall_select. exact Hnp.
Qed.

Lemma poverty_samples_partition_the_test_rows_witness :
  exists td pov samples,
    Level2.test_data_eth Frames.df_sample = Ok td
    /\ lookup "fraction_poverty" td = Some pov
    /\ Level2.poverty_by_group Frames.df_sample = Ok samples
    /\ list_sum (map (fun s : Series => List.length s) samples) = List.length pov.
Proof.
  assert (Hwf : well_formed Frames.df_sample) by (repeat constructor).
  destruct (poverty_samples_partition_the_test_rows Frames.df_sample
              [Str "Not Hispanic or Latino"; Str Level2.long_label;
               Str "Hispanic or Latino"] Hwf eq_refl)
    as (td & pov & samples & Htd & Hpov & Hs & _ & _ & Hsum & _).
  exists td, pov, samples. repeat split; assumption.
Defined.

(** ** The table of the missingness plot *)

(** The percentage of nulls of a series that is not empty. *)
Lemma percent_null_range (g : Series) :
  g <> [] ->
  exists q, Level2.percent_null g = Fin q /\ (0 <= q)%Q /\ (q <= 100)%Q.
Proof.
  intros Hg. destruct g as [|c g]; [congruence|].
  unfold Level2.percent_null, isnull.
  set (l := map isnull_cell (c :: g)).
  assert (Hl : (0 < List.length l)%nat) by (unfold l; simpl; lia).
  assert (Hc : (count_true l <= List.length l)%nat) by apply count_true_le.
  assert (Hm : mean_bool l = Fin (Qnat (count_true l) / Qnat (List.length l))).
  { unfold l. reflexivity. }
  rewrite Hm. eexists. split; [reflexivity|].
  assert (H0 : (0 <= Qnat (count_true l) / Qnat (List.length l))%Q).
  { apply Qle_shift_div_l; [now apply Qnat_pos|].
    rewrite Qmult_0_l. change 0%Q with (Qnat 0). apply Qnat_le. lia. }
  assert (H1 : (Qnat (count_true l) / Qnat (List.length l) <= 1)%Q).
  { apply Qle_shift_div_r; [now apply Qnat_pos|].
    rewrite Qmult_1_l. now apply Qnat_le. }
  split.
  - apply Qmult_le_0_compat; [exact H0|discriminate].
  - setoid_replace 100%Q with (1 * 100)%Q by reflexivity.
    apply Qmult_le_compat_r; [exact H1|discriminate].
Qed.

Lemma fge_total (a b : cell * float) : Level2.fge a b = true \/ Level2.fge b a = true.
Proof.
  unfold Level2.fge. destruct (snd a) as [|x], (snd b) as [|y]; auto.
  destruct (Qlt_le_dec x y) as [H|H].
  - right. apply Qle_bool_iff. now apply Qlt_le_weak.
  - left. now apply Qle_bool_iff.
Qed.

Lemma fge_trans (a b c : cell * float) :
  Level2.fge a b = true -> Level2.fge b c = true -> Level2.fge a c = true.
Proof.
  unfold Level2.fge. destruct (snd a) as [|x], (snd b) as [|y], (snd c) as [|z];
    auto; try discriminate.
  rewrite !Qle_bool_iff. intros H1 H2. exact (Qle_trans _ _ _ H2 H1).
Qed.

Lemma StronglySorted_weaken {A : Type} (R R' : A -> A -> Prop) (l : list A) :
  (forall a b, In a l -> In b l -> R a b -> R' a b) ->
  StronglySorted R l -> StronglySorted R' l.
Proof.
  intros H Hs. induction Hs as [|a l Hs IH Ha]; [constructor|].
  constructor.
  - apply IH. intros x y Hx Hy. apply H; now right.
  - rewrite Forall_forall in *. intros b Hb. apply H; [now left|now right|now apply Ha].
Qed.

(** X12.  The table behind the missingness plot has one entry per race
    that occurs, each a percentage between 0 and 100 and never NaN, and
    the plot gets the same entries by falling percentage ([race] and
    [inc] are the two columns of the frame, of equal length). *)
Theorem missing_table_holds_sorted_percentages (df : DataFrame) (race inc : Series) :
  lookup "race" df = Some race ->
  lookup "median_income" df = Some inc ->
  List.length race = List.length inc ->
  exists md sorted,
    Level2.missing_data df = Ok md
    /\ map fst md = group_keys race
    /\ Forall (fun kv => exists q, snd kv = Fin q /\ (0 <= q)%Q /\ (q <= 100)%Q) md
    /\ Permutation sorted md
    /\ StronglySorted
         (fun a b => (Missingness.fval (snd b) <= Missingness.fval (snd a))%Q) sorted
    /\ Level2.missing_df df
       = Ok [("race", map fst sorted);
             ("percent_missing_ses_data",
              map (fun kv => Level2.float_cell (snd kv)) sorted)].
Proof.
  intros Hr Hi Hlen.
  unfold Level2.missing_df, Level2.missing_data, groupby_apply, rbind, getitem.
  rewrite Hr, Hi.
  set (md := map (fun k => (k, Level2.percent_null (select (eq_mask race k) inc)))
                 (group_keys race)).
  assert (Hrange : Forall (fun kv => exists q, snd kv = Fin q
                                               /\ (0 <= q)%Q /\ (q <= 100)%Q) md).
  { apply Forall_forall. intros kv Hkv. unfold md in Hkv. apply in_map_iff in Hkv.
    destruct Hkv as (k & <- & Hk). simpl.
    apply in_group_keys in Hk. destruct Hk as [Hnull Hin].
    apply percent_null_range. now apply select_eq_mask_nonempty. }
  exists md, (sort_by Level2.fge md).
  split; [reflexivity|].
  split; [unfold md; rewrite map_map; apply map_id|].
  split; [exact Hrange|].
  split; [apply sort_by_perm|].
  split; [|reflexivity].
  apply (StronglySorted_weaken (fun a b => Level2.fge a b = true)).
  - intros a b Ha Hb. rewrite Forall_forall in Hrange.
    apply (Permutation_in _ (sort_by_perm Level2.fge md)) in Ha, Hb.
    destruct (Hrange a Ha) as (x & Hx & _). destruct (Hrange b Hb) as (y & Hy & _).
    unfold Level2.fge. rewrite Hx, Hy. simpl. now rewrite Qle_bool_iff.
  - apply sort_by_sorted; [apply fge_total|apply fge_trans].
Qed.

Lemma missing_table_holds_sorted_percentages_witness :
  exists md sorted,
    Level2.missing_data Frames.df_sample = Ok md
    /\ Permutation sorted md
    /\ Level2.missing_df Frames.df_sample
       = Ok [("race", map fst sorted);
             ("percent_missing_ses_data",
              map (fun kv => Level2.float_cell (snd kv)) sorted)].
Proof.
  destruct (missing_table_holds_sorted_percentages Frames.df_sample _ _
              eq_refl eq_refl eq_refl)
    as (md & sorted & Hmd & _ & _ & Hperm & _ & Hdf).
  exists md, sorted. repeat split; assumption.
Defined.

(** ** The contingency table *)

Lemma notnull_map_Bool (l : list bool) : notnull (map Bool l) = map (fun _ => true) l.
Proof. unfold notnull. rewrite map_map. reflexivity. Qed.

Lemma and_mask_all_true {A : Type} (a : list bool) (l : list A) :
  List.length a = List.length l -> and_mask a (map (fun _ => true) l) = a.
Proof.
  revert l. induction a as [|b a IH]; intros [|x l]; simpl; try discriminate;
    [reflexivity|].
  intros [= H]. now rewrite andb_true_r, IH.
Qed.

Lemma filter_idem {A : Type} (p : A -> bool) (l : list A) :
  filter p (filter p l) = filter p l.
Proof.
  apply filter_all. intros x Hx. now apply filter_In in Hx.
Qed.

Lemma length_select_mask {A : Type} (m : list bool) (l : list A) :
  List.length m = List.length l -> List.length (select m l) = count_true m.
Proof.
  revert l. induction m as [|b m IH]; intros [|x l]; simpl; try discriminate;
    [reflexivity|].
  intros [= H]. unfold count_true in *. destruct b; simpl; now rewrite IH.
Qed.

Lemma count_and_mask (f g : cell -> bool) (a b : Series) :
  count_true (and_mask (map f a) (map g b))
  = List.length (filter (fun p => g (fst p) && f (snd p)) (combine b a)).
Proof.
  revert b. induction a as [|x a IH]; intros [|y b]; simpl; try reflexivity.
  unfold count_true in *. simpl. rewrite (andb_comm (f x) (g y)).
  destruct (g y && f x); simpl; now rewrite IH.
Qed.

Lemma count_snd_combine (f : cell -> bool) (a b : Series) :
  List.length b = List.length a ->
  List.length (filter (fun p : cell * cell => f (snd p)) (combine b a))
  = count_true (map f a).
Proof.
  revert b. induction a as [|x a IH]; intros [|y b]; simpl; try discriminate;
    [reflexivity|].
  intros [= H]. unfold count_true in *. simpl. destruct (f x); simpl; now rewrite IH.
Qed.

Lemma count_eq_mask_notnull (s : Series) (k : cell) :
  count_true (eq_mask (filter (fun c => negb (isnull_cell c)) s) k)
  = count_true (eq_mask s k).
Proof.
  unfold count_true, eq_mask. induction s as [|c s IH]; simpl; [reflexivity|].
  destruct (isnull_cell c) eqn:Hc; simpl.
  - unfold eq_cell at 2. rewrite Hc. simpl. exact IH.
  - destruct (eq_cell c k); simpl; now rewrite IH.
Qed.

(** X13.  The contingency table of the chi-square test counts the rows
    the percentages of the plot are taken from.  Its rows are the races
    that occur, as in the table of the plot; its columns are among
    'not missing' and 'missing'; the counts of a race add up to the
    size of that race's group, and all counts together to the number of
    rows that have a race: a subject without a race is in neither
    ([race] and [inc] are the two columns of the frame, of equal
    length). *)
Theorem contingency_rows_are_the_plotted_groups (df : DataFrame) (race inc : Series) :
  lookup "race" df = Some race ->
  lookup "median_income" df = Some inc ->
  List.length race = List.length inc ->
  exists df' cols rows,
    Level2.add_ses_data_missing df = Ok df'
    /\ Level2.contingency_table df' = Ok (cols, rows)
    /\ map fst rows = group_keys race
    /\ (forall c, In c cols -> c = Bool false \/ c = Bool true)
    /\ Forall (fun kr : cell * list nat =>
                 List.length (snd kr) = List.length cols
                 /\ list_sum (snd kr)
                    = List.length (select (eq_mask race (fst kr)) inc)) rows
    /\ list_sum (map (fun kr : cell * list nat => list_sum (snd kr)) rows)
       = List.length (Missingness.grouped_rows race inc).
Proof.
  intros Hr Hi Hlen.
  set (miss := map Bool (isnull inc)).
  assert (Hml : List.length miss = List.length race).
  { unfold miss, isnull. now rewrite !length_map. }
  unfold Level2.add_ses_data_missing, getitem. rewrite Hi. cbn [rbind].
  fold miss. exists (setitem df "ses_data_missing" miss).
  unfold Level2.contingency_table, getitem.
  rewrite lookup_setitem_same, lookup_setitem_other, Hr by discriminate.
  cbn [rbind]. unfold crosstab.
  assert (Hboth : and_mask (notnull race) (notnull miss) = notnull race).
  { unfold miss. rewrite notnull_map_Bool. apply and_mask_all_true.
    unfold notnull, isnull. now rewrite !length_map. }
  rewrite Hboth.
  set (a' := select (notnull race) race).
  set (b' := select (notnull race) miss).
  assert (Ha' : a' = filter (fun c => negb (isnull_cell c)) race)
    by apply select_notnull_filter.
  assert (Hkeys : group_keys a' = group_keys race).
  { unfold group_keys. fold a'. rewrite Ha' at 1 2.
    now rewrite select_notnull_filter, filter_idem, <- Ha'. }
  assert (Hab : List.length b' = List.length a').
  { unfold a', b'. now apply length_select. }
  assert (Hbn : Forall (fun c => isnull_cell c = false) b').
  { apply Forall_select. unfold miss. apply Forall_forall. intros c Hc.
    apply in_map_iff in Hc. now destruct Hc as (x & <- & _). }
  assert (Hrow : forall k,
            list_sum (map (fun c => count_true (and_mask (eq_mask a' k) (eq_mask b' c)))
                          (group_keys b'))
            = List.length (select (eq_mask race k) inc)).
  { intros k.
    rewrite (map_ext _ (fun c => List.length
               (filter (fun p => eq_cell (fst p) c && eq_cell (snd p) k) (combine b' a'))))
      by (intros c; unfold eq_mask; apply count_and_mask).
    rewrite (sum_over_groups (combine b' a') (fun p => eq_cell (snd p) k) (group_keys b')
               (keys_cover b' a')).
    rewrite (filter_ext_in _ (fun p : cell * cell => eq_cell (snd p) k)).
    - rewrite (count_snd_combine (fun x => eq_cell x k) a' b' Hab).
      fold (eq_mask a' k). rewrite Ha', count_eq_mask_notnull.
      symmetry. apply length_select_mask. unfold eq_mask. now rewrite length_map.
    - intros [x y] Hin. simpl. rewrite Forall_forall in Hbn.
      now rewrite (Hbn x (in_combine_l _ _ _ _ Hin)). }
  eexists. eexists. split; [reflexivity|]. split; [reflexivity|].
  split; [rewrite map_map; simpl; rewrite map_id; exact Hkeys|].
  split.
  { intros c Hc. apply in_group_keys in Hc. destruct Hc as [_ Hc].
    apply in_select in Hc. unfold miss in Hc. apply in_map_iff in Hc.
    destruct Hc as ([|] & <- & _); auto. }
  split.
  { apply Forall_forall. intros kr Hkr. apply in_map_iff in Hkr.
    destruct Hkr as (k & <- & _). simpl. split; [apply length_map|apply Hrow]. }
  rewrite map_map. simpl. rewrite Hkeys.
  rewrite (map_ext _ _ Hrow). apply sizes_add_up.
Qed.

Lemma contingency_rows_are_the_plotted_groups_witness :
  exists df' cols rows,
    Level2.add_ses_data_missing Frames.df_sample = Ok df'
    /\ Level2.contingency_table df' = Ok (cols, rows)
    /\ map fst rows = [Str "Asian"; Str "No matching concept"; Str "White"]
    /\ list_sum (map (fun kr : cell * list nat => list_sum (snd kr)) rows) = 5%nat.
Proof.
  destruct (contingency_rows_are_the_plotted_groups Frames.df_sample _ _
              eq_refl eq_refl eq_refl)
    as (df' & cols & rows & Hdf & Hct & Hkeys & _ & _ & Htot).
  exists df', cols, rows. repeat split; assumption.
Defined.

(** ** The printed p-value *)

Lemma dec_is_zero (n : N) : dec n = "0" -> n = 0%N.
Proof.
  unfold dec. intros H. apply (f_equal NilEmpty.uint_of_string) in H.
  rewrite NilEmpty.usu in H. simpl in H. injection H as H.
  apply (f_equal N.of_uint) in H. now rewrite DecimalN.Unsigned.of_to in H.
Qed.

Lemma dec_has_no_dot (n : N) (c : ascii) (s : string) :
  dec n <> String c (String "." s).
Proof.
  unfold dec. intros H. apply (f_equal NilEmpty.uint_of_string) in H.
  rewrite NilEmpty.usu in H. simpl in H.
  destruct (NilEmpty.uint_of_string s); simpl in H; discriminate.
Qed.

Lemma pad3_not_zero (b : Z) : 1 <= b < 1000 -> pad3 b <> "000".
Proof.
  intros Hb.
  assert (Hall : forallb (fun n => negb (String.eqb (pad3 (Z.of_nat n)) "000"))
                         (seq 1 999) = true) by (vm_compute; reflexivity).
  rewrite forallb_forall in Hall.
  specialize (Hall (Z.to_nat b)). rewrite Z2Nat.id in Hall by lia.
  intros H. rewrite H in Hall.
  assert (Hin : In (Z.to_nat b) (seq 1 999)) by (apply in_seq; lia).
  specialize (Hall Hin). discriminate.
Qed.

Lemma round_half_even_ge_1 (x : Q) : (1 <= x)%Q -> 1 <= round_half_even x.
Proof.
  unfold Qle, round_half_even. cbn [Qnum Qden]. intros H.
  assert (Hfl : 1 <= Qnum x / Zpos (Qden x))
    by (apply Z.div_le_lower_bound; lia).
  destruct (Z.compare _ _); [|lia|lia].
  destruct (Z.even _); lia.
Qed.

(** From 0.001 on, three decimals do not print as zero. *)
Lemma format_3f_not_zero (q : Q) : (1 # 1000 <= q)%Q -> format_3f (Fin q) <> "0.000".
Proof.
  intros Hq. unfold format_3f.
  assert (H0 : Qle_bool 0 q = true).
  { apply Qle_bool_iff. apply Qle_trans with (1 # 1000); [discriminate|exact Hq]. }
  rewrite H0.
  assert (Hm : 1 <= round_half_even (Qabs q * 1000)).
  { apply round_half_even_ge_1.
    apply Qle_trans with ((1 # 1000) * 1000)%Q; [discriminate|].
    apply Qmult_le_compat_r; [|discriminate].
    apply Qle_trans with q; [exact Hq|apply Qle_Qabs]. }
  set (m := round_half_even (Qabs q * 1000)) in *.
  assert (Hdiv : 0 <= m / 1000) by (apply Z.div_pos; lia).
  assert (Hmod : 0 <= m mod 1000 < 1000) by (apply Z.mod_pos_bound; lia).
  pose proof (Z.div_mod m 1000 ltac:(lia)) as Hdm.
  simpl. intros H.
  destruct (dec (Z.to_N (m / 1000))) as [|c [|c' s]] eqn:Hd; simpl in H.
  - discriminate.
  - injection H as Hc Hp. subst c. apply dec_is_zero in Hd.
    apply (pad3_not_zero (m mod 1000)); [lia|exact Hp].
  - injection H as Hc Hc' _. subst c'. exact (dec_has_no_dot _ _ _ Hd).
Qed.

(** X14.  The annotation of a test is its heading, then the name of the
    test and the p-value in brackets.  The p-value is shown as
    'p < 0.001' exactly when it is below 0.001, and it is never shown as
    'p = 0.000': a value that three decimals would print as zero is
    always shown as the bound. *)
Theorem annotation_never_shows_a_zero_p_value (pvalue : float) :
  exists shown,
    (forall heading_sig heading_not test,
       fst (annotate heading_sig heading_not test pvalue)
       = (if significant pvalue then heading_sig else heading_not)
         ++ nl ++ "(" ++ test ++ " " ++ shown ++ ")")
    /\ shown <> "p = 0.000"
    /\ (shown = "p < 0.001" <-> flt pvalue tiny = true)
    /\ (snd (annotate "" "" "" pvalue) = "lightgreen" <-> significant pvalue = true).
Proof.
  assert (Hfmt : flt pvalue tiny = false -> format_3f pvalue <> "0.000").
  { destruct pvalue as [|q]; [discriminate|]. unfold flt. rewrite negb_false_iff.
    intros H. apply format_3f_not_zero. now apply Qle_bool_iff. }
  destruct (significant pvalue) eqn:Hs.
  - exists (p_text pvalue). split; [|split; [|split]].
    + intros. unfold annotate. now rewrite Hs.
    + unfold p_text. destruct (flt pvalue tiny) eqn:Ht; [discriminate|].
      intros H. injection H as H. exact (Hfmt eq_refl H).
    + unfold p_text. destruct (flt pvalue tiny); split; intros H;
        first [reflexivity | discriminate].
    + unfold annotate. rewrite Hs. split; reflexivity.
  - assert (Ht : flt pvalue tiny = false).
    { destruct pvalue as [|q]; [reflexivity|].
      destruct (flt (Fin q) tiny) eqn:Ht; [|reflexivity].
      apply flt_Fin in Ht.
      assert (Hlt : (q < alpha)%Q) by exact (Qlt_trans _ _ _ Ht tiny_lt_alpha).
      apply flt_Fin in Hlt. unfold significant in Hs. congruence. }
    exists ("p = " ++ format_3f pvalue). split; [|split; [|split]].
    + intros. unfold annotate. rewrite Hs. reflexivity.
    + intros H. injection H as H. exact (Hfmt Ht H).
    + rewrite Ht. split; discriminate.
    + unfold annotate. rewrite Hs. split; discriminate.
Qed.

(** ** Running an analysis again *)

Lemma setitem_setitem (df : DataFrame) (c : string) (s s' : Series) :
  setitem (setitem df c s) c s' = setitem df c s'.
Proof.
  induction df as [|[n x] df IH]; simpl.
  - now rewrite String.eqb_refl.
  - destruct (String.eqb n c) eqn:Hn; simpl; rewrite Hn; [reflexivity|now rewrite IH].
Qed.

Lemma perform_frame (w : World) (op : operation) (df df' : DataFrame) (out : outcome) :
  perform w op df = Ok (out, df') -> df' = frame_after op df.
Proof.
  destruct op; unfold perform, frame_after, rbind.
  - destruct (Level2.plot_data df); [|discriminate].
    destruct (Level2.groups df); [|discriminate].
    destruct (Level2.income_by_group df); [|discriminate].
    destruct (stats_kruskal w _); [|discriminate].
    now intros [= _ <-].
  - unfold Level2.clean_label, rbind, getitem.
    destruct (lookup "ethnicity" df) as [eth|]; [|discriminate].
    destruct (Level2.groups_eth _); [|discriminate].
    destruct (Level2.poverty_by_group _); [|discriminate].
    destruct (stats_kruskal w _); [|discriminate].
    destruct (Level2.dunn_results w _); [|discriminate].
    now intros [= _ <-].
  - destruct (Level2.missing_df df); [|discriminate].
    unfold Level2.add_ses_data_missing, rbind, getitem.
    destruct (lookup "median_income" df) as [inc|]; [|discriminate].
    destruct (Level2.contingency_table _); [|discriminate].
    destruct (chi2_contingency w _); [|discriminate].
    now intros [= _ <-].
Qed.

Lemma frame_after_idempotent (op : operation) (df : DataFrame) :
  frame_after op (frame_after op df) = frame_after op df.
Proof.
  destruct op; simpl; [reflexivity| |].
  - destruct (lookup "ethnicity" df) as [eth|] eqn:He; [|now rewrite He].
    now rewrite lookup_setitem_same, setitem_setitem, clean_idempotent.
  - destruct (lookup "median_income" df) as [inc|] eqn:Hi; [|now rewrite Hi].
    rewrite lookup_setitem_other, Hi by discriminate. apply setitem_setitem.
Qed.

(** X15.  An analysis can be run again.  On a frame whose columns have
    one cell per row, an operation that returned returns, when run again
    on the frame it left, the same result, and leaves that frame as it
    is: the label cleaning finds nothing more to replace, and the
    column ses_data_missing is written over with the same values. *)
Theorem rerunning_an_analysis_changes_nothing (w : World) (op : operation)
    (df df' : DataFrame) (out : outcome) :
  well_formed df ->
  perform w op df = Ok (out, df') ->
  perform w op df' = Ok (out, df').
Proof.
  intros Hwf Hop.
  destruct (perform_keeps_view w op df df' out Hwf Hop) as [Hview _].
  pose proof (outcome_congr w op df' df (same_view_sym _ _ Hview)) as Hout.
  unfold outcome_of in Hout. rewrite Hop in Hout. simpl in Hout.
  destruct (perform w op df') as [[out' df'']|e] eqn:Hagain; [|discriminate].
  simpl in Hout. injection Hout as ->.
  apply perform_frame in Hagain. apply perform_frame in Hop.
  rewrite Hagain, Hop. now rewrite frame_after_idempotent.
Qed.

Lemma rerunning_an_analysis_changes_nothing_witness :
  exists out df',
    perform (Frames.quiet None (engine_down "-")) PovertyByEthnicity Frames.df_sample
    = Ok (out, df')
    /\ perform (Frames.quiet None (engine_down "-")) PovertyByEthnicity df'
       = Ok (out, df')
    /\ df' <> Frames.df_sample.
Proof.
  eexists. eexists. split; [reflexivity|]. split; [|discriminate].
  apply (rerunning_an_analysis_changes_nothing _ _ Frames.df_sample);
    [repeat constructor|reflexivity].
Defined.

(** ** Runs that go through *)

Lemma histogram_returns (w : World) (df : DataFrame) (x t xl yl : string)
    (lim : option (Z * Z)) (tr : list event) :
  (forall p, sns_draw w p = Ok tt) ->
  lookup x df <> None ->
  snd (Level1.histogram w df x t xl yl lim tr) = Ok tt.
Proof.
  intros Hs Hx. unfold Level1.histogram, sns. unfold bind, plt, emit, lift, ret.
  rewrite dropna_total by (intros c [<-|[]]; exact Hx).
  cbn [fst snd]. rewrite Hs. destruct lim as [[lo hi]|]; reflexivity.
Qed.

Lemma countplot_returns (w : World) (df : DataFrame) (fw fh : Z) (y t xl yl : string)
    (tr : list event) :
  (forall p, sns_draw w p = Ok tt) ->
  lookup y df <> None ->
  snd (Level1.countplot w df fw fh y t xl yl tr) = Ok tt.
Proof.
  intros Hs Hy. unfold Level1.countplot, sns, getitem. unfold bind, plt, emit, lift, ret.
  destruct (lookup y df); [|congruence].
  cbn [fst snd]. now rewrite Hs.
Qed.

Lemma snd_bind_Ok {A B : Type} (m : M A) (k : A -> M B) (tr : list event) (a : A) :
  snd (m tr) = Ok a -> snd (bind m k tr) = snd (k a (fst (m tr))).
Proof. unfold bind. destruct (m tr) as [tr' r]. simpl. now intros ->. Qed.

(** X16.  Level 1 cannot fail on data.  When the engine answers the two
    queries with frames that have the columns the queries select, and
    seaborn draws what it is given, the script runs to its end whatever
    the rows are (none at all, or all null), and it has sent both
    queries. *)
Theorem level1_runs_through_on_any_rows (w : World)
    (rows : list Level1Sql.row) (ses_rows : list Level1Sql.ses_row) :
  (forall p, sns_draw w p = Ok tt) ->
  client_query w (Level1.sql_query (WORKSPACE_CDR w)) = Ok (to_dataframe1 rows) ->
  client_query w (Level1.sql_query_ses (WORKSPACE_CDR w))
    = Ok (to_dataframe_ses ses_rows) ->
  snd (run (Level1.main w)) = Ok tt
  /\ queries (fst (run (Level1.main w)))
     = [Query (Level1.sql_query (WORKSPACE_CDR w));
        Query (Level1.sql_query_ses (WORKSPACE_CDR w))].
Proof.
  intros Hs Hq Hqs.
  assert (Hload : forall tr, snd (Level1.load w tr) = Ok (to_dataframe1 rows)).
  { intros tr. unfold Level1.load, try_except, print, run_query, Level1.cdr_dataset_id.
    unfold bind, emit, lift, ret. now rewrite Hq. }
  assert (Hloads : forall tr, snd (Level1.load_ses w tr) = Ok (to_dataframe_ses ses_rows)).
  { intros tr. unfold Level1.load_ses, try_except, print, run_query,
      Level1.cdr_dataset_id.
    unfold bind, emit, lift, ret. now rewrite Hqs. }
  assert (Hsetup : forall tr, snd (Level1.setup w tr) = Ok tt).
  { intros tr. destruct (setup_is_silent w tr) as (H & _ & ->). exact H. }
  assert (Hres : snd (run (Level1.main w)) = Ok tt).
  { unfold run, Level1.main.
    rewrite (snd_bind_Ok _ _ _ tt (Hsetup _)).
    rewrite (snd_bind_Ok _ _ _ _ (Hload _)).
    unfold Level1.report, Level1.plot1, Level1.plot2, Level1.plot3, Level1.plot4,
      Level1.plot5, Level1.plot6, Level1.plot7.
    rewrite (snd_bind_Ok _ _ _ tt) by (apply histogram_returns; [exact Hs|discriminate]).
    rewrite (snd_bind_Ok _ _ _ tt) by (apply countplot_returns; [exact Hs|discriminate]).
    rewrite (snd_bind_Ok _ _ _ tt) by (apply countplot_returns; [exact Hs|discriminate]).
    rewrite (snd_bind_Ok _ _ _ tt) by (apply countplot_returns; [exact Hs|discriminate]).
    rewrite (snd_bind_Ok _ _ _ tt) by reflexivity.
    rewrite (snd_bind_Ok _ _ _ _ (Hloads _)).
    rewrite (snd_bind_Ok _ _ _ tt) by (apply histogram_returns; [exact Hs|discriminate]).
    rewrite (snd_bind_Ok _ _ _ tt) by (apply histogram_returns; [exact Hs|discriminate]).
    apply histogram_returns; [exact Hs|discriminate]. }
  split; [exact Hres|].
  (* both queries: the run did not stop before the SES query *)
  destruct (setup_is_silent w []) as (Hok & Hq0 & H1).
  unfold run, Level1.main, bind in *. rewrite H1 in *.
  destruct (Level2.setup w []) as [tr1 [[]|e]]; simpl in Hok, Hq0; [|discriminate].
  destruct (load1_queries w tr1) as [_ Hlq]. specialize (Hload tr1).
  destruct (Level1.load w tr1) as [tr2 r2]; simpl in Hload, Hlq. subst r2.
  rewrite Hq0 in Hlq. simpl in Hlq.
  unfold Level1.report, bind in *.
  pose proof (silent_histogram w (to_dataframe1 rows) "age"
                "Distribution of Participant Age" "Age" "Count" None tr2) as S1.
  fold (Level1.plot1 w (to_dataframe1 rows)) in S1.
  destruct (Level1.plot1 w (to_dataframe1 rows) tr2) as [t1 [[]|e]]; [|discriminate].
  pose proof (silent_countplot w (to_dataframe1 rows) 10 6 "sex_at_birth"
                "Distribution of Sex at Birth" "Count" "Sex at Birth" t1) as S2.
  fold (Level1.plot2 w (to_dataframe1 rows)) in S2.
  destruct (Level1.plot2 w (to_dataframe1 rows) t1) as [t2 [[]|e]]; [|discriminate].
  pose proof (silent_countplot w (to_dataframe1 rows) 12 8 "race"
                "Distribution of Self-Reported Race" "Count" "Race" t2) as S3.
  fold (Level1.plot3 w (to_dataframe1 rows)) in S3.
  destruct (Level1.plot3 w (to_dataframe1 rows) t2) as [t3 [[]|e]]; [|discriminate].
  pose proof (silent_countplot w (to_dataframe1 rows) 10 6 "ethnicity"
                "Distribution of Self-Reported Ethnicity" "Count" "Ethnicity" t3) as S4.
  fold (Level1.plot4 w (to_dataframe1 rows)) in S4.
  destruct (Level1.plot4 w (to_dataframe1 rows) t3) as [t4 [[]|e]]; [|discriminate].
  simpl in S1, S2, S3, S4.
  set (t5 := fst (print (nl ++ "--- Starting Socioeconomic (SES) Analysis ---") t4)).
  assert (S5 : queries t5 = queries t4).
  { unfold t5, print, emit, queries. simpl. rewrite filter_app. simpl. apply app_nil_r. }
  change (print (nl ++ "--- Starting Socioeconomic (SES) Analysis ---") t4)
    with (t5, @Ok unit tt).
  cbn iota.
  destruct (load_ses_queries w t5) as [[dfs Hdfs] Hsq].
  destruct (Level1.load_ses w t5) as [t6 r6]; simpl in Hdfs, Hsq. subst r6.
  assert (Hrest : silent (bind (Level1.plot5 w dfs)
                     (fun _ => bind (Level1.plot6 w dfs)
                                 (fun _ => Level1.plot7 w dfs)))).
  { apply silent_bind; [apply silent_histogram|]. intros _.
    apply silent_bind; [apply silent_histogram|]. intros _. apply silent_histogram. }
  unfold silent, bind in Hrest. rewrite Hrest, Hsq, S5, S4, S3, S2, S1, Hlq.
  reflexivity.
Qed.

Lemma level1_runs_through_on_any_rows_witness :
  snd (run (Level1.main (Frames.quiet (Some "aou.C2024Q3R5")
                           (serve "aou.C2024Q3R5" Sample.unmatched))))
  = Ok tt.
Proof.
  refine (proj1 (level1_runs_through_on_any_rows
                   (Frames.quiet (Some "aou.C2024Q3R5")
                      (serve "aou.C2024Q3R5" Sample.unmatched))
                   (Level1Sql.sql_query Sample.unmatched)
                   (Level1Sql.sql_query_ses Sample.unmatched) _ _ _));
    reflexivity.
Defined.

(** X17.  Level 2 fails on data only for want of groups.  When seaborn
    draws and the statistics routines return on what they accept, the
    three analyses run to the end on every frame on which the income
    comparison and, after the label cleaning, the poverty comparison
    each find at least two groups; the frame they leave is the loaded
    frame with the cleaned ethnicity labels and the column
    ses_data_missing. *)
Theorem level2_analyses_run_through_with_two_groups (w : World)
    (df df' : DataFrame) (gs gs_eth : list cell) :
  (forall p, sns_draw w p = Ok tt) ->
  (forall samples, (2 <= List.length samples)%nat ->
     exists hp, kruskal w samples = Ok hp) ->
  (forall vals grps adjust, exists res, posthoc_dunn w vals grps adjust = Ok res) ->
  (forall table, exists cp, chi2_contingency w table = Ok cp) ->
  Level2.groups df = Ok gs -> (2 <= List.length gs)%nat ->
  Level2.clean_label df = Ok df' ->
  Level2.groups_eth df' = Ok gs_eth -> (2 <= List.length gs_eth)%nat ->
  snd (run (Level2.analyses w df))
  = Ok (frame_after MissingnessByRace (frame_after PovertyByEthnicity df)).
Proof.
  intros Hs Hk Hd Hchi Hgs Hn Hclean Hge Hne.
  unfold run. rewrite (analyses_are_the_operations w df [] Hs).
  destruct (groups_Ok_columns df gs Hgs) as (race & inc & Hr & Hi).
  assert (Hkr : forall samples, (2 <= List.length samples)%nat ->
            exists hp, stats_kruskal w samples = Ok hp).
  { intros samples Hl. unfold stats_kruskal. now apply Hk. }
  (* the income comparison *)
  assert (H1 : exists out, perform w IncomeByRace df = Ok (out, df)).
  { unfold perform, Level2.plot_data, getitem. rewrite Hr, Hgs. cbn [rbind].
    destruct (income_by_group_shape df gs Hgs) as (samples & -> & Hl). cbn [rbind].
    destruct (Hkr samples ltac:(lia)) as [hp ->]. cbn [rbind]. now eexists. }
  (* the poverty comparison and the post-hoc test *)
  assert (Hdunn : exists res, Level2.dunn_results w df' = Ok res).
  { unfold Level2.dunn_results. revert Hge.
    unfold Level2.groups_eth, Level2.test_data_eth, rbind.
    destruct (dropna df' _) as [td|e] eqn:Htd; [|discriminate]. intros _.
    apply dropna_Ok in Htd. destruct Htd as [-> Hcols].
    unfold getitem. rewrite !lookup_getmask.
    destruct (lookup "fraction_poverty" df') eqn:Hp;
      [|exfalso; apply (Hcols "fraction_poverty"); simpl; tauto].
    destruct (lookup "ethnicity" df') eqn:He;
      [|exfalso; apply (Hcols "ethnicity"); simpl; tauto].
    simpl. apply Hd. }
  assert (H2 : exists out, perform w PovertyByEthnicity df = Ok (out, df')).
  { unfold perform. rewrite Hclean. cbn [rbind]. rewrite Hge. cbn [rbind].
    destruct (poverty_by_group_shape df' gs_eth Hge) as (samples & -> & Hl).
    cbn [rbind]. destruct (Hkr samples ltac:(lia)) as [hp ->]. cbn [rbind].
    destruct Hdunn as [res ->]. cbn [rbind]. now eexists. }
  (* the missingness analysis *)
  assert (Hdf' : df' = frame_after PovertyByEthnicity df).
  { destruct H2 as [out H2]. exact (perform_frame _ _ _ _ _ H2). }
  assert (Hr' : lookup "race" df' = Some race).
  { revert Hclean. unfold Level2.clean_label, rbind, getitem.
    destruct (lookup "ethnicity" df); [|discriminate]. intros [= <-].
    now rewrite lookup_setitem_other by discriminate. }
  assert (Hi' : lookup "median_income" df' = Some inc).
  { revert Hclean. unfold Level2.clean_label, rbind, getitem.
    destruct (lookup "ethnicity" df); [|discriminate]. intros [= <-].
    now rewrite lookup_setitem_other by discriminate. }
  assert (H3 : exists out d, perform w MissingnessByRace df' = Ok (out, d)).
  { unfold perform, Level2.missing_df, Level2.missing_data, groupby_apply, getitem.
    rewrite Hr', Hi'. cbn [rbind].
    unfold Level2.add_ses_data_missing, getitem. rewrite Hi'. cbn [rbind].
    unfold Level2.contingency_table, getitem.
    rewrite lookup_setitem_same, lookup_setitem_other, Hr' by discriminate.
    cbn [rbind]. destruct (Hchi (crosstab race (map Bool (isnull inc)))) as [cp ->].
    cbn [rbind]. now do 2 eexists. }
  destruct H1 as [o1 H1]. destruct H2 as [o2 H2]. destruct H3 as (o3 & d & H3).
  cbn [perform_all]. rewrite H1. cbn [rbind snd]. rewrite H2. cbn [rbind snd].
  rewrite H3. cbn [rbind snd].
  apply perform_frame in H3. now rewrite H3, Hdf'.
Qed.

Lemma level2_analyses_run_through_with_two_groups_witness :
  exists df_end,
    snd (run (Level2.analyses (Frames.quiet None (engine_down "-")) Frames.df_sample))
    = Ok df_end.
Proof.
  eexists.
  refine (level2_analyses_run_through_with_two_groups
            (Frames.quiet None (engine_down "-")) Frames.df_sample _
            [Str "White"; Str "Asian"]
            [Str "Not Hispanic or Latino"; Str "None Of These"; Str "Hispanic or Latino"]
            _ _ _ _ _ _ _ _ _);
    try reflexivity; try (simpl; lia); try (intros; eexists; reflexivity).
Defined.
